(** * Vault automation: manifest synchronisation and vault cleaning

    A shallow embedding of the two scripts under [.github/scripts]:
    - [sync-manifests.py]: regenerates [Knowledge/MANIFEST.md];
    - [vault-cleaner.py]: scans the vault and writes the issue body.

    Python text is [string]: every character is a code point below 256.
    Files are opened by the scripts in text mode, so reading translates
    carriage returns into line feeds ([universal_newlines]); writing on a
    POSIX system stores the text unchanged.

    The embedding covers the scripts on a vault that the process may read,
    search and write throughout and whose file names decode as UTF-8. Two
    failures are therefore outside of it: a refusal for lack of permission
    ([PermissionError], also from [exists] and [is_dir]), and the
    [UnicodeEncodeError] of writing a text that holds a name which Python
    keeps with surrogate escapes. Statements about what a function returns
    are made under the condition that it returns wherever one of these
    failures could intervene. *)

From Stdlib Require Import ZArith Ascii String List Lia.
From stdpp Require Import base tactics option list strings gmap sorting pretty.

Local Open Scope Z_scope.
Local Set Warnings "-register-all".

(** ** Python built-ins used by the scripts *)

Module Py.

Definition LF : ascii := "010"%char.
Definition CR : ascii := "013"%char.

(** [str.isspace] on one character: TAB..CR, FS..US, space, NEL, NBSP. *)
Definition isspace (c : ascii) : bool :=
  let n := N_of_ascii c in
  (((9 <=? n) && (n <=? 13)) || ((28 <=? n) && (n <=? 32))
   || (n =? 133) || (n =? 160))%N.

(** [s.lstrip()] *)
Fixpoint lstrip (s : string) : string :=
  match s with
  | String c s' => if isspace c then lstrip s' else s
  | EmptyString => EmptyString
  end.

(** [s.rstrip()] *)
Fixpoint rstrip (s : string) : string :=
  match s with
  | String c s' =>
      match rstrip s' with
      | EmptyString => if isspace c then EmptyString else String c EmptyString
      | r => String c r
      end
  | EmptyString => EmptyString
  end.

(** [s.strip()] *)
Definition strip (s : string) : string := rstrip (lstrip s).

(** [s.lstrip(c)] for a single character [c]. *)
Fixpoint lstrip_char (c : ascii) (s : string) : string :=
  match s with
  | String d s' => if Ascii.eqb d c then lstrip_char c s' else s
  | EmptyString => EmptyString
  end.

(** [s.startswith(p)] *)
Definition startswith (p s : string) : bool := String.prefix p s.

(** [len(s)] *)
Definition len (s : string) : Z := Z.of_nat (String.length s).

(** [s.find(sub)]: lowest index of [sub] in [s], or [-1]. *)
Fixpoint find_from (sub s : string) (i : Z) : Z :=
  if String.prefix sub s then i
  else match s with
       | String _ s' => find_from sub s' (i + 1)
       | EmptyString => -1
       end.
Definition find (sub s : string) : Z := find_from sub s 0.

(** [sub in s] *)
Definition contains (sub s : string) : bool := negb (find sub s =? -1).

(** [s.rfind(c)] for a single character: highest index, or [-1]. *)
Fixpoint rfind_from (c : ascii) (s : string) (i : Z) (last : Z) : Z :=
  match s with
  | String d s' => rfind_from c s' (i + 1) (if Ascii.eqb d c then i else last)
  | EmptyString => last
  end.
Definition rfind (c : ascii) (s : string) : Z := rfind_from c s 0 (-1).

(** Index clamping of a slice bound, as Python does for [s[a:b]]. *)
Definition clamp (n i : Z) : Z :=
  if i <? 0 then Z.max (i + n) 0 else Z.min i n.

(** [s[a:b]] *)
Definition slice (s : string) (a b : Z) : string :=
  let n := len s in
  let a' := clamp n a in
  let b' := clamp n b in
  String.substring (Z.to_nat a') (Z.to_nat (b' - a')) s.

(** [s[:b]] and [s[a:]] *)
Definition slice_to (s : string) (b : Z) : string := slice s 0 b.
Definition slice_from (s : string) (a : Z) : string := slice s a (len s).

(** [sep.join(parts)] *)
Definition join (sep : string) (parts : list string) : string :=
  String.concat sep parts.

(** Text-mode reading with the default [newline=None]: the sequences
    CR LF and CR are both delivered as LF. *)
Fixpoint universal_newlines (s : string) : string :=
  match s with
  | String c s' =>
      if Ascii.eqb c CR then
        String LF (match s' with
                   | String d s'' =>
                       if Ascii.eqb d LF then universal_newlines s''
                       else universal_newlines s'
                   | EmptyString => EmptyString
                   end)
      else String c (universal_newlines s')
  | EmptyString => EmptyString
  end.

(** [for line in f]: the text cut after every LF, terminators kept. *)
Fixpoint readlines (s : string) : list string :=
  match s with
  | String c s' =>
      if Ascii.eqb c LF then String c EmptyString :: readlines s'
      else match readlines s' with
           | l :: ls => String c l :: ls
           | [] => [String c EmptyString]
           end
  | EmptyString => []
  end.

(** [int(s)]: optional surrounding blanks, an optional sign, then decimal
    digits in which single underscores may separate digits. *)
Definition digit (c : ascii) : option Z :=
  let n := N_of_ascii c in
  if ((48 <=? n) && (n <=? 57))%N then Some (Z.of_N n - 48) else None.

Fixpoint int_digits (s : string) (acc : Z) (after_digit : bool) : option Z :=
  match s with
  | EmptyString => if after_digit then Some acc else None
  | String c s' =>
      match digit c with
      | Some d => int_digits s' (10 * acc + d) true
      | None =>
          if Ascii.eqb c "_"%char && after_digit then
            match s' with
            | EmptyString => None
            | String c' _ =>
                match digit c' with
                | Some _ => int_digits s' acc false
                | None => None
                end
            end
          else None
      end
  end.

Definition int (s : string) : option Z :=
  match strip s with
  | String "-" s' => Z.opp <$> int_digits s' 0 false
  | String "+" s' => int_digits s' 0 false
  | s' => int_digits s' 0 false
  end.

(** [str(n)] for an integer. *)
Definition str (n : Z) : string := pretty n.

(** [str(b)] for a Boolean. *)
Definition str_bool (b : bool) : string := if b then "True" else "False".

(** [s.lower()]: the capital letters of the alphabet are A to Z and the
    code points 192 to 222 but the multiplication sign. *)
Definition lower_char (c : ascii) : ascii :=
  let n := N_of_ascii c in
  if (((65 <=? n) && (n <=? 90))
      || ((192 <=? n) && (n <=? 222) && negb (n =? 215)))%N
  then ascii_of_N (n + 32) else c.

Fixpoint lower (s : string) : string :=
  match s with
  | String c s' => String (lower_char c) (lower s')
  | EmptyString => EmptyString
  end.

(** [sorted(xs)] under a comparison [le]: a stable insertion sort, so
    equal keys keep their input order as with Python's sort. *)
Section Sorting.
Context {A : Type} (le : A -> A -> bool).

Fixpoint insort (x : A) (l : list A) : list A :=
  match l with
  | [] => [x]
  | y :: l' => if le x y then x :: l else y :: insort x l'
  end.

Definition sorted (l : list A) : list A := foldr insort [] l.
End Sorting.

(** [sorted] on a list of [str]: code point order. *)
Definition sorted_str : list string -> list string := sorted String.leb.

End Py.

(** ** Exceptions *)

Inductive exn : Set :=
| FileNotFoundError
| NotADirectoryError
| IsADirectoryError
| UnicodeDecodeError
| ValueError
| OverflowError
| OSError.

Inductive result (A : Type) : Type :=
| Ok (a : A)
| Raise (e : exn).
Arguments Ok {A} a.
Arguments Raise {A} e.

Global Instance result_ret : MRet result := fun A a => Ok a.
Global Instance result_bind : MBind result := fun A B f m =>
  match m with
  | Ok a => f a
  | Raise e => Raise e
  end.

(** [try: body except Exception: pass], the body's value kept when it
    returns. *)
Definition try_pass {A} (body : result A) : option A :=
  match body with
  | Ok a => Some a
  | Raise _ => None
  end.

(** [try: body except Exception: pass] followed by [rest]: the body either
    returns a value ([Some]), or falls through or raises, and then [rest]
    runs. *)
Definition try_except {A} (body : result (option A)) (rest : result A) : result A :=
  match try_pass body with
  | Some (Some a) => Ok a
  | _ => rest
  end.

(** A [dict] with [str] keys, in insertion order: assigning to a key that
    is present keeps its place. *)
Definition dict (V : Type) : Type := list (string * V).

Fixpoint dict_set {V} (k : string) (v : V) (d : dict V) : dict V :=
  match d with
  | [] => [(k, v)]
  | (k', v') :: d' =>
      if String.eqb k' k then (k', v) :: d' else (k', v') :: dict_set k v d'
  end.

Fixpoint dict_get {V} (k : string) (d : dict V) : option V :=
  match d with
  | [] => None
  | (k', v') :: d' => if String.eqb k' k then Some v' else dict_get k d'
  end.

(** Truth value of a container: it is not empty. *)
Definition truthy {A} (l : list A) : bool :=
  match l with
  | [] => false
  | _ :: _ => true
  end.

(** ** The file system as [pathlib] sees it *)

Module Fs.

(** A file holds its text, or [None] when it cannot be decoded as UTF-8
    from its first chunk on. A torn file decodes for a while: readers
    decode a file chunk by chunk, and [head] is the text of the chunks
    that precede the first one that cannot be decoded (a carriage return
    that ends them is held back with that chunk). A directory lists its
    entries in the order in which the system enumerates them. *)
Inductive node : Type :=
| File (text : option string)
| Dir (entries : list (string * node))
| Torn (head : string).

(** A [Path]: the components below the root of the file system. *)
Definition path : Type := list string.

(** [p / name] *)
Definition joinpath (p : path) (name : string) : path := p ++ [name].

(** [p.name] *)
Definition name (p : path) : string := List.last p EmptyString.

(** [p.stem]: the name without its last suffix; a dot in first or in last
    position does not start a suffix. *)
Definition stem (p : path) : string :=
  let n := name p in
  let i := Py.rfind "." n in
  if (0 <? i) && (i <? Py.len n - 1) then Py.slice_to n i else n.

(** Paths are ordered as the lists of their components. *)
Fixpoint path_compare (p q : path) : comparison :=
  match p, q with
  | [], [] => Eq
  | [], _ :: _ => Lt
  | _ :: _, [] => Gt
  | a :: p', b :: q' =>
      match String.compare a b with
      | Eq => path_compare p' q'
      | c => c
      end
  end.

Definition path_leb (p q : path) : bool :=
  match path_compare p q with
  | Gt => false
  | _ => true
  end.

Definition sorted_paths : list path -> list path := Py.sorted path_leb.

Fixpoint lookup_entry (c : string) (es : list (string * node)) : option node :=
  match es with
  | [] => None
  | (d, n) :: es' => if String.eqb d c then Some n else lookup_entry c es'
  end.

Fixpoint resolve (fs : node) (p : path) : option node :=
  match p with
  | [] => Some fs
  | c :: p' =>
      match fs with
      | Dir es =>
          match lookup_entry c es with
          | Some n => resolve n p'
          | None => None
          end
      | File _ | Torn _ => None
      end
  end.

(** The error of a system call on a path that does not resolve: a
    component of it is a regular file ([ENOTDIR]), or is missing
    ([ENOENT]). *)
Fixpoint resolve_error (fs : node) (p : path) : exn :=
  match p with
  | [] => FileNotFoundError
  | c :: p' =>
      match fs with
      | Dir es =>
          match lookup_entry c es with
          | Some n => resolve_error n p'
          | None => FileNotFoundError
          end
      | File _ | Torn _ => NotADirectoryError
      end
  end.

(** [p.exists()] and [p.is_dir()] *)
Definition exists_ (fs : node) (p : path) : bool :=
  match resolve fs p with
  | Some _ => true
  | None => false
  end.

Definition is_dir (fs : node) (p : path) : bool :=
  match resolve fs p with
  | Some (Dir _) => true
  | _ => false
  end.

(** [p.iterdir()]: raises unless [p] is a directory. *)
Definition iterdir (fs : node) (p : path) : result (list path) :=
  match resolve fs p with
  | Some (Dir es) => Ok (map (fun e => joinpath p (fst e)) es)
  | Some (File _) | Some (Torn _) => Raise NotADirectoryError
  | None => Raise (resolve_error fs p)
  end.

(** [s.endswith(suffix)] *)
Definition endswith (suffix s : string) : bool :=
  let n := String.length s in
  let k := String.length suffix in
  (k <=? n)%nat && String.eqb (String.substring (n - k) k s) suffix.

(** [p.glob('*.md')]: the entries whose name ends in [.md], in
    enumeration order; nothing when [p] is not a directory. *)
Definition glob_md (fs : node) (p : path) : list path :=
  match resolve fs p with
  | Some (Dir es) =>
      filter (fun f => Is_true (endswith ".md" (name f)))
             (map (fun e => joinpath p (fst e)) es)
  | _ => []
  end.

(** [open(p, 'r', encoding='utf-8')] followed by [f.read()], which
    decodes the whole file. *)
Definition read_text (fs : node) (p : path) : result string :=
  match resolve fs p with
  | Some (File (Some t)) => Ok (Py.universal_newlines t)
  | Some (File None) | Some (Torn _) => Raise UnicodeDecodeError
  | Some (Dir _) => Raise IsADirectoryError
  | None => Raise (resolve_error fs p)
  end.

(** The lines of a text that end in a line feed. *)
Definition whole_lines (lines : list string) : list string :=
  filter (fun l => Is_true (endswith (String Py.LF EmptyString) l)) lines.

(** [open(p, 'r', encoding='utf-8')] followed by [for line in f]: the
    lines that the iteration yields and, when it ends in an exception
    rather than at the end of the file, that exception. A torn file
    yields the whole lines of its head before the chunk that cannot be
    decoded is reached. *)
Definition iter_lines (fs : node) (p : path) : result (list string * option exn) :=
  match resolve fs p with
  | Some (File (Some t)) => Ok (Py.readlines (Py.universal_newlines t), None)
  | Some (File None) => Ok ([], Some UnicodeDecodeError)
  | Some (Torn head) =>
      Ok (whole_lines (Py.readlines (Py.universal_newlines head)),
          Some UnicodeDecodeError)
  | Some (Dir _) => Raise IsADirectoryError
  | None => Raise (resolve_error fs p)
  end.

(** Replace, or create at the end of the listing, the entry [c]. *)
Fixpoint alter_entry (c : string) (f : option node -> result node)
    (es : list (string * node)) : result (list (string * node)) :=
  match es with
  | [] => n ← f None; Ok [(c, n)]
  | (d, m) :: es' =>
      if String.eqb d c then n ← f (Some m); Ok ((d, n) :: es')
      else es'' ← alter_entry c f es'; Ok ((d, m) :: es'')
  end.

(** [open(p, 'w', encoding='utf-8')] followed by [f.write(txt)]: the file
    is created when only its parent exists. *)
Fixpoint write_text (fs : node) (p : path) (txt : string) : result node :=
  match p with
  | [] =>
      match fs with
      | File _ | Torn _ => Ok (File (Some txt))
      | Dir _ => Raise IsADirectoryError
      end
  | c :: p' =>
      match fs with
      | Dir es =>
          es' ← alter_entry c
                  (fun o =>
                     match o with
                     | Some m => write_text m p' txt
                     | None =>
                         match p' with
                         | [] => Ok (File (Some txt))
                         | _ :: _ => Raise FileNotFoundError
                         end
                     end) es;
          Ok (Dir es')
      | File _ | Torn _ => Raise NotADirectoryError
      end
  end.

(** [open(p, 'a')] followed by [f.write(txt)]: the text is added at the
    end of the file, which is created when only its parent exists. *)
Fixpoint append_text (fs : node) (p : path) (txt : string) : result node :=
  match p with
  | [] =>
      match fs with
      | File (Some t) => Ok (File (Some (t +:+ txt)))
      | File None => Ok (File None)
      | Torn head => Ok (Torn head)
      | Dir _ => Raise IsADirectoryError
      end
  | c :: p' =>
      match fs with
      | Dir es =>
          es' ← alter_entry c
                  (fun o =>
                     match o with
                     | Some m => append_text m p' txt
                     | None =>
                         match p' with
                         | [] => Ok (File (Some txt))
                         | _ :: _ => Raise FileNotFoundError
                         end
                     end) es;
          Ok (Dir es')
      | File _ | Torn _ => Raise NotADirectoryError
      end
  end.

End Fs.

Notation "p // n" := (Fs.joinpath p n) (at level 40, left associativity).

(** ** [sync-manifests.py] *)

Module SyncManifests.
Import Fs.

(** The loop of [get_first_heading] over the lines of the file: [Some]
    is the value returned from inside the loop, [None] falls through. *)
Fixpoint first_heading_loop (lines : list string) : option string :=
  match lines with
  | [] => None
  | line :: rest =>
      let line := Py.strip line in
      if String.eqb line "" then first_heading_loop rest
      else if Py.startswith "#" line then
        Some (Py.strip (Py.lstrip_char "#" line))
      else
        Some (Py.slice_to line 80 +:+ (if Py.len line >? 80 then "..." else ""))
  end.

(** The file is read line by line: a value returned from inside the loop
    is kept whatever the rest of the file holds, and an exception of the
    iteration is raised only once the lines before it are consumed. *)
Definition get_first_heading (fs : node) (file_path : path) : string :=
  match try_pass (it ← iter_lines fs file_path;
                  let '(lines, failure) := (it : list string * option exn) in
                  match first_heading_loop lines with
                  | Some description => Ok (Some description)
                  | None =>
                      match failure with
                      | Some e => Raise e
                      | None => Ok None
                      end
                  end) with
  | Some (Some description) => description
  | _ => "No description"
  end.

(** The list [md_files]: every [*.md] entry but the manifest, sorted. *)
Definition md_files (fs : node) (knowledge_dir : path) : list path :=
  sorted_paths
    (filter (fun f => name f <> "MANIFEST.md") (glob_md fs knowledge_dir)).

Definition manifest_row (fs : node) (md_file : path) : string :=
  "| [[" +:+ stem md_file +:+ "]] | " +:+ get_first_heading fs md_file +:+ " |".

Definition manifest_header : list string :=
  ["# Knowledge Manifest"; ""; "| File | Description |"; "|------|-------------|"].

(** The list [lines] of [generate_manifest_content] before it is joined. *)
Definition generate_manifest_lines (fs : node) (knowledge_dir : path) : list string :=
  let files := md_files fs knowledge_dir in
  let lines := manifest_header in
  let lines :=
    match files with
    | [] => lines ++ ["| *(empty)* | Add notes to this folder |"]
    | _ :: _ => foldl (fun lines md_file => lines ++ [manifest_row fs md_file]) lines files
    end in
  lines ++ [""].

Definition generate_manifest_content (fs : node) (knowledge_dir : path) : string :=
  Py.join "
" (generate_manifest_lines fs knowledge_dir).

(** [update_manifest]: the returned flag and the file system it leaves. *)
Definition update_manifest (fs : node) (knowledge_dir : path) (check_only : bool)
  : result (bool * node) :=
  let manifest_path := knowledge_dir // "MANIFEST.md" in
  let new_content := generate_manifest_content fs knowledge_dir in
  current_content ←
    (if exists_ fs manifest_path then read_text fs manifest_path else Ok "");
  if String.eqb current_content new_content then Ok (true, fs)
  else if check_only then Ok (false, fs)
  else
    fs' ← write_text fs manifest_path new_content;
    Ok (false, fs').

(** [get_pillars]: the folders with a [Knowledge/] entry. *)
Definition get_pillars (fs : node) (vault_root : path) : result (list string) :=
  items ← iterdir fs vault_root;
  Ok (Py.sorted_str
        (foldl (fun pillars item =>
                  if is_dir fs item && negb (Py.startswith "." (name item)) then
                    if exists_ fs (item // "Knowledge") then pillars ++ [name item]
                    else pillars
                  else pillars)
               [] items)).

(** [main]: the exit status handed to [sys.exit] and the file system the
    run leaves; [check_only] tells whether [--check] is among the
    arguments. What is printed is left out. *)
Definition main (fs : node) (vault_root : path) (check_only : bool)
  : result (Z * node) :=
  pillars ← get_pillars fs vault_root;
  if negb (truthy pillars) then Ok (0, fs)
  else
    state ←
      foldl (fun (acc : result (bool * node)) (pillar : string) =>
               state ← acc;
               let '(all_in_sync, fs) := (state : bool * node) in
               let knowledge_dir := vault_root // pillar // "Knowledge" in
               if negb (exists_ fs knowledge_dir) then Ok (all_in_sync, fs)
               else
                 updated ← update_manifest fs knowledge_dir check_only;
                 let '(was_in_sync, fs) := (updated : bool * node) in
                 if was_in_sync then Ok (all_in_sync, fs)
                 else Ok (false, fs))
            (Ok (true, fs)) pillars;
    let '(all_in_sync, fs) := (state : bool * node) in
    if check_only && negb all_in_sync then Ok (1, fs) else Ok (0, fs).

End SyncManifests.

(** ** [vault-cleaner.py] *)

Module VaultCleaner.
Import Fs.

Definition INBOX_AGE_THRESHOLD_DAYS : Z := 3.
Definition PROJECT_STALE_THRESHOLD_DAYS : Z := 30.

Record FileItem : Type := { item_name : string; age_days : Z }.

(** A naive [datetime] is a reading of the local calendar and clock,
    counted in microseconds from a fixed origin, so that the difference of
    two of them is the difference of their readings; a [timedelta] is kept
    normalised as Python keeps it. *)
Definition datetime : Type := Z.

Record timedelta : Type := { days : Z; seconds : Z; microseconds : Z }.

Definition US_PER_SECOND : Z := 1000000.
Definition US_PER_DAY : Z := 86400 * US_PER_SECOND.

(** [a - b] on datetimes *)
Definition datetime_sub (a b : datetime) : timedelta :=
  let d := a - b in
  {| days := d `div` US_PER_DAY;
     seconds := (d `mod` US_PER_DAY) `div` US_PER_SECOND;
     microseconds := d `mod` US_PER_SECOND |}.

(** [int(s)], raising [ValueError] on a malformed literal. *)
Definition int (s : string) : result Z :=
  match Py.int s with
  | Some n => Ok n
  | None => Raise ValueError
  end.

(** What [subprocess.run] hands back. *)
Record CompletedProcess : Type := { returncode : Z; stdout : string }.

(** The two places where the clock is read while a file is examined. *)
Inductive clock_site : Set := InLastModified | InDaysSince.

(** The collaborators of a scan: the file system; [git log -1
    --format=%ct -- file] run in the vault root; [stat] of a file, its
    [st_mtime] counted in microseconds; [datetime.fromtimestamp] of the
    platform on an epoch time in microseconds, which gives the naive local
    time in the time zone of the process or raises outside the range that
    the platform supports; [datetime.now()] as read at each of the two
    sites while a given file is examined; and the path that the
    environment variable [GITHUB_OUTPUT] holds, [None] when it is unset or
    empty. *)
Record world : Type := {
  fs : node;
  git_log : path -> path -> result CompletedProcess;
  stat_mtime : path -> result Z;
  local_time : Z -> result datetime;
  now : path -> clock_site -> datetime;
  github_output : option path
}.

(** [datetime.fromtimestamp(timestamp)] on a number of seconds, and on an
    [st_mtime]. *)
Definition fromtimestamp (w : world) (timestamp : Z) : result datetime :=
  local_time w (timestamp * US_PER_SECOND).

Definition fromtimestamp_us (w : world) (us : Z) : result datetime :=
  local_time w us.

Definition get_pillars (fs : node) (vault_root : path) : result (list string) :=
  items ← iterdir fs vault_root;
  Ok (Py.sorted_str
        (foldl (fun pillars item =>
                  if is_dir fs item && negb (Py.startswith "." (name item)) then
                    let has_inbox := exists_ fs (item // "Inbox") in
                    let has_projects := exists_ fs (item // "Projects") in
                    let has_knowledge := exists_ fs (item // "Knowledge") in
                    if has_inbox || has_projects || has_knowledge
                    then pillars ++ [name item]
                    else pillars
                  else pillars)
               [] items)).

Definition get_file_last_modified (w : world) (file_path vault_root : path)
  : result datetime :=
  (* Try git first *)
  try_except
    (result ← git_log w file_path vault_root;
     if (returncode result =? 0) && negb (String.eqb (Py.strip (stdout result)) "")
     then
       timestamp ← int (Py.strip (stdout result));
       d ← fromtimestamp w timestamp;
       Ok (Some d)
     else Ok None)
    (* Fall back to filesystem modification time *)
    (try_except
       (mtime ← stat_mtime w file_path;
        d ← fromtimestamp_us w mtime;
        Ok (Some d))
       (* If all else fails, return now (0 days ago) *)
       (Ok (now w file_path InLastModified))).

(** [days_since(dt)], [now] being what [datetime.now()] returns in it. *)
Definition days_since (now dt : datetime) : Z :=
  let delta := datetime_sub now dt in
  days delta.

Definition parse_manifest_line (entries : gset string) (line : string) : gset string :=
  let line := Py.strip line in
  if Py.startswith "|" line && Py.contains "[[" line then
    let start := Py.find "[[" line in
    let end_ := Py.find "]]" line in
    if negb (start =? -1) && negb (end_ =? -1)
    then {[ Py.slice line (start + 2) end_ ]} ∪ entries
    else entries
  else entries.

(** The set [entries] is filled line by line, so the entries of the lines
    read before an exception of the iteration are kept. *)
Definition parse_manifest (fs : node) (manifest_path : path) : gset string :=
  if negb (exists_ fs manifest_path) then ∅
  else
    match try_pass (iter_lines fs manifest_path) with
    | Some (lines, _) => foldl parse_manifest_line ∅ lines
    | None => ∅
    end.

Definition get_actual_files (fs : node) (knowledge_dir : path) : gset string :=
  if negb (exists_ fs knowledge_dir) then ∅
  else
    foldl (fun files f =>
             if bool_decide (name f <> "MANIFEST.md") then {[ stem f ]} ∪ files
             else files)
          ∅ (glob_md fs knowledge_dir).

Record ManifestIssue : Type := { add : list string; remove : list string }.

Definition check_manifest_sync (fs : node) (vault_root : path)
  : result (dict ManifestIssue) :=
  pillars ← get_pillars fs vault_root;
  Ok (foldl (fun issues pillar =>
               let knowledge_dir := vault_root // pillar // "Knowledge" in
               let manifest_path := knowledge_dir // "MANIFEST.md" in
               if negb (exists_ fs knowledge_dir) then issues
               else
                 let manifest_entries := parse_manifest fs manifest_path in
                 let actual_files := get_actual_files fs knowledge_dir in
                 let missing_from_manifest := actual_files ∖ manifest_entries in
                 let extra_in_manifest := manifest_entries ∖ actual_files in
                 if truthy (elements missing_from_manifest)
                    || truthy (elements extra_in_manifest)
                 then dict_set pillar
                        {| add := Py.sorted_str (elements missing_from_manifest);
                           remove := Py.sorted_str (elements extra_in_manifest) |}
                        issues
                 else issues)
            [] pillars).

(** [sorted(items, key=lambda x: -x['age_days'])] *)
Definition sorted_by_age : list FileItem -> list FileItem :=
  Py.sorted (fun a b => - age_days a <=? - age_days b).

Definition check_inbox_items (w : world) (vault_root : path)
  : result (dict (list FileItem)) :=
  pillars ← get_pillars (fs w) vault_root;
  foldl (fun acc pillar =>
           items ← acc;
           let inbox_dir := vault_root // pillar // "Inbox" in
           if negb (exists_ (fs w) inbox_dir) then Ok items
           else
             pillar_items ←
               foldl (fun acc f =>
                        pillar_items ← acc;
                        last_modified ← get_file_last_modified w f vault_root;
                        let age_days :=
                          days_since (now w f InDaysSince) last_modified in
                        if age_days >=? INBOX_AGE_THRESHOLD_DAYS
                        then Ok (pillar_items ++
                                   [{| item_name := name f; age_days := age_days |}])
                        else Ok pillar_items)
                     (Ok []) (glob_md (fs w) inbox_dir);
             if truthy pillar_items
             then Ok (dict_set pillar (sorted_by_age pillar_items) items)
             else Ok items)
        (Ok []) pillars.

Definition check_stale_projects (w : world) (vault_root : path)
  : result (dict (list FileItem)) :=
  pillars ← get_pillars (fs w) vault_root;
  foldl (fun acc pillar =>
           stale ← acc;
           let projects_dir := vault_root // pillar // "Projects" in
           if negb (exists_ (fs w) projects_dir) then Ok stale
           else
             pillar_stale ←
               foldl (fun acc f =>
                        pillar_stale ← acc;
                        last_modified ← get_file_last_modified w f vault_root;
                        let age_days :=
                          days_since (now w f InDaysSince) last_modified in
                        if age_days >=? PROJECT_STALE_THRESHOLD_DAYS
                        then Ok (pillar_stale ++
                                   [{| item_name := name f; age_days := age_days |}])
                        else Ok pillar_stale)
                     (Ok []) (glob_md (fs w) projects_dir);
             if truthy pillar_stale
             then Ok (dict_set pillar (sorted_by_age pillar_stale) stale)
             else Ok stale)
        (Ok []) pillars.

(** The list [lines] of [generate_issue_body] before it is joined. *)
Definition generate_issue_lines (manifest_issues : dict ManifestIssue)
    (inbox_items stale_projects : dict (list FileItem)) : list string :=
  let lines :=
    ["# Vault Cleaning Tasks";
     "";
     "This issue was auto-generated by the weekly vault cleaning workflow.";
     "Please complete the following tasks.";
     ""] in
  let task_num := 1 in
  (* Manifest sync tasks *)
  let '(lines, task_num) :=
    if truthy manifest_issues then
      let lines :=
        lines ++ ["## " +:+ Py.str task_num +:+ ". Fix Manifest Files";
                  "";
                  "The following MANIFEST.md files are out of sync:";
                  ""] in
      let lines :=
        foldl (fun lines '(pillar, issues) =>
                 let lines :=
                   lines ++ ["### " +:+ pillar +:+ "/Knowledge/MANIFEST.md"; ""] in
                 let lines :=
                   lines ++ map (fun name => "- Add: `[[" +:+ name +:+ "]]`") (add issues) in
                 let lines :=
                   lines ++ map (fun name => "- Remove: `[[" +:+ name +:+ "]]`")
                                (remove issues) in
                 lines ++ [""])
              lines manifest_issues in
      let lines :=
        lines ++ ["**Instructions:** Regenerate each manifest by scanning the Knowledge/ folder.";
                  "Each entry should be: `| [[filename]] | first heading or description |`";
                  ""] in
      (lines, task_num + 1)
    else (lines, task_num) in
  (* Inbox items tasks *)
  let '(lines, task_num) :=
    if truthy inbox_items then
      let lines :=
        lines ++ ["## " +:+ Py.str task_num +:+ ". Process Inbox Items";
                  "";
                  "The following items have been in Inbox for "
                    +:+ Py.str INBOX_AGE_THRESHOLD_DAYS +:+ "+ days:";
                  ""] in
      let lines :=
        foldl (fun lines '(pillar, items) =>
                 let lines := lines ++ ["### " +:+ pillar +:+ "/Inbox/"; ""] in
                 let lines :=
                   lines ++ map (fun item =>
                                   "- `" +:+ item_name item +:+ "` ("
                                     +:+ Py.str (age_days item) +:+ " days)")
                                items in
                 lines ++ [""])
              lines inbox_items in
      let lines :=
        lines ++ ["**Instructions:** Review each file. Either:";
                  "- Move to `Knowledge/` if it is reference material";
                  "- Move to `Projects/` if it is active work";
                  "- Delete if no longer needed";
                  "";
                  "After moving files to Knowledge/, update the corresponding MANIFEST.md.";
                  ""] in
      (lines, task_num + 1)
    else (lines, task_num) in
  (* Stale projects tasks *)
  let '(lines, task_num) :=
    if truthy stale_projects then
      let lines :=
        lines ++ ["## " +:+ Py.str task_num +:+ ". Archive Stale Projects";
                  "";
                  "The following projects have not been modified in "
                    +:+ Py.str PROJECT_STALE_THRESHOLD_DAYS +:+ "+ days:";
                  ""] in
      let lines :=
        foldl (fun lines '(pillar, projects) =>
                 let lines := lines ++ ["### " +:+ pillar +:+ "/Projects/"; ""] in
                 let lines :=
                   lines ++ map (fun proj =>
                                   "- `" +:+ item_name proj +:+ "` ("
                                     +:+ Py.str (age_days proj) +:+ " days)")
                                projects in
                 lines ++ [""])
              lines stale_projects in
      let lines :=
        lines ++ ["**Instructions:** For each stale project:";
                  "1. Create an archived summary in `Knowledge/`";
                  "2. Include the current git commit hash for reference";
                  "3. Delete the original project file";
                  "4. Update MANIFEST.md";
                  ""] in
      (lines, task_num + 1)
    else (lines, task_num) in
  (* Footer *)
  lines ++ ["---";
            "";
            "When complete, the PR should include all changes and updated manifests.";
            ""].

Definition generate_issue_body (manifest_issues : dict ManifestIssue)
    (inbox_items stale_projects : dict (list FileItem)) : string :=
  Py.join "
" (generate_issue_lines manifest_issues inbox_items stale_projects).

(** [set_github_output]: the line is added to the file that
    [GITHUB_OUTPUT] names; without that variable it is only printed. *)
Definition set_github_output (w : world) (fs : node) (name value : string)
  : result node :=
  match github_output w with
  | Some github_output =>
      append_text fs github_output (name +:+ "=" +:+ value +:+ "
")
  | None => Ok fs
  end.

(** What a run of [main] leaves behind: the flag handed to
    [set_github_output] and the file system, in which
    [cleaning-tasks.md] is written only when there are tasks and the
    output file of the workflow, if any, has one more line. What is
    printed is left out. *)
Record outcome : Type := { has_tasks : bool; fs_after : node }.

Definition main (w : world) (vault_root : path) : result outcome :=
  (* Run all checks *)
  manifest_issues ← check_manifest_sync (fs w) vault_root;
  inbox_items ← check_inbox_items w vault_root;
  stale_projects ← check_stale_projects w vault_root;
  (* Report findings *)
  let has_tasks :=
    truthy manifest_issues || truthy inbox_items || truthy stale_projects in
  (* Generate issue body if there are tasks *)
  fs' ←
    (if has_tasks then
       let issue_body := generate_issue_body manifest_issues inbox_items stale_projects in
       let output_path := vault_root // "cleaning-tasks.md" in
       write_text (fs w) output_path issue_body
     else Ok (fs w));
  (* Set GitHub Actions output *)
  fs'' ← set_github_output w fs' "has_tasks" (Py.lower (Py.str_bool has_tasks));
  Ok {| has_tasks := has_tasks; fs_after := fs'' |}.

End VaultCleaner.

(** * Vocabulary of the properties, and sample vaults *)

Section LastModifiedVocabulary.
Import Fs VaultCleaner.

(** The outcomes of the version-control lookup of a file. *)
Inductive git_success (w : world) (file_path vault_root : path) (d : datetime) : Prop :=
| GitSuccess (p : CompletedProcess) (timestamp : Z) :
    git_log w file_path vault_root = Ok p ->
    returncode p = 0 ->
    Py.strip (stdout p) <> "" ->
    Py.int (Py.strip (stdout p)) = Some timestamp ->
    fromtimestamp w timestamp = Ok d ->
    git_success w file_path vault_root d.

(** The ways in which the lookup fails. *)
Inductive git_failure (w : world) (file_path vault_root : path) : Prop :=
| GitUnavailable (e : exn) :
    git_log w file_path vault_root = Raise e ->
    git_failure w file_path vault_root
| GitNonZero (p : CompletedProcess) :
    git_log w file_path vault_root = Ok p ->
    returncode p <> 0 ->
    git_failure w file_path vault_root
| GitNoOutput (p : CompletedProcess) :
    git_log w file_path vault_root = Ok p ->
    Py.strip (stdout p) = "" ->
    git_failure w file_path vault_root
| GitNotANumber (p : CompletedProcess) :
    git_log w file_path vault_root = Ok p ->
    Py.int (Py.strip (stdout p)) = None ->
    git_failure w file_path vault_root
| GitOutOfRange (p : CompletedProcess) (timestamp : Z) (e : exn) :
    git_log w file_path vault_root = Ok p ->
    Py.int (Py.strip (stdout p)) = Some timestamp ->
    fromtimestamp w timestamp = Raise e ->
    git_failure w file_path vault_root.

(** The outcomes of the file-system lookup. *)
Inductive mtime_failure (w : world) (file_path : path) : Prop :=
| StatFails (e : exn) :
    stat_mtime w file_path = Raise e -> mtime_failure w file_path
| MtimeOutOfRange (m : Z) (e : exn) :
    stat_mtime w file_path = Ok m ->
    fromtimestamp_us w m = Raise e ->
    mtime_failure w file_path.

End LastModifiedVocabulary.

Section AgeChecksVocabulary.
Import Fs VaultCleaner.
Context (w : world) (vault_root : path).

(** The time stamp and the age that a scan computes for a file. *)
Definition last_modified_of (f : path) : datetime :=
  match get_file_last_modified w f vault_root with
  | Ok d => d
  | Raise _ => 0
  end.

Definition age_of (f : path) : Z :=
  days_since (now w f InDaysSince) (last_modified_of f).

(** What a check appends for a file, and for the files of a folder. *)
Definition item_of (f : path) : FileItem :=
  {| item_name := name f; age_days := age_of f |}.

Definition aged (threshold : Z) (files : list path) : list FileItem :=
  item_of <$> filter (fun f => threshold <= age_of f) files.

(** Both checks share one loop, over a folder name and a threshold. *)
Definition check_folder (folder : string) (threshold : Z)
  : result (dict (list FileItem)) :=
  pillars ← get_pillars (fs w) vault_root;
  foldl (fun acc pillar =>
           items ← acc;
           let dir := vault_root // pillar // folder in
           if negb (exists_ (fs w) dir) then Ok items
           else
             pillar_items ←
               foldl (fun acc f =>
                        pillar_items ← acc;
                        last_modified ← get_file_last_modified w f vault_root;
                        let age_days :=
                          days_since (now w f InDaysSince) last_modified in
                        if age_days >=? threshold
                        then Ok (pillar_items ++
                                   [{| item_name := name f; age_days := age_days |}])
                        else Ok pillar_items)
                     (Ok []) (glob_md (fs w) dir);
             if truthy pillar_items
             then Ok (dict_set pillar (sorted_by_age pillar_items) items)
             else Ok items)
        (Ok []) pillars.

(** What a check records for one pillar. *)
Definition folder_report (folder : string) (threshold : Z) (pillar : string)
  : option (list FileItem) :=
  let dir := vault_root // pillar // folder in
  if exists_ (fs w) dir then
    match aged threshold (glob_md (fs w) dir) with
    | [] => None
    | items => Some (sorted_by_age items)
    end
  else None.

(** The assignment [items[pillar] = ...] of a check, when it is made. *)
Definition record_report (folder : string) (threshold : Z)
    (d : dict (list FileItem)) (pillar : string) : dict (list FileItem) :=
  match folder_report folder threshold pillar with
  | Some items => dict_set pillar items d
  | None => d
  end.

(** The file named [n] is listed under [pillar] in the result of a check. *)
Definition listed (res : result (dict (list FileItem))) (pillar n : string) : Prop :=
  exists d items item,
    res = Ok d /\ dict_get pillar d = Some items /\ item ∈ items /\ item_name item = n.

(** The result of a check holds [item] under [pillar]. *)
Definition reported (res : result (dict (list FileItem))) (pillar : string)
    (item : FileItem) : Prop :=
  exists d items, res = Ok d /\ dict_get pillar d = Some items /\ item ∈ items.

End AgeChecksVocabulary.

(** ** Sample vaults and worlds *)

(** One day, in microseconds. *)
Definition DAY : Z := VaultCleaner.US_PER_DAY.

(** A platform whose time zone is UTC: [datetime.fromtimestamp] gives the
    epoch time itself. CPython accepts the time stamps from the second
    day of the year 1 (it also looks one day back, which must not leave
    the calendar) to the end of the year 9999. *)
Definition UTC_FIRST : Z := -62135510400.
Definition UTC_LAST : Z := 253402300799.

Definition utc_time (us : Z) : result VaultCleaner.datetime :=
  if (UTC_FIRST * VaultCleaner.US_PER_SECOND <=? us)
     && (us <? (UTC_LAST + 1) * VaultCleaner.US_PER_SECOND)
  then Ok us else Raise ValueError.

(** A pillar with notes of several ages. *)
Definition aging_fs : Fs.node :=
  Fs.Dir [("vault", Fs.Dir [
    ("P", Fs.Dir [
       ("Inbox", Fs.Dir [("a.md", Fs.File (Some "three days"));
                         ("b.md", Fs.File (Some "two days"));
                         ("z.md", Fs.File (Some "from the future"))]);
       ("Projects", Fs.Dir [("c.md", Fs.File (Some "thirty days"));
                            ("d.md", Fs.File (Some "twenty-nine days"));
                            ("y.md", Fs.File (Some "from the future"))])])])].

(** No version control; the clock reads day 100 throughout. *)
Definition aging_world : VaultCleaner.world :=
  {| VaultCleaner.fs := aging_fs;
     VaultCleaner.git_log := fun _ _ => Raise OSError;
     VaultCleaner.stat_mtime := fun f =>
       let n := Fs.name f in
       if String.eqb n "a.md" then Ok (100 * DAY - 3 * DAY)
       else if String.eqb n "b.md" then Ok (100 * DAY - 3 * DAY + 1)
       else if String.eqb n "c.md" then Ok (100 * DAY - 30 * DAY)
       else if String.eqb n "d.md" then Ok (100 * DAY - 30 * DAY + 1)
       else if String.eqb n "z.md" then Ok (100 * DAY + 1)
       else if String.eqb n "y.md" then Ok (101 * DAY)
       else Raise FileNotFoundError;
     VaultCleaner.local_time := utc_time;
     VaultCleaner.now := fun _ _ => 100 * DAY;
     VaultCleaner.github_output := None |}.

(** Neither version control nor [stat] answers; the clock advances by one
    second between its two readings. *)
Definition blind_world : VaultCleaner.world :=
  {| VaultCleaner.fs := aging_fs;
     VaultCleaner.git_log := fun _ _ => Raise OSError;
     VaultCleaner.stat_mtime := fun _ => Raise FileNotFoundError;
     VaultCleaner.local_time := utc_time;
     VaultCleaner.now := fun _ site =>
       match site with
       | VaultCleaner.InLastModified => 100 * DAY
       | VaultCleaner.InDaysSince => 100 * DAY + 1000000
       end;
     VaultCleaner.github_output := None |}.

(** Strictly ascending in code point order. *)
Definition str_lt (s t : string) : Prop := String.ltb s t = true.

(** A strictly ascending list of texts. *)
Definition ascending (l : list string) : Prop := StronglySorted str_lt l.

Section DriftVocabulary.
Import Fs VaultCleaner.
Context (fs : node) (vault_root : path).

(** The drift that [check_manifest_sync] finds for a pillar, and its
    assignment [issues[pillar] = ...]. *)
Definition drift_of (pillar : string) : option ManifestIssue :=
  let knowledge_dir := vault_root // pillar // "Knowledge" in
  let manifest_entries := parse_manifest fs (knowledge_dir // "MANIFEST.md") in
  let actual_files := get_actual_files fs knowledge_dir in
  if exists_ fs knowledge_dir then
    if truthy (elements (actual_files ∖ manifest_entries))
       || truthy (elements (manifest_entries ∖ actual_files))
    then Some {| add := Py.sorted_str (elements (actual_files ∖ manifest_entries));
                 remove := Py.sorted_str (elements (manifest_entries ∖ actual_files)) |}
    else None
  else None.

Definition record_drift (d : dict ManifestIssue) (pillar : string) : dict ManifestIssue :=
  match drift_of pillar with
  | Some issue => dict_set pillar issue d
  | None => d
  end.

End DriftVocabulary.

(** The scenario of a ghost entry and an unlisted note. *)
Definition ghost_fs : Fs.node :=
  Fs.Dir [("vault", Fs.Dir [
    ("Personal", Fs.Dir [
       ("Knowledge", Fs.Dir [
          ("New.md", Fs.File (Some "# New"));
          ("MANIFEST.md", Fs.File (Some "# Knowledge Manifest

| File | Description |
|------|-------------|
| [[Ghost]] | Does not exist |
"))])])])].

(** Modelled from the spec: the allow-list of canonical root documents,
    which [vault-cleaner.py] does not declare; the names are those of the
    tests. *)
Definition ALLOWED_ROOT_FILES : list string := ["README.md"; "CLAUDE.md"; "AGENTS.md"].

(** Modelled from the spec: the misplaced-root-file check, absent from
    [vault-cleaner.py]: the Markdown files directly at the vault root,
    except the canonical root documents, as a sorted list of names. *)

Definition spec_check_root_files (fs : Fs.node) (vault_root : Fs.path) : list string :=
  Py.sorted_str
    (filter (fun n => n ∉ ALLOWED_ROOT_FILES)
            (Fs.name <$> filter (fun f => negb (Fs.is_dir fs f)) (Fs.glob_md fs vault_root))).

(** A vault whose only defects are a misplaced root file and a stub note. *)
Definition stray_fs : Fs.node :=
  Fs.Dir [("vault", Fs.Dir [
    ("README.md", Fs.File (Some "# README"));
    ("misplaced.md", Fs.File (Some "# Misplaced File"));
    ("Work", Fs.Dir [
       ("Inbox", Fs.Dir []);
       ("Projects", Fs.Dir []);
       ("Knowledge", Fs.Dir [
          ("Empty.md", Fs.File (Some "# Title"));
          ("MANIFEST.md", Fs.File (Some "# Knowledge Manifest

| File | Description |
|------|-------------|
| [[Empty]] | Title |
"))])])])].

(** No file of it is older than the clock. *)
Definition stray_world : VaultCleaner.world :=
  {| VaultCleaner.fs := stray_fs;
     VaultCleaner.git_log := fun _ _ => Raise OSError;
     VaultCleaner.stat_mtime := fun _ => Ok (100 * DAY);
     VaultCleaner.local_time := utc_time;
     VaultCleaner.now := fun _ _ => 100 * DAY;
     VaultCleaner.github_output := None |}.

(** Every character of the text is white space. *)
Fixpoint whitespace_only (s : string) : Prop :=
  match s with
  | EmptyString => True
  | String c s' => Py.isspace c = true /\ whitespace_only s'
  end.

(** A run of [n] heading markers. *)
Fixpoint hashes (n : nat) : string :=
  match n with
  | O => EmptyString
  | S n' => String "#" (hashes n')
  end.

(** A run of [n] letters. *)
Fixpoint letters (n : nat) : string :=
  match n with
  | O => EmptyString
  | S n' => String "a" (letters n')
  end.

(** A note of a heading line, 9000 letters and a byte that is no UTF-8:
    a reader that takes chunks of 8192 bytes decodes the heading line and
    8184 letters before it fails. *)
Definition torn_fs : Fs.node :=
  Fs.Dir [("K", Fs.Dir [
    ("torn.md", Fs.Torn ("# Title" +:+ String Py.LF (letters (Z.to_nat 8184))))])].

(** A folder of notes of each kind. *)
Definition notes_fs : Fs.node :=
  Fs.Dir [("K", Fs.Dir [
    ("head.md", Fs.File (Some "
  
 ## Title here  
body"));
    ("short.md", Fs.File (Some "  a short line
more"));
    ("long.md", Fs.File (Some
       "AAAAAAAAAAAAAAAAAAAAAAAAAAAAAAAAAAAAAAAAAAAAAAAAAAAAAAAAAAAAAAAAAAAAAAAAAAAAAAAAB"));
    ("blank.md", Fs.File (Some "  

"));
    ("binary.md", Fs.File None)])].

Section ManifestOrderVocabulary.
Import Fs SyncManifests.

(** The names that [glob('*.md')] yields, in enumeration order. *)
Definition md_names (fs : node) (dir : path) : list string :=
  match resolve fs dir with
  | Some (Dir es) => filter (fun n => Is_true (endswith ".md" n)) (fst <$> es)
  | _ => []
  end.

(** The names of the notes: every name but that of the manifest. *)
Definition note_names (fs : node) (dir : path) : list string :=
  filter (fun n => n <> "MANIFEST.md") (md_names fs dir).

End ManifestOrderVocabulary.

(** A folder in which one stem continues another with a hyphen. *)
Definition dash_fs : Fs.node :=
  Fs.Dir [("K", Fs.Dir [("a.md", Fs.File (Some "# Plain"));
                        ("a-b.md", Fs.File (Some "# Dash"))])].

(** The character [c] occurs in the text. *)
Fixpoint char_in (c : ascii) (s : string) : bool :=
  match s with
  | EmptyString => false
  | String d s' => Ascii.eqb d c || char_in c s'
  end.

(** Every character of [s] occurs in [t]. *)
Definition chars_within (s t : string) : Prop :=
  forall c, char_in c s = true -> char_in c t = true.

(** A line as [readlines] yields it: no LF but, possibly, in last place. *)
Definition line_shaped (l : string) : Prop :=
  exists b, char_in Py.LF b = false /\ (l = b \/ l = b +:+ String Py.LF "").

(** A stem that a double-bracketed reference can carry on one line. *)
Definition link_safe (stem : string) : Prop :=
  char_in Py.LF stem = false
  /\ char_in Py.CR stem = false
  /\ Py.contains "]]" (stem +:+ "]") = false.

Section ParseRowsVocabulary.
Import Fs VaultCleaner.

(** The row of a manifest for a stem and a description. *)
Definition row_of (stem description : string) : string :=
  "| [[" +:+ stem +:+ "]] | " +:+ description +:+ " |".

End ParseRowsVocabulary.

Section RoundTripVocabulary.
Import Fs SyncManifests VaultCleaner.

(** The notes of a folder, in enumeration order. *)
Definition notes (fs : node) (dir : path) : list path :=
  filter (fun f => name f <> "MANIFEST.md") (glob_md fs dir).

(** The lines of a generated manifest but the last, empty, one. *)
Definition manifest_body (fs : node) (dir : path) : list string :=
  match md_files fs dir with
  | [] => manifest_header ++ ["| *(empty)* | Add notes to this folder |"]
  | files => manifest_header ++ (manifest_row fs <$> files)
  end.

End RoundTripVocabulary.

(** The lines of a manifest, read as the table that the specification
    describes: a line is a row, which names a note between double
    brackets, or it holds no double opening bracket. [names] lists the
    notes that the rows name, in the order of the lines. *)
Inductive table_lines : list string -> list string -> Prop :=
| table_end : table_lines [] []
| table_row (name description : string) (lines names : list string) :
    link_safe name ->
    table_lines lines names ->
    table_lines ((row_of name description +:+ String Py.LF EmptyString) :: lines)
                (name :: names)
| table_other (line : string) (lines names : list string) :
    Py.contains "[[" (Py.strip line) = false ->
    table_lines lines names ->
    table_lines (line :: lines) names.

(** A folder with a note whose stem ends in a closing bracket. *)
Definition bracket_fs : Fs.node :=
  Fs.Dir [("K", Fs.Dir [("x].md", Fs.File (Some "# Bracket"))]);
          ("M.md", Fs.File (Some "# Knowledge Manifest

| File | Description |
|------|-------------|
| [[x]]] | Bracket |
"))].

(** A folder in step with its manifest. *)
Definition synced_fs : Fs.node :=
  Fs.Dir [("K", Fs.Dir [
    ("Zebra.md", Fs.File (Some "# Z"));
    ("Alpha.md", Fs.File (Some "# A"));
    ("MANIFEST.md", Fs.File (Some "# Knowledge Manifest

| File | Description |
|------|-------------|
| [[Alpha]] | A |
| [[Zebra]] | Z |
"))])].

(** A folder with a note whose name holds a carriage return. *)
Definition cr_fs : Fs.node :=
  Fs.Dir [("K", Fs.Dir [("a" +:+ String Py.CR "b.md", Fs.File (Some "# T"))])].

(** The manifest generated for it, and the folder once it is written. *)
Definition cr_manifest : string :=
  "# Knowledge Manifest

| File | Description |
|------|-------------|
| [[a" +:+ String Py.CR "b]] | T |
".

Definition cr_fs_synced : Fs.node :=
  Fs.Dir [("K", Fs.Dir [("a" +:+ String Py.CR "b.md", Fs.File (Some "# T"));
                        ("MANIFEST.md", Fs.File (Some cr_manifest))])].

(** ** Decimal numerals *)

(** Every character of the text is a decimal digit. *)
Fixpoint all_digits (s : string) : bool :=
  match s with
  | EmptyString => true
  | String c s' =>
      match Py.digit c with
      | Some _ => all_digits s'
      | None => false
      end
  end.

(** ** Paths that do not resolve *)




(** ** Inputs of the test suite *)

(** A file system holding the single file [test.md]. *)
Definition one_file (text : string) : Fs.node :=
  Fs.Dir [("test.md", Fs.File (Some text))].

(** The folder of the ordering test, and an empty one. *)
Definition alphabet_fs : Fs.node :=
  Fs.Dir [("Knowledge", Fs.Dir [("Zebra.md", Fs.File (Some "# Z"));
                                ("Alpha.md", Fs.File (Some "# A"));
                                ("Middle.md", Fs.File (Some "# M"));
                                ("MANIFEST.md", Fs.File (Some "# Old manifest"))]);
          ("Empty", Fs.Dir [])].

Definition alphabet_manifest : string :=
  "# Knowledge Manifest

| File | Description |
|------|-------------|
| [[Alpha]] | A |
| [[Middle]] | M |
| [[Zebra]] | Z |
".

(** A vault with a hidden folder, a plain folder and two pillars. *)
Definition pillars_fs : Fs.node :=
  Fs.Dir [("Zebra", Fs.Dir [("Knowledge", Fs.Dir [])]);
          (".hidden", Fs.Dir [("Knowledge", Fs.Dir [])]);
          ("docs", Fs.Dir []);
          ("Alpha", Fs.Dir [("Inbox", Fs.Dir [])]);
          ("README.md", Fs.File (Some "# README"))].

(** Noon of 15 January 2025, and an hour, in microseconds. *)
Definition NOON : Z := 1736942400 * VaultCleaner.US_PER_SECOND.

Definition HOUR : Z := 3600 * VaultCleaner.US_PER_SECOND.

(** A world in which version control answers with a fixed output. *)
Definition git_world (rc : Z) (out : string) : VaultCleaner.world :=
  {| VaultCleaner.fs := one_file "content";
     VaultCleaner.git_log := fun _ _ =>
       Ok {| VaultCleaner.returncode := rc; VaultCleaner.stdout := out |};
     VaultCleaner.stat_mtime := fun _ => Ok (NOON - HOUR);
     VaultCleaner.local_time := utc_time;
     VaultCleaner.now := fun _ _ => NOON;
     VaultCleaner.github_output := None |}.

(** ** Headings of the issue body *)

(** A line that opens a numbered section. *)
Definition is_section_heading (l : string) : Prop := Is_true (Py.startswith "## " l).

(** The headings of the sections with these titles, numbered from [k]. *)
Fixpoint numbered_headings (k : Z) (titles : list string) : list string :=
  match titles with
  | [] => []
  | t :: titles' => ("## " +:+ Py.str k +:+ ". " +:+ t) :: numbered_headings (k + 1) titles'
  end.

(** The titles of the sections that [generate_issue_body] writes. *)
Definition section_titles (manifest_issues : dict VaultCleaner.ManifestIssue)
    (inbox_items stale_projects : dict (list VaultCleaner.FileItem)) : list string :=
  (if truthy manifest_issues then ["Fix Manifest Files"] else [])
  ++ (if truthy inbox_items then ["Process Inbox Items"] else [])
  ++ (if truthy stale_projects then ["Archive Stale Projects"] else []).

(** The text of the four header lines of a manifest. *)
Definition MANIFEST_HEADER_TEXT : string :=
  "# Knowledge Manifest

| File | Description |
|------|-------------|
".

(** The names of the entries of the vault root, in enumeration order. *)
Definition root_names (fs : Fs.node) (vault_root : Fs.path) : list string :=
  match Fs.resolve fs vault_root with
  | Some (Fs.Dir es) => fst <$> es
  | _ => []
  end.

(** An entry of the root that is a folder and is not hidden. *)
Definition visible_folder (fs : Fs.node) (vault_root : Fs.path) (n : string) : bool :=
  Fs.is_dir fs (vault_root // n) && negb (Py.startswith "." n).

(** The folders that each script takes for pillars. *)
Definition sync_pillar (fs : Fs.node) (vault_root : Fs.path) (n : string) : bool :=
  visible_folder fs vault_root n && Fs.exists_ fs (vault_root // n // "Knowledge").

Definition cleaner_pillar (fs : Fs.node) (vault_root : Fs.path) (n : string) : bool :=
  visible_folder fs vault_root n
  && (Fs.exists_ fs (vault_root // n // "Inbox")
      || Fs.exists_ fs (vault_root // n // "Projects")
      || Fs.exists_ fs (vault_root // n // "Knowledge")).

(** A pillar whose notes have no manifest yet. *)
Definition unlisted_fs : Fs.node :=
  Fs.Dir [("vault", Fs.Dir [
    ("Work", Fs.Dir [
       ("Knowledge", Fs.Dir [("Note.md", Fs.File (Some "# Note"));
                             ("Plan.md", Fs.File (Some "# Plan"))])])])].

(** The body of the loop of [main] over the pillars. *)
Definition main_step (vault_root : Fs.path) (check_only : bool)
    (acc : result (bool * Fs.node)) (pillar : string) : result (bool * Fs.node) :=
  state ← acc;
  let '(all_in_sync, fs) := (state : bool * Fs.node) in
  let knowledge_dir := vault_root // pillar // "Knowledge" in
  if negb (Fs.exists_ fs knowledge_dir) then Ok (all_in_sync, fs)
  else
    updated ← SyncManifests.update_manifest fs knowledge_dir check_only;
    let '(was_in_sync, fs) := (updated : bool * Fs.node) in
    if was_in_sync then Ok (all_in_sync, fs)
    else Ok (false, fs).

(** The manifest of the pillar reads as the text generated for it. *)
Definition manifest_in_sync (fs : Fs.node) (vault_root : Fs.path) (pillar : string) : Prop :=
  Fs.read_text fs (vault_root // pillar // "Knowledge" // "MANIFEST.md")
  = Ok (SyncManifests.generate_manifest_content fs (vault_root // pillar // "Knowledge")).

(** The path of the manifest of a pillar. *)
Definition manifest_of (vault_root : Fs.path) (pillar : string) : Fs.path :=
  vault_root // pillar // "Knowledge" // "MANIFEST.md".

(** Two states of a vault with the same folders and the same notes. *)
Definition same_vault (vault_root : Fs.path) (fs0 fs : Fs.node) : Prop :=
  Fs.is_dir fs vault_root = Fs.is_dir fs0 vault_root
  /\ root_names fs vault_root = root_names fs0 vault_root
  /\ (forall n, Fs.is_dir fs (vault_root // n) = Fs.is_dir fs0 (vault_root // n))
  /\ (forall n x, Fs.exists_ fs (vault_root // n // x) = Fs.exists_ fs0 (vault_root // n // x))
  /\ (forall n, note_names fs (vault_root // n // "Knowledge")
                = note_names fs0 (vault_root // n // "Knowledge"))
  /\ (forall q, (forall p, ~ q `prefix_of` manifest_of vault_root p
                           /\ ~ manifest_of vault_root p `prefix_of` q) ->
                Fs.resolve fs q = Fs.resolve fs0 q).

(** A vault with a stale manifest, a pillar without manifest, a pillar
    without [Knowledge], a hidden folder and a file at its root. *)
Definition mixed_fs : Fs.node :=
  Fs.Dir [("vault", Fs.Dir [
    ("Work", Fs.Dir [
       ("Knowledge", Fs.Dir [("Plan.md", Fs.File (Some "# Plan"));
                             ("MANIFEST.md", Fs.File (Some "# Old manifest"));
                             ("Note.md", Fs.File (Some "first line"))]);
       ("Inbox", Fs.Dir [])]);
    ("Home", Fs.Dir [("Knowledge", Fs.Dir [("Garden.md", Fs.File (Some "# Garden"))])]);
    ("Travel", Fs.Dir [("Inbox", Fs.Dir [("Trip.md", Fs.File (Some "# Trip"))])]);
    (".obsidian", Fs.Dir [("Knowledge", Fs.Dir [])]);
    ("README.md", Fs.File (Some "# Vault"))])].

(** The vault of [aging_fs] next to the folder of a workflow runner, which
    holds the output file that an earlier step wrote. *)
Definition runner_fs : Fs.node :=
  Fs.Dir [("vault", default (Fs.Dir []) (Fs.resolve aging_fs ["vault"]));
          ("runner", Fs.Dir [("output", Fs.File (Some "step=1
"))])].

(** The world of [aging_world] on that file system, with [GITHUB_OUTPUT]
    naming the output file. *)
Definition runner_world : VaultCleaner.world :=
  {| VaultCleaner.fs := runner_fs;
     VaultCleaner.git_log := VaultCleaner.git_log aging_world;
     VaultCleaner.stat_mtime := VaultCleaner.stat_mtime aging_world;
     VaultCleaner.local_time := utc_time;
     VaultCleaner.now := VaultCleaner.now aging_world;
     VaultCleaner.github_output := Some ["runner"; "output"] |}.

(** ** Findings that fit on a line *)

(** A text without a line break: it holds neither a line feed nor a
    carriage return. *)
Definition single_line (s : string) : Prop :=
  char_in Py.LF s = false /\ char_in Py.CR s = false.

(** The names that [generate_issue_body] copies into the body, those of
    the pillars, of the notes to add and to remove and of the aged files,
    are without a line break. *)
Definition single_line_findings (manifest_issues : dict VaultCleaner.ManifestIssue)
    (inbox_items stale_projects : dict (list VaultCleaner.FileItem)) : Prop :=
  Forall (fun entry =>
            single_line (fst entry)
            /\ Forall single_line (VaultCleaner.add (snd entry))
            /\ Forall single_line (VaultCleaner.remove (snd entry)))
         manifest_issues
  /\ Forall (fun entry =>
               single_line (fst entry)
               /\ Forall (fun item => single_line (VaultCleaner.item_name item)) (snd entry))
            (inbox_items ++ stale_projects).

(** * Properties *)

(** ** The embedding on the inputs of the test suite *)

Example strip_ex : Py.strip "  # a b
" = "# a b".
Proof. reflexivity. Qed.

Example find_ex : Py.find "]]" "| [[a]] | b |" = 5 /\ Py.find "[[" "| a |" = -1.
Proof. split; reflexivity. Qed.

Example slice_ex :
  Py.slice "| [[a]] | b |" 4 5 = "a" /\ Py.slice "abcdef" (-3) (-1) = "de"
  /\ Py.slice "abc" 2 1 = "" /\ Py.slice_to "abc" 80 = "abc".
Proof. repeat split. Qed.

Example universal_newlines_ex :
  Py.universal_newlines ("a" +:+ String Py.CR (String Py.LF ("b" +:+ String Py.CR "c")))
  = "a
b
c".
Proof. reflexivity. Qed.

Example readlines_ex : Py.readlines "ab
c

d" = ["ab
"; "c
"; "
"; "d"].
Proof. reflexivity. Qed.

Example int_ex :
  Py.int " 1_000
" = Some 1000 /\ Py.int "-12" = Some (-12) /\ Py.int "+7" = Some 7
  /\ Py.int "1__0" = None /\ Py.int "" = None /\ Py.int "12a" = None.
Proof. repeat split. Qed.

Example str_ex : Py.str 30 = "30" /\ Py.str (-4) = "-4" /\ Py.str 0 = "0".
Proof. repeat split. Qed.

Example stem_ex :
  Fs.stem ["K"; "a.b.md"] = "a.b" /\ Fs.stem ["K"; ".md"] = ".md"
  /\ Fs.stem ["K"; "Note (Draft) - v2.md"] = "Note (Draft) - v2".
Proof. repeat split. Qed.

Example sorted_ex : Py.sorted_str ["b"; "a-b"; "a"; "B"] = ["B"; "a"; "a-b"; "b"].
Proof. reflexivity. Qed.

(** [sorted] is stable: of two items of one age the first stays first. *)
Example sorted_by_age_ex :
  VaultCleaner.sorted_by_age
    [{| VaultCleaner.item_name := "x.md"; VaultCleaner.age_days := 5 |};
     {| VaultCleaner.item_name := "y.md"; VaultCleaner.age_days := 9 |};
     {| VaultCleaner.item_name := "z.md"; VaultCleaner.age_days := 5 |}]
  = [{| VaultCleaner.item_name := "y.md"; VaultCleaner.age_days := 9 |};
     {| VaultCleaner.item_name := "x.md"; VaultCleaner.age_days := 5 |};
     {| VaultCleaner.item_name := "z.md"; VaultCleaner.age_days := 5 |}].
Proof. reflexivity. Qed.

Example first_heading_tests :
  SyncManifests.get_first_heading (one_file "# My Title

Some content...") ["test.md"] = "My Title"
  /\ SyncManifests.get_first_heading (one_file "## Secondary Heading

Content") ["test.md"] = "Secondary Heading"
  /\ SyncManifests.get_first_heading (one_file "### Deep Heading") ["test.md"]
     = "Deep Heading"
  /\ SyncManifests.get_first_heading
       (one_file "This is a note without a heading.

More content.") ["test.md"] = "This is a note without a heading."
  /\ SyncManifests.get_first_heading (one_file "

# After Empty Lines") ["test.md"] = "After Empty Lines"
  /\ SyncManifests.get_first_heading (one_file "") ["test.md"] = "No description"
  /\ SyncManifests.get_first_heading (one_file "") ["nonexistent.md"] = "No description"
  /\ SyncManifests.get_first_heading (one_file "   

   
") ["test.md"] = "No description".
Proof. repeat split. Qed.

Example generate_manifest_tests :
  SyncManifests.generate_manifest_content alphabet_fs ["Knowledge"] = alphabet_manifest
  /\ SyncManifests.generate_manifest_content alphabet_fs ["Empty"]
     = "# Knowledge Manifest

| File | Description |
|------|-------------|
| *(empty)* | Add notes to this folder |
".
Proof. split; reflexivity. Qed.

Example update_manifest_tests :
  SyncManifests.update_manifest alphabet_fs ["Knowledge"] true = Ok (false, alphabet_fs)
  /\ (exists fs',
        SyncManifests.update_manifest alphabet_fs ["Knowledge"] false = Ok (false, fs')
        /\ Fs.read_text fs' ["Knowledge"; "MANIFEST.md"] = Ok alphabet_manifest
        /\ SyncManifests.update_manifest fs' ["Knowledge"] true = Ok (true, fs'))
  /\ (exists fs',
        SyncManifests.update_manifest alphabet_fs ["Empty"] false = Ok (false, fs')
        /\ Fs.exists_ fs' ["Empty"; "MANIFEST.md"] = true)
  /\ SyncManifests.update_manifest alphabet_fs ["Missing"] false = Raise FileNotFoundError.
Proof.
  split; [reflexivity|]. split; [|split; [|reflexivity]].
  - eexists. split; [reflexivity|]. split; reflexivity.
  - eexists. split; reflexivity.
Qed.

Example get_pillars_tests :
  SyncManifests.get_pillars pillars_fs [] = Ok ["Zebra"]
  /\ VaultCleaner.get_pillars pillars_fs [] = Ok ["Alpha"; "Zebra"].
Proof. split; reflexivity. Qed.

Example days_since_tests :
  VaultCleaner.days_since NOON (NOON - 2 * HOUR) = 0
  /\ VaultCleaner.days_since NOON (NOON - 24 * HOUR) = 1
  /\ VaultCleaner.days_since NOON (NOON - 7 * 24 * HOUR) = 7
  /\ VaultCleaner.days_since NOON (NOON + 24 * HOUR) = -1
  /\ VaultCleaner.days_since NOON (NOON + 1) = -1.
Proof. repeat split. Qed.

Example datetime_sub_ex :
  VaultCleaner.datetime_sub NOON (NOON + 1)
  = {| VaultCleaner.days := -1; VaultCleaner.seconds := 86399;
       VaultCleaner.microseconds := 999999 |}.
Proof. reflexivity. Qed.

Example parse_manifest_tests :
  VaultCleaner.parse_manifest
    (one_file "# Knowledge Manifest

| File | Description |
|------|-------------|
| [[Note One]] | Description one |
| [[Note Two]] | Description two |
") ["test.md"] = {[ "Note One"; "Note Two" ]}
  /\ VaultCleaner.parse_manifest (one_file "| [[My Long Note Name]] | Description |")
       ["test.md"] = {[ "My Long Note Name" ]}
  /\ VaultCleaner.parse_manifest (one_file "") ["nonexistent.md"] = ∅
  /\ VaultCleaner.get_actual_files (one_file "") ["nonexistent"] = ∅
  /\ VaultCleaner.get_actual_files alphabet_fs ["Knowledge"]
     = {[ "Alpha"; "Middle"; "Zebra" ]}.
Proof. repeat split; vm_compute; reflexivity. Qed.

Example last_modified_tests :
  VaultCleaner.get_file_last_modified (git_world 0 "1736510400
") ["test.md"] []
  = Ok (1736510400 * VaultCleaner.US_PER_SECOND)
  /\ VaultCleaner.days_since NOON (1736510400 * VaultCleaner.US_PER_SECOND) = 5
  /\ VaultCleaner.get_file_last_modified (git_world 1 "") ["test.md"] []
     = Ok (NOON - HOUR)
  /\ VaultCleaner.get_file_last_modified (git_world 0 "fatal") ["test.md"] []
     = Ok (NOON - HOUR)
  /\ VaultCleaner.get_file_last_modified (git_world 0 "99999999999999") ["test.md"] []
     = Ok (NOON - HOUR).
Proof. repeat split. Qed.


(** ** Dictionaries *)

Section DictFacts.
Context {V : Type}.
Implicit Types (d : dict V) (k : string) (v : V).

Lemma dict_get_set_eq d k v : dict_get k (dict_set k v d) = Some v.
Proof.
  induction d as [|[k' v'] d IH]; simpl.
  - by rewrite String.eqb_refl.
  - destruct (String.eqb k' k) eqn:E; simpl; rewrite E; [done | exact IH].
Qed.

Lemma dict_get_set_ne d k k' v : k <> k' -> dict_get k' (dict_set k v d) = dict_get k' d.
Proof.
  intros Hne. induction d as [|[k0 v0] d IH]; simpl.
  - destruct (String.eqb k k') eqn:E; [|done].
    apply String.eqb_eq in E. contradiction.
  - destruct (String.eqb k0 k) eqn:E; simpl.
    + apply String.eqb_eq in E. subst k0.
      destruct (String.eqb k k') eqn:E'; [|done].
      apply String.eqb_eq in E'. contradiction.
    + by rewrite IH.
Qed.
End DictFacts.

(** ** Ages and time stamps *)

Section LastModified.
Import Fs VaultCleaner.

Lemma days_since_floor now dt : days_since now dt = (now - dt) `div` US_PER_DAY.
Proof. reflexivity. Qed.

Lemma days_since_future now dt : now < dt -> days_since now dt < 0.
Proof.
  intros H. rewrite days_since_floor.
  apply Z.div_lt_upper_bound; unfold US_PER_DAY, US_PER_SECOND; lia.
Qed.

Lemma days_since_same_day now dt : dt <= now < dt + US_PER_DAY -> days_since now dt = 0.
Proof.
  intros H. rewrite days_since_floor.
  apply Z.div_small. lia.
Qed.

Lemma git_success_or_failure w f r :
  (exists d, git_success w f r d) \/ git_failure w f r.
Proof.
  destruct (git_log w f r) as [p|e] eqn:Hg; [|right; by eapply GitUnavailable].
  destruct (decide (returncode p = 0)) as [Hrc|Hrc]; [|right; by eapply GitNonZero].
  destruct (decide (Py.strip (stdout p) = "")) as [Hout|Hout];
    [right; by eapply GitNoOutput|].
  destruct (Py.int (Py.strip (stdout p))) as [ts|] eqn:Hint;
    [|right; by eapply GitNotANumber].
  destruct (fromtimestamp w ts) as [d|e] eqn:Hts.
  - left. exists d. by eapply GitSuccess.
  - right. by eapply GitOutOfRange.
Qed.

Lemma last_modified_git w f r d :
  git_success w f r d -> get_file_last_modified w f r = Ok d.
Proof.
  intros [p ts Hg Hrc Hout Hint Hts].
  unfold get_file_last_modified, try_except, try_pass. rewrite Hg. simpl.
  rewrite Hrc. simpl.
  apply String.eqb_neq in Hout. rewrite Hout. simpl.
  unfold int. rewrite Hint. simpl. by rewrite Hts.
Qed.

Lemma last_modified_fallback w f r :
  git_failure w f r ->
  get_file_last_modified w f r =
    try_except (mtime ← stat_mtime w f; d ← fromtimestamp_us w mtime; Ok (Some d))
               (Ok (now w f InLastModified)).
Proof.
  intros Hfail. unfold get_file_last_modified at 1.
  set (rest := try_except (_ ← stat_mtime w f; _) _).
  unfold try_except at 1, try_pass at 1.
  destruct Hfail as [e Hg|p Hg Hrc|p Hg Hout|p Hg Hint|p ts e Hg Hint Hts];
    rewrite Hg; simpl; [done|..].
  - apply Z.eqb_neq in Hrc. by rewrite Hrc.
  - rewrite Hout. simpl. by rewrite andb_false_r.
  - unfold int. rewrite Hint. by destruct (_ && _).
  - unfold int. rewrite Hint. simpl. rewrite Hts. by destruct (_ && _).
Qed.

Lemma last_modified_mtime w f r m d :
  git_failure w f r -> stat_mtime w f = Ok m -> fromtimestamp_us w m = Ok d ->
  get_file_last_modified w f r = Ok d.
Proof.
  intros Hfail Hm Hd. rewrite last_modified_fallback by done.
  unfold try_except, try_pass. rewrite Hm. simpl. by rewrite Hd.
Qed.

Lemma last_modified_now w f r :
  git_failure w f r -> mtime_failure w f ->
  get_file_last_modified w f r = Ok (now w f InLastModified).
Proof.
  intros Hfail Hm. rewrite last_modified_fallback by done.
  unfold try_except, try_pass.
  destruct Hm as [e Hs|m e Hs Hr]; rewrite Hs; simpl; [done|by rewrite Hr].
Qed.

Lemma last_modified_total w f r : exists d, get_file_last_modified w f r = Ok d.
Proof.
  destruct (git_success_or_failure w f r) as [[d Hd]|Hfail].
  - exists d. by apply last_modified_git.
  - destruct (stat_mtime w f) as [m|e] eqn:Hm.
    + destruct (fromtimestamp_us w m) as [d|e] eqn:Hd.
      * exists d. by eapply last_modified_mtime.
      * eexists. apply last_modified_now; [done|]. by eapply MtimeOutOfRange.
    + eexists. apply last_modified_now; [done|]. by eapply StatFails.
Qed.

End LastModified.

(** ** Sorting *)

Section SortingFacts.
Context {A : Type} (le : A -> A -> bool).

Lemma insort_Permutation x l : Py.insort le x l ≡ₚ x :: l.
Proof.
  induction l as [|y l IH]; simpl; [done|].
  destruct (le x y); [done|].
  rewrite IH. apply Permutation_swap.
Qed.

Lemma sorted_Permutation l : Py.sorted le l ≡ₚ l.
Proof.
  induction l as [|x l IH]; simpl; [done|].
  unfold Py.sorted in *. simpl. by rewrite insort_Permutation, IH.
Qed.

Lemma elem_of_sorted x l : x ∈ Py.sorted le l <-> x ∈ l.
Proof. by rewrite sorted_Permutation. Qed.

Lemma sorted_nil_inv l : Py.sorted le l = [] -> l = [].
Proof.
  intros H. apply Permutation_nil_r. by rewrite <- H, sorted_Permutation.
Qed.

Context (le_total : forall x y, le x y = true \/ le y x = true).

Lemma insort_Sorted x l :
  Sorted (fun a b => le a b = true) l ->
  Sorted (fun a b => le a b = true) (Py.insort le x l).
Proof.
  induction 1 as [|y l Hl IH Hhd]; simpl; [by repeat constructor|].
  destruct (le x y) eqn:E.
  - constructor; [by constructor|by constructor].
  - constructor; [done|].
    destruct Hhd as [|z l Hyz]; simpl.
    + constructor. destruct (le_total x y); congruence.
    + destruct (le x z); constructor; [|done].
      destruct (le_total x y); congruence.
Qed.

Lemma sorted_Sorted l : Sorted (fun a b => le a b = true) (Py.sorted le l).
Proof.
  induction l as [|x l IH]; [constructor|].
  unfold Py.sorted in *. simpl. by apply insort_Sorted.
Qed.
End SortingFacts.

(** ** The two age checks *)

Section AgeChecks.
Import Fs VaultCleaner.
Context (w : world) (vault_root : path).

Lemma get_file_last_modified_of f :
  get_file_last_modified w f vault_root = Ok (last_modified_of w vault_root f).
Proof.
  unfold last_modified_of.
  by destruct (last_modified_total w f vault_root) as [d ->].
Qed.

Lemma check_inbox_items_folder :
  check_inbox_items w vault_root
  = check_folder w vault_root "Inbox" INBOX_AGE_THRESHOLD_DAYS.
Proof. reflexivity. Qed.

Lemma check_stale_projects_folder :
  check_stale_projects w vault_root
  = check_folder w vault_root "Projects" PROJECT_STALE_THRESHOLD_DAYS.
Proof. reflexivity. Qed.

Lemma aged_loop threshold files acc :
  foldl (fun acc f =>
           pillar_items ← acc;
           last_modified ← get_file_last_modified w f vault_root;
           let age_days := days_since (now w f InDaysSince) last_modified in
           if age_days >=? threshold
           then Ok (pillar_items ++ [{| item_name := name f; age_days := age_days |}])
           else Ok pillar_items)
        (Ok acc) files
  = Ok (acc ++ aged w vault_root threshold files).
Proof.
  revert acc. induction files as [|f files IH]; intros acc; simpl.
  - unfold aged. simpl. by rewrite app_nil_r.
  - rewrite get_file_last_modified_of. simpl.
    fold (age_of w vault_root f). unfold aged. rewrite filter_cons.
    destruct (decide (threshold <= age_of w vault_root f)) as [Hge|Hlt].
    + assert ((age_of w vault_root f >=? threshold) = true) as -> by lia.
      rewrite IH. unfold aged. simpl. by rewrite <- app_assoc.
    + assert ((age_of w vault_root f >=? threshold) = false) as -> by lia.
      by rewrite IH.
Qed.

Lemma check_folder_loop folder threshold pillars acc :
  foldl (fun acc pillar =>
           items ← acc;
           let dir := vault_root // pillar // folder in
           if negb (exists_ (fs w) dir) then Ok items
           else
             pillar_items ←
               foldl (fun acc f =>
                        pillar_items ← acc;
                        last_modified ← get_file_last_modified w f vault_root;
                        let age_days :=
                          days_since (now w f InDaysSince) last_modified in
                        if age_days >=? threshold
                        then Ok (pillar_items ++
                                   [{| item_name := name f; age_days := age_days |}])
                        else Ok pillar_items)
                     (Ok []) (glob_md (fs w) dir);
             if truthy pillar_items
             then Ok (dict_set pillar (sorted_by_age pillar_items) items)
             else Ok items)
        (Ok acc) pillars
  = Ok (foldl (record_report w vault_root folder threshold) acc pillars).
Proof.
  revert acc. induction pillars as [|p pillars IH]; intros acc; [done|].
  simpl. unfold record_report at 2, folder_report.
  destruct (exists_ (fs w) (vault_root // p // folder)); simpl; [|apply IH].
  rewrite aged_loop. simpl.
  destruct (aged w vault_root threshold _); simpl; apply IH.
Qed.

Lemma check_folder_spec folder threshold pillars :
  get_pillars (fs w) vault_root = Ok pillars ->
  check_folder w vault_root folder threshold
  = Ok (foldl (record_report w vault_root folder threshold) [] pillars).
Proof.
  intros Hp. unfold check_folder. rewrite Hp. simpl. apply check_folder_loop.
Qed.

Lemma dict_get_record_report folder threshold acc p pillar :
  dict_get pillar (record_report w vault_root folder threshold acc p)
  = if decide (pillar = p) then
      match folder_report w vault_root folder threshold pillar with
      | Some items => Some items
      | None => dict_get pillar acc
      end
    else dict_get pillar acc.
Proof.
  unfold record_report. destruct (decide (pillar = p)) as [->|Hne].
  - destruct (folder_report w vault_root folder threshold p); [|done].
    apply dict_get_set_eq.
  - destruct (folder_report w vault_root folder threshold p); [|done].
    by apply dict_get_set_ne.
Qed.

Lemma dict_get_reports folder threshold pillars acc pillar :
  dict_get pillar (foldl (record_report w vault_root folder threshold) acc pillars)
  = if decide (pillar ∈ pillars) then
      match folder_report w vault_root folder threshold pillar with
      | Some items => Some items
      | None => dict_get pillar acc
      end
    else dict_get pillar acc.
Proof.
  revert acc. induction pillars as [|p pillars IH]; intros acc.
  - destruct (decide (pillar ∈ [])) as [Hin|_]; [by apply elem_of_nil in Hin|done].
  - cbn [foldl]. rewrite IH, dict_get_record_report.
    destruct (decide (pillar ∈ pillars)) as [Hin|Hnin].
    + rewrite (decide_True (P := pillar ∈ p :: pillars))
        by (apply elem_of_cons; by right).
      destruct (folder_report w vault_root folder threshold pillar); [done|].
      by destruct (decide (pillar = p)).
    + destruct (decide (pillar = p)) as [->|Hne].
      * by rewrite (decide_True (P := p ∈ p :: pillars))
          by (apply elem_of_cons; by left).
      * rewrite (decide_False (P := pillar ∈ p :: pillars)); [done|].
        intros [?|?]%elem_of_cons; contradiction.
Qed.

Lemma elem_of_glob_md_exists dir f : f ∈ glob_md (fs w) dir -> exists_ (fs w) dir = true.
Proof.
  unfold glob_md, exists_. destruct (resolve (fs w) dir) as [[|es|]|]; [|done| |].
  - by intros ?%elem_of_nil.
  - by intros ?%elem_of_nil.
  - by intros ?%elem_of_nil.
Qed.

Lemma elem_of_glob_md_name dir f : f ∈ glob_md (fs w) dir -> f = dir // name f.
Proof.
  unfold glob_md. destruct (resolve (fs w) dir) as [[|es|]|];
    [by intros ?%elem_of_nil| |by intros ?%elem_of_nil|by intros ?%elem_of_nil].
  intros [_ Hin]%list_elem_of_filter.
  apply list_elem_of_fmap in Hin as [[n c] [-> _]]. simpl.
  unfold name, joinpath. by rewrite last_last.
Qed.

Lemma folder_reported folder threshold pillars pillar f :
  get_pillars (fs w) vault_root = Ok pillars ->
  pillar ∈ pillars ->
  f ∈ glob_md (fs w) (vault_root // pillar // folder) ->
  threshold <= age_of w vault_root f ->
  reported (check_folder w vault_root folder threshold) pillar (item_of w vault_root f).
Proof.
  intros Hp Hin Hf Hage.
  assert (item_of w vault_root f
          ∈ aged w vault_root threshold (glob_md (fs w) (vault_root // pillar // folder)))
    as Hitem.
  { unfold aged. apply list_elem_of_fmap. exists f. split; [done|].
    by apply list_elem_of_filter. }
  exists (foldl (record_report w vault_root folder threshold) [] pillars),
    (sorted_by_age
       (aged w vault_root threshold (glob_md (fs w) (vault_root // pillar // folder)))).
  split; [by apply check_folder_spec|]. split.
  - rewrite dict_get_reports, decide_True by done.
    unfold folder_report. rewrite (elem_of_glob_md_exists _ f) by done.
    destruct (aged w vault_root threshold _) eqn:E; [|done].
    by apply elem_of_nil in Hitem.
  - unfold sorted_by_age. by apply elem_of_sorted.
Qed.

Lemma folder_listed_inv folder threshold pillar n :
  listed (check_folder w vault_root folder threshold) pillar n ->
  exists f, f ∈ glob_md (fs w) (vault_root // pillar // folder)
            /\ name f = n /\ threshold <= age_of w vault_root f.
Proof.
  intros (d & items & item & Hres & Hget & Hin & Hname).
  unfold check_folder in Hres.
  destruct (get_pillars (fs w) vault_root) as [pillars|e] eqn:Hp; [|done].
  simpl in Hres. rewrite check_folder_loop in Hres. injection Hres as <-.
  rewrite dict_get_reports in Hget.
  destruct (decide (pillar ∈ pillars)); [|done].
  unfold folder_report in Hget.
  destruct (exists_ (fs w) _); [|done].
  destruct (aged w vault_root threshold _) as [|i0 items0] eqn:E; [done|].
  injection Hget as <-.
  apply (elem_of_sorted _ item (i0 :: items0)) in Hin.
  rewrite <- E in Hin. unfold aged in Hin.
  apply list_elem_of_fmap in Hin as [f [-> Hf]].
  apply list_elem_of_filter in Hf as [Hage Hf].
  by exists f.
Qed.

Lemma folder_not_listed folder threshold pillar f :
  f ∈ glob_md (fs w) (vault_root // pillar // folder) ->
  age_of w vault_root f < threshold ->
  ~ listed (check_folder w vault_root folder threshold) pillar (name f).
Proof.
  intros Hf Hage (f' & Hf' & Hname & Hage')%folder_listed_inv.
  apply elem_of_glob_md_name in Hf, Hf'.
  assert (f' = f) as -> by congruence. lia.
Qed.

End AgeChecks.

(** ** Time stamps, thresholds and future files *)

Section AgeClaims.
Import Fs VaultCleaner.

(** C9: an inbox note whose computed age is exactly 3 days is reported by
    [check_inbox_items] and one aged 2 days is not; a project note whose
    computed age is exactly 30 days is reported by [check_stale_projects]
    and one aged 29 days is not. *)
Theorem age_threshold_boundaries (w : world) (r : path) (pillars : list string)
    (pillar : string) (f : path) :
  get_pillars (fs w) r = Ok pillars ->
  pillar ∈ pillars ->
  (f ∈ glob_md (fs w) (r // pillar // "Inbox") ->
     (age_of w r f = 3 ->
      reported (check_inbox_items w r) pillar {| item_name := name f; age_days := 3 |})
     /\ (age_of w r f = 2 -> ~ listed (check_inbox_items w r) pillar (name f)))
  /\ (f ∈ glob_md (fs w) (r // pillar // "Projects") ->
     (age_of w r f = 30 ->
      reported (check_stale_projects w r) pillar {| item_name := name f; age_days := 30 |})
     /\ (age_of w r f = 29 -> ~ listed (check_stale_projects w r) pillar (name f))).
Proof.
  intros Hp Hin. split; intros Hf; split; intros Hage.
  - rewrite check_inbox_items_folder. rewrite <- Hage.
    apply (folder_reported w r "Inbox" _ pillars); [done..|].
    rewrite Hage. by vm_compute.
  - rewrite check_inbox_items_folder.
    apply folder_not_listed; [done|]. rewrite Hage. by vm_compute.
  - rewrite check_stale_projects_folder. rewrite <- Hage.
    apply (folder_reported w r "Projects" _ pillars); [done..|].
    rewrite Hage. by vm_compute.
  - rewrite check_stale_projects_folder.
    apply folder_not_listed; [done|]. rewrite Hage. by vm_compute.
Qed.

Lemma age_threshold_boundaries_witness :
  let r := ["vault"] in
  reported (check_inbox_items aging_world r) "P" {| item_name := "a.md"; age_days := 3 |}
  /\ ~ listed (check_inbox_items aging_world r) "P" "b.md"
  /\ reported (check_stale_projects aging_world r) "P" {| item_name := "c.md"; age_days := 30 |}
  /\ ~ listed (check_stale_projects aging_world r) "P" "d.md".
Proof.
  intros r.
  assert (get_pillars (fs aging_world) r = Ok ["P"]) as Hp by reflexivity.
  assert ("P" ∈ ["P"]) as Hin by (apply elem_of_cons; by left).
  pose proof (age_threshold_boundaries aging_world r ["P"] "P") as H.
  split; [|split; [|split]].
  - apply (H ["vault"; "P"; "Inbox"; "a.md"] Hp Hin); [|reflexivity].
    apply list_elem_of_In. vm_compute. tauto.
  - apply (H ["vault"; "P"; "Inbox"; "b.md"] Hp Hin); [|reflexivity].
    apply list_elem_of_In. vm_compute. tauto.
  - apply (H ["vault"; "P"; "Projects"; "c.md"] Hp Hin); [|reflexivity].
    apply list_elem_of_In. vm_compute. tauto.
  - apply (H ["vault"; "P"; "Projects"; "d.md"] Hp Hin); [|reflexivity].
    apply list_elem_of_In. vm_compute. tauto.
Defined.

(** C10: a file whose resolved last-modified time stamp lies in the future
    of the current time has a negative computed age, and is reported
    neither by [check_inbox_items] nor by [check_stale_projects]. *)
Theorem future_file_not_reported (w : world) (r : path) (pillar : string) (f : path) :
  now w f InDaysSince < last_modified_of w r f ->
  age_of w r f < 0
  /\ (f ∈ glob_md (fs w) (r // pillar // "Inbox") ->
      ~ listed (check_inbox_items w r) pillar (name f))
  /\ (f ∈ glob_md (fs w) (r // pillar // "Projects") ->
      ~ listed (check_stale_projects w r) pillar (name f)).
Proof.
  intros Hfuture.
  assert (age_of w r f < 0) as Hage by (by apply days_since_future).
  split; [done|]. split; intros Hf.
  - rewrite check_inbox_items_folder. apply folder_not_listed; [done|].
    unfold INBOX_AGE_THRESHOLD_DAYS. lia.
  - rewrite check_stale_projects_folder. apply folder_not_listed; [done|].
    unfold PROJECT_STALE_THRESHOLD_DAYS. lia.
Qed.

Lemma future_file_not_reported_witness :
  let r := ["vault"] in
  age_of aging_world r ["vault"; "P"; "Inbox"; "z.md"] < 0
  /\ ~ listed (check_inbox_items aging_world r) "P" "z.md"
  /\ age_of aging_world r ["vault"; "P"; "Projects"; "y.md"] < 0
  /\ ~ listed (check_stale_projects aging_world r) "P" "y.md".
Proof.
  intros r.
  destruct (future_file_not_reported aging_world r "P" ["vault"; "P"; "Inbox"; "z.md"])
    as (Hz & Hinbox & _); [reflexivity|].
  destruct (future_file_not_reported aging_world r "P" ["vault"; "P"; "Projects"; "y.md"])
    as (Hy & _ & Hprojects); [reflexivity|].
  split; [exact Hz|]. split.
  { apply Hinbox. apply list_elem_of_In. vm_compute. tauto. }
  split; [exact Hy|].
  apply Hprojects. apply list_elem_of_In. vm_compute. tauto.
Defined.

End AgeClaims.

(** ** Order on text *)

Lemma string_compare_refl s : String.compare s s = Eq.
Proof.
  induction s as [|c s IH]; simpl; [done|].
  unfold Ascii.compare. by rewrite N.compare_refl.
Qed.

Lemma string_leb_trans s1 s2 s3 :
  String.leb s1 s2 = true -> String.leb s2 s3 = true -> String.leb s1 s3 = true.
Proof.
  intros H1 H2. apply Is_true_true.
  apply Is_true_true in H1, H2.
  exact (transitivity (R := String.le) H1 H2).
Qed.

Lemma string_ltb_leb_ne s t : String.ltb s t = true <-> String.leb s t = true /\ s <> t.
Proof.
  unfold String.ltb, String.leb. split.
  - destruct (String.compare s t) eqn:E; try done.
    intros _. split; [done|]. intros ->. by rewrite string_compare_refl in E.
  - intros [Hle Hne]. destruct (String.compare s t) eqn:E; try done.
    by apply String.compare_eq_iff in E.
Qed.

Lemma sorted_str_ascending l : NoDup l -> ascending (Py.sorted_str l).
Proof.
  intros Hnd.
  assert (NoDup (Py.sorted_str l)) as Hnd'.
  { unfold Py.sorted_str. by rewrite sorted_Permutation. }
  assert (StronglySorted (fun a b => String.leb a b = true) (Py.sorted_str l)) as Hs.
  { apply Sorted_StronglySorted.
    - intros a b c. apply string_leb_trans.
    - apply sorted_Sorted, String.leb_total. }
  revert Hnd'. induction Hs as [|x l' Hl' IH Hall]; intros Hnd'; [constructor|].
  apply NoDup_cons in Hnd' as [Hx Hnd'].
  constructor; [by apply IH|].
  apply Forall_forall. intros y Hy. apply string_ltb_leb_ne. split.
  - by apply (proj1 (Forall_forall _ _) Hall).
  - intros ->. contradiction.
Qed.

(** ** Manifest drift *)

Section Drift.
Import Fs VaultCleaner.
Context (fs : node) (vault_root : path).

Lemma check_manifest_sync_spec pillars :
  get_pillars fs vault_root = Ok pillars ->
  check_manifest_sync fs vault_root
  = Ok (foldl (record_drift fs vault_root) [] pillars).
Proof.
  intros Hp. unfold check_manifest_sync. rewrite Hp. simpl. f_equal.
  clear Hp. generalize (@nil (string * ManifestIssue)).
  induction pillars as [|p pillars IH]; intros acc; [done|].
  simpl. rewrite IH. f_equal.
  unfold record_drift, drift_of.
  destruct (exists_ fs _); simpl; [|done].
  by destruct (_ || _).
Qed.

Lemma dict_get_drift pillars acc pillar :
  dict_get pillar (foldl (record_drift fs vault_root) acc pillars)
  = if decide (pillar ∈ pillars) then
      match drift_of fs vault_root pillar with
      | Some issue => Some issue
      | None => dict_get pillar acc
      end
    else dict_get pillar acc.
Proof.
  revert acc. induction pillars as [|p pillars IH]; intros acc.
  - destruct (decide (pillar ∈ [])) as [Hin|_]; [by apply elem_of_nil in Hin|done].
  - cbn [foldl]. rewrite IH.
    assert (dict_get pillar (record_drift fs vault_root acc p)
            = if decide (pillar = p) then
                match drift_of fs vault_root pillar with
                | Some issue => Some issue
                | None => dict_get pillar acc
                end
              else dict_get pillar acc) as ->.
    { unfold record_drift. destruct (decide (pillar = p)) as [->|Hne].
      - destruct (drift_of fs vault_root p); [apply dict_get_set_eq|done].
      - destruct (drift_of fs vault_root p); [by apply dict_get_set_ne|done]. }
    destruct (decide (pillar ∈ pillars)) as [Hin|Hnin].
    + rewrite (decide_True (P := pillar ∈ p :: pillars))
        by (apply elem_of_cons; by right).
      destruct (drift_of fs vault_root pillar); [done|].
      by destruct (decide (pillar = p)).
    + destruct (decide (pillar = p)) as [->|Hne].
      * by rewrite (decide_True (P := p ∈ p :: pillars))
          by (apply elem_of_cons; by left).
      * rewrite (decide_False (P := pillar ∈ p :: pillars)); [done|].
        intros [?|?]%elem_of_cons; contradiction.
Qed.

Lemma truthy_elements (X : gset string) : truthy (elements X) = true <-> X <> ∅.
Proof.
  destruct (elements X) as [|x l] eqn:E; simpl.
  - apply elements_empty_inv in E. apply leibniz_equiv in E. subst. by split.
  - split; [|done]. intros _ ->. by rewrite elements_empty in E.
Qed.

Lemma sets_differ (X Y : gset string) : X <> Y <-> X ∖ Y <> ∅ \/ Y ∖ X <> ∅.
Proof.
  split.
  - intros Hne.
    destruct (decide (X ∖ Y = ∅)) as [H1|H1]; [|by left].
    destruct (decide (Y ∖ X = ∅)) as [H2|H2]; [|by right].
    exfalso. apply Hne. apply set_eq. intros x.
    destruct (decide (x ∈ X)) as [HX|HX]; destruct (decide (x ∈ Y)) as [HY|HY];
      [done| |  |done].
    + exfalso. by apply (not_elem_of_empty (C := gset string) x); rewrite <- H1;
        apply elem_of_difference.
    + exfalso. by apply (not_elem_of_empty (C := gset string) x); rewrite <- H2;
        apply elem_of_difference.
  - intros [H|H] ->; apply H; apply difference_diag_L.
Qed.

End Drift.

Example ghost_scenario :
  VaultCleaner.check_manifest_sync ghost_fs ["vault"]
  = Ok [("Personal", {| VaultCleaner.add := ["New"]; VaultCleaner.remove := ["Ghost"] |})].
Proof. vm_compute. reflexivity. Qed.

(** ** Pillar discovery on a missing root *)







(** ** The checks that a scan runs *)

(** C2 fails on the code: [main] runs three checks only. In a vault with a
    misplaced root file and a stub note, and nothing else to report, the
    root-file check of the specification finds the file, the manifest
    holds exactly one short note, and yet [main] reports no task and
    writes no report. *)
Theorem main_runs_three_checks :
  spec_check_root_files stray_fs ["vault"] = ["misplaced.md"]
  /\ Fs.read_text stray_fs ["vault"; "Work"; "Knowledge"; "Empty.md"] = Ok "# Title"
  /\ VaultCleaner.main stray_world ["vault"]
     = Ok {| VaultCleaner.has_tasks := false; VaultCleaner.fs_after := stray_fs |}.
Proof. split; [|split]; vm_compute; reflexivity. Qed.

(** ** Text *)

Local Arguments String.append !_ _ / : simpl nomatch.

Lemma of_nat_ltb_0 n : (Z.of_nat n <? 0) = false.
Proof. apply Z.ltb_ge. lia. Qed.

Lemma append_nil_r s : s +:+ "" = s.
Proof. induction s as [|c s IH]; simpl; [done|]. by rewrite IH. Qed.

Lemma append_assoc s t u : (s +:+ t) +:+ u = s +:+ t +:+ u.
Proof. induction s as [|c s IH]; simpl; [done|]. by rewrite IH. Qed.

Lemma length_append s t : String.length (s +:+ t) = (String.length s + String.length t)%nat.
Proof. induction s as [|c s IH]; simpl; [done|]. by rewrite IH. Qed.

Lemma substring_0_length s : String.substring 0 (String.length s) s = s.
Proof. induction s as [|c s IH]; simpl; [done|]. by rewrite IH. Qed.

Lemma substring_0_append p q : String.substring 0 (String.length p) (p +:+ q) = p.
Proof.
  induction p as [|c p IH]; simpl; [by destruct q|]. by rewrite IH.
Qed.

Lemma substring_skip p q n : String.substring (String.length p) n (p +:+ q) = String.substring 0 n q.
Proof. induction p as [|c p IH]; simpl; [done|]. exact IH. Qed.

Lemma lstrip_whitespace_only s : whitespace_only s -> Py.lstrip s = "".
Proof.
  induction s as [|c s IH]; simpl; [done|]. intros [-> Hs]. by apply IH.
Qed.

Lemma rstrip_whitespace_only s : whitespace_only s <-> Py.rstrip s = "".
Proof.
  induction s as [|c s IH]; simpl; [done|]. split.
  - intros [-> Hs]. apply IH in Hs. by rewrite Hs.
  - destruct (Py.rstrip s) eqn:E; [|done].
    destruct (Py.isspace c); [|done]. intros _. split; [done|]. by apply IH.
Qed.

Lemma whitespace_only_lstrip s : whitespace_only s <-> whitespace_only (Py.lstrip s).
Proof.
  induction s as [|c s IH]; simpl; [done|].
  destruct (Py.isspace c) eqn:E; simpl.
  - rewrite <- IH. tauto.
  - rewrite E. tauto.
Qed.

Lemma strip_whitespace_only s : whitespace_only s <-> Py.strip s = "".
Proof.
  unfold Py.strip. rewrite <- rstrip_whitespace_only. apply whitespace_only_lstrip.
Qed.

Lemma prefix_nil s : String.prefix "" s = true.
Proof. by destruct s. Qed.

Lemma prefix_cons a s1 b s2 :
  String.prefix (String a s1) (String b s2) = Ascii.eqb a b && String.prefix s1 s2.
Proof.
  change (String.prefix (String a s1) (String b s2))
    with (match ascii_dec a b with
          | left _ => String.prefix s1 s2
          | right _ => false
          end).
  destruct (ascii_dec a b) as [->|Hne].
  - by rewrite Ascii.eqb_refl.
  - apply Ascii.eqb_neq in Hne. by rewrite Hne.
Qed.

Lemma prefix_cons_nil a s1 : String.prefix (String a s1) "" = false.
Proof. reflexivity. Qed.

Local Arguments String.prefix : simpl never.

Lemma startswith_hash_cons s : Py.startswith "#" s = true <-> exists s', s = String "#" s'.
Proof.
  unfold Py.startswith. destruct s as [|c s].
  - split; [done|]. by intros [? ?].
  - rewrite prefix_cons, prefix_nil, andb_true_r. split.
    + intros ->%Ascii.eqb_eq. by eauto.
    + intros [s' [= -> _]]. apply Ascii.eqb_refl.
Qed.

Lemma lstrip_char_hashes n body :
  Py.startswith "#" body = false -> Py.lstrip_char "#" (hashes n +:+ body) = body.
Proof.
  intros Hbody. induction n as [|n IH]; simpl; [|exact IH].
  destruct body as [|c body]; simpl; [done|].
  destruct (Ascii.eqb c "#") eqn:E; [|done].
  apply Ascii.eqb_eq in E. subst c.
  unfold Py.startswith in Hbody.
  by rewrite prefix_cons, prefix_nil in Hbody.
Qed.

(** A text that starts with a marker is a non-empty run of markers followed
    by a text that does not start with one. *)
Lemma heading_decomposition s :
  Py.startswith "#" s = true ->
  exists n body, s = hashes (S n) +:+ body /\ Py.startswith "#" body = false.
Proof.
  induction s as [|c s IH]; [done|].
  intros Hs. apply startswith_hash_cons in Hs as [s' [= -> ->]].
  destruct (Py.startswith "#" s') eqn:E.
  - destruct (IH eq_refl) as (n & body & -> & Hbody).
    by exists (S n), body.
  - by exists O, s'.
Qed.

Lemma slice_to_all s n : (String.length s <= n)%nat -> Py.slice_to s (Z.of_nat n) = s.
Proof.
  intros Hn. unfold Py.slice_to, Py.slice, Py.clamp, Py.len. simpl.
  rewrite of_nat_ltb_0.
  rewrite Z.min_l by lia. rewrite Z.min_r by lia.
  rewrite Z.sub_0_r, Nat2Z.id. apply substring_0_length.
Qed.

Lemma slice_to_prefix p q : Py.slice_to (p +:+ q) (Z.of_nat (String.length p)) = p.
Proof.
  unfold Py.slice_to, Py.slice, Py.clamp, Py.len. simpl.
  rewrite of_nat_ltb_0.
  rewrite length_append.
  rewrite (Z.min_l 0) by lia. rewrite Z.min_l by lia.
  rewrite Z.sub_0_r, Nat2Z.id. apply substring_0_append.
Qed.

(** ** Descriptions *)

Section Descriptions.
Import Fs SyncManifests.

Lemma first_heading_loop_skip blanks lines :
  Forall whitespace_only blanks ->
  first_heading_loop (blanks ++ lines) = first_heading_loop lines.
Proof.
  induction 1 as [|b blanks Hb _ IH]; [done|].
  simpl. apply strip_whitespace_only in Hb. by rewrite Hb.
Qed.

Lemma first_heading_loop_blank blanks :
  Forall whitespace_only blanks -> first_heading_loop blanks = None.
Proof.
  intros H. rewrite <- (app_nil_r blanks). by rewrite first_heading_loop_skip.
Qed.

Lemma iter_lines_read_text fs f text :
  read_text fs f = Ok text -> iter_lines fs f = Ok (Py.readlines text, None).
Proof.
  unfold read_text, iter_lines.
  destruct (resolve fs f) as [[[t|]|es|h]|]; try done. by intros [= <-].
Qed.

Lemma get_first_heading_lines fs f lines failure :
  iter_lines fs f = Ok (lines, failure) ->
  get_first_heading fs f
  = match first_heading_loop lines with
    | Some description => description
    | None => "No description"
    end.
Proof.
  intros H. unfold get_first_heading. rewrite H. cbn [mbind result_bind].
  destruct (first_heading_loop lines); [done|]. by destruct failure.
Qed.

Lemma get_first_heading_unfold fs f text :
  read_text fs f = Ok text ->
  get_first_heading fs f
  = match first_heading_loop (Py.readlines text) with
    | Some description => description
    | None => "No description"
    end.
Proof. intros H%iter_lines_read_text. by apply get_first_heading_lines in H. Qed.

(** C5, amended: [get_first_heading] reads the file line by line and
    skips the leading lines made of white space only. The first other
    line is taken without its surrounding white space: when it begins with
    one or more markers [#], the result is what follows the markers, again
    without surrounding white space and of any length; otherwise the
    result is that line when it has at most 80 characters, and its first
    80 characters followed by the three characters [...] when it has more.
    This holds of the lines that are read before the end of the file or
    before a failure of the reader, so a file that cannot be read to its
    end still gives the description of a line read before the failure.
    [No description] is the result when the file cannot be opened and when
    every line that is read is blank. *)
Theorem get_first_heading_description (fs : node) (f : path) :
  ((exists e, iter_lines fs f = Raise e) -> get_first_heading fs f = "No description")
  /\ (forall text, read_text fs f = Ok text ->
        iter_lines fs f = Ok (Py.readlines text, None))
  /\ (forall lines failure, iter_lines fs f = Ok (lines, failure) ->
      (Forall whitespace_only lines -> get_first_heading fs f = "No description")
      /\ (forall blanks line rest,
            lines = blanks ++ line :: rest ->
            Forall whitespace_only blanks ->
            ~ whitespace_only line ->
            let s := Py.strip line in
            (forall n body,
               s = hashes (S n) +:+ body -> Py.startswith "#" body = false ->
               get_first_heading fs f = Py.strip body)
            /\ (Py.startswith "#" s = false ->
                ((String.length s <= 80)%nat -> get_first_heading fs f = s)
                /\ (forall p q,
                      s = p +:+ q -> String.length p = 80%nat -> q <> "" ->
                      get_first_heading fs f = p +:+ "...")))).
Proof.
  split; [|split].
  { intros [e He]. unfold get_first_heading. by rewrite He. }
  { apply iter_lines_read_text. }
  intros lines failure Hlines. rewrite (get_first_heading_lines fs f _ _ Hlines). split.
  { intros Hblank. by rewrite first_heading_loop_blank. }
  intros blanks line rest -> Hblanks Hline s.
  rewrite first_heading_loop_skip by done. simpl. fold s.
  assert (s <> "") as Hs by (by intros ?%strip_whitespace_only).
  apply String.eqb_neq in Hs. rewrite Hs. split.
  - intros n body Hbody Hnot.
    assert (Py.startswith "#" s = true) as ->.
    { apply startswith_hash_cons. rewrite Hbody. simpl. by eauto. }
    rewrite Hbody. f_equal. by apply (lstrip_char_hashes (S n)).
  - intros ->. split.
    + intros Hlen. change 80 with (Z.of_nat 80).
      rewrite slice_to_all by done.
      unfold Py.len. assert ((Z.of_nat (String.length s) >? Z.of_nat 80) = false) as ->
        by (rewrite Z.gtb_ltb; apply Z.ltb_ge; lia).
      apply append_nil_r.
    + intros p q Hpq Hp Hq.
      rewrite Hpq. unfold Py.len. rewrite length_append, Hp.
      change 80 with (Z.of_nat 80) at 1. rewrite <- Hp at 1.
      rewrite slice_to_prefix.
      assert ((Z.of_nat (80 + String.length q) >? 80) = true) as ->; [|done].
      destruct q; [done|]. rewrite Z.gtb_ltb. apply Z.ltb_lt. simpl. lia.
Qed.

End Descriptions.

(** C5, as stated, fails: a note that cannot be read to its end, and so
    counts as unreadable, still gets the description of its heading when
    the heading is read before the bytes that cannot be decoded. *)
Lemma get_first_heading_description_counterexample :
  Fs.read_text torn_fs ["K"; "torn.md"] = Raise UnicodeDecodeError
  /\ SyncManifests.get_first_heading torn_fs ["K"; "torn.md"] = "Title"
  /\ SyncManifests.get_first_heading torn_fs ["K"; "torn.md"] <> "No description".
Proof. split; [reflexivity|]. split; [by vm_compute|]. by vm_compute. Qed.

Lemma get_first_heading_description_witness :
  SyncManifests.get_first_heading notes_fs ["K"; "absent.md"] = "No description"
  /\ SyncManifests.get_first_heading notes_fs ["K"; "binary.md"] = "No description"
  /\ SyncManifests.get_first_heading notes_fs ["K"; "blank.md"] = "No description"
  /\ SyncManifests.get_first_heading notes_fs ["K"; "head.md"] = "Title here"
  /\ SyncManifests.get_first_heading notes_fs ["K"; "short.md"] = "a short line"
  /\ SyncManifests.get_first_heading notes_fs ["K"; "long.md"]
     = "AAAAAAAAAAAAAAAAAAAAAAAAAAAAAAAAAAAAAAAAAAAAAAAAAAAAAAAAAAAAAAAAAAAAAAAAAAAAAAAA..."
  /\ SyncManifests.get_first_heading torn_fs ["K"; "torn.md"] = "Title".
Proof.
  split; [|split; [|split; [|split; [|split; [|split]]]]].
  - apply (get_first_heading_description notes_fs ["K"; "absent.md"]).
    by exists FileNotFoundError.
  - destruct (get_first_heading_description notes_fs ["K"; "binary.md"]) as (_ & _ & H).
    apply (H [] (Some UnicodeDecodeError) eq_refl). constructor.
  - destruct (get_first_heading_description notes_fs ["K"; "blank.md"]) as (_ & _ & H).
    apply (H _ _ eq_refl). vm_compute. by repeat constructor.
  - destruct (get_first_heading_description notes_fs ["K"; "head.md"]) as (_ & _ & H).
    destruct (H _ _ eq_refl) as [_ H'].
    destruct (H' [String Py.LF ""; String " " (String " " (String Py.LF ""))]
                 (" ## Title here  " +:+ String Py.LF "") ["body"] eq_refl)
      as [Hhead _].
    + vm_compute. by repeat constructor.
    + vm_compute. by intros (_ & ? & _).
    + exact (Hhead 1%nat " Title here" eq_refl eq_refl).
  - destruct (get_first_heading_description notes_fs ["K"; "short.md"]) as (_ & _ & H).
    destruct (H _ _ eq_refl) as [_ H'].
    destruct (H' [] ("  a short line" +:+ String Py.LF "") ["more"] eq_refl)
      as [_ Hline].
    + constructor.
    + vm_compute. by intros (_ & _ & ? & _).
    + destruct (Hline eq_refl) as [Hshort _]. apply Hshort. vm_compute. lia.
  - destruct (get_first_heading_description notes_fs ["K"; "long.md"]) as (_ & _ & H).
    destruct (H _ _ eq_refl) as [_ H'].
    destruct (H' []
                 "AAAAAAAAAAAAAAAAAAAAAAAAAAAAAAAAAAAAAAAAAAAAAAAAAAAAAAAAAAAAAAAAAAAAAAAAAAAAAAAAB"
                 [] eq_refl)
      as [_ Hline].
    + constructor.
    + vm_compute. by intros (? & _).
    + destruct (Hline eq_refl) as [_ Hlong].
      by apply (Hlong
        "AAAAAAAAAAAAAAAAAAAAAAAAAAAAAAAAAAAAAAAAAAAAAAAAAAAAAAAAAAAAAAAAAAAAAAAAAAAAAAAA"
        "B").
  - destruct (get_first_heading_description torn_fs ["K"; "torn.md"]) as (_ & _ & H).
    assert (Fs.iter_lines torn_fs ["K"; "torn.md"]
            = Ok (["# Title" +:+ String Py.LF ""], Some UnicodeDecodeError)) as Hit
      by (vm_compute; reflexivity).
    destruct (H _ _ Hit) as [_ H'].
    destruct (H' [] ("# Title" +:+ String Py.LF "") [] eq_refl) as [Hhead _].
    + constructor.
    + vm_compute. by intros (? & _).
    + exact (Hhead 0%nat " Title" eq_refl eq_refl).
Defined.

(** ** The order of the rows of a manifest *)

Section SortedFmap.
Context {A B : Type} (f : A -> B) (le : A -> A -> bool) (le' : B -> B -> bool).
Context (le_f : forall a b, le' (f a) (f b) = le a b).

Lemma insort_fmap x l : Py.insort le' (f x) (f <$> l) = f <$> Py.insort le x l.
Proof.
  induction l as [|y l IH]; [done|].
  cbn [fmap list_fmap Py.insort]. rewrite le_f.
  destruct (le x y); [done|]. cbn [fmap list_fmap]. f_equal. exact IH.
Qed.

Lemma sorted_fmap l : Py.sorted le' (f <$> l) = f <$> Py.sorted le l.
Proof.
  induction l as [|x l IH]; [done|].
  unfold Py.sorted in *. cbn [fmap list_fmap foldr]. rewrite IH. apply insort_fmap.
Qed.
End SortedFmap.

Lemma Sorted_leb_le l :
  Sorted (fun a b => String.leb a b = true) l -> Sorted String.le l.
Proof.
  induction 1 as [|x l _ IH Hhd]; constructor; [done|].
  destruct Hhd; constructor. by apply Is_true_true.
Qed.

Lemma sorted_str_Permutation l1 l2 : l1 ≡ₚ l2 -> Py.sorted_str l1 = Py.sorted_str l2.
Proof.
  intros Hperm.
  assert (forall l, Sorted String.le (Py.sorted_str l)) as Hsorted.
  { intros l. apply Sorted_leb_le, sorted_Sorted, String.leb_total. }
  apply (Sorted_unique String.le); [apply Hsorted..|].
  unfold Py.sorted_str. by rewrite !sorted_Permutation.
Qed.

Section ManifestOrder.
Import Fs SyncManifests.

Lemma name_joinpath p n : name (p // n) = n.
Proof. unfold name, joinpath. apply last_last. Qed.

Lemma path_compare_joinpath p a b : path_compare (p // a) (p // b) = String.compare a b.
Proof.
  unfold joinpath. induction p as [|c p IH]; simpl.
  - by destruct (String.compare a b).
  - by rewrite string_compare_refl.
Qed.

Lemma path_leb_joinpath p a b : path_leb (p // a) (p // b) = String.leb a b.
Proof. unfold path_leb, String.leb. by rewrite path_compare_joinpath. Qed.

Lemma glob_md_names fs dir : glob_md fs dir = (joinpath dir) <$> md_names fs dir.
Proof.
  unfold glob_md, md_names. destruct (resolve fs dir) as [[|es|]|]; [done| |done|done].
  change (map (fun e : string * node => dir // e.1) es)
    with ((fun e : string * node => dir // e.1) <$> es).
  induction es as [|[n c] es IH]; [done|].
  cbn [fmap list_fmap fst]. rewrite !filter_cons. cbn [fst].
  rewrite name_joinpath.
  destruct (decide (Is_true (endswith ".md" n))); cbn [fmap list_fmap]; by rewrite IH.
Qed.

Lemma filter_notes_joinpath (dir : path) (ns : list string) :
  filter (fun f => name f <> "MANIFEST.md") ((joinpath dir) <$> ns)
  = (joinpath dir) <$> filter (fun n => n <> "MANIFEST.md") ns.
Proof.
  induction ns as [|n ns IH]; [done|].
  cbn [fmap list_fmap]. rewrite !filter_cons, name_joinpath.
  destruct (decide (n <> "MANIFEST.md")); cbn [fmap list_fmap]; by rewrite IH.
Qed.

Lemma sorted_paths_joinpath (dir : path) (ns : list string) :
  sorted_paths ((joinpath dir) <$> ns) = (joinpath dir) <$> Py.sorted_str ns.
Proof. apply sorted_fmap. intros a b. apply path_leb_joinpath. Qed.

Lemma md_files_names fs dir :
  md_files fs dir = (joinpath dir) <$> Py.sorted_str (note_names fs dir).
Proof.
  unfold md_files, note_names.
  by rewrite glob_md_names, filter_notes_joinpath, sorted_paths_joinpath.
Qed.

Lemma name_md_files fs dir : name <$> md_files fs dir = Py.sorted_str (note_names fs dir).
Proof.
  rewrite md_files_names, <- list_fmap_compose.
  rewrite <- (list_fmap_id (Py.sorted_str _)) at 2.
  apply list_fmap_ext. intros _ n _. apply name_joinpath.
Qed.

Global Instance joinpath_inj dir : Inj (=) (=) (joinpath dir).
Proof. intros a b H. unfold joinpath in H. by apply app_inj_1 in H as [_ [= ->]]. Qed.

Lemma rows_loop fs init files :
  foldl (fun lines md_file => lines ++ [manifest_row fs md_file]) init files
  = init ++ (manifest_row fs <$> files).
Proof.
  revert init. induction files as [|f files IH]; intros init; simpl.
  - by rewrite app_nil_r.
  - by rewrite IH, <- app_assoc.
Qed.

Lemma generate_manifest_lines_rows fs dir :
  md_files fs dir <> [] ->
  generate_manifest_lines fs dir
  = manifest_header ++ (manifest_row fs <$> md_files fs dir) ++ [""].
Proof.
  intros Hne. unfold generate_manifest_lines.
  destruct (md_files fs dir) as [|f files] eqn:E; [done|].
  by rewrite rows_loop, <- app_assoc.
Qed.

Lemma generate_manifest_lines_empty fs dir :
  md_files fs dir = [] ->
  generate_manifest_lines fs dir
  = manifest_header ++ ["| *(empty)* | Add notes to this folder |"; ""].
Proof.
  intros E. unfold generate_manifest_lines. rewrite E. by rewrite <- app_assoc.
Qed.

End ManifestOrder.

(** C3, as stated, fails: the rows follow the file names, in which the
    extension takes part in the comparison; the stem [a-b] precedes the
    stem [a], which is the smaller of the two. *)
Lemma manifest_order_counterexample :
  SyncManifests.generate_manifest_lines dash_fs ["K"]
  = ["# Knowledge Manifest"; ""; "| File | Description |"; "|------|-------------|";
     "| [[a-b]] | Dash |"; "| [[a]] | Plain |"; ""]
  /\ Fs.stem <$> SyncManifests.md_files dash_fs ["K"] = ["a-b"; "a"]
  /\ ~ ascending (Fs.stem <$> SyncManifests.md_files dash_fs ["K"]).
Proof.
  split; [reflexivity|]. split; [reflexivity|].
  change (Fs.stem <$> SyncManifests.md_files dash_fs ["K"]) with ["a-b"; "a"].
  intros H. apply StronglySorted_inv in H as [_ H].
  apply Forall_inv in H. discriminate H.
Qed.

(** C3, amended: the rows of the generated manifest appear in strictly
    ascending order of the notes' file names (stem and extension), whatever
    the order in which the file system enumerates the files. *)
Theorem manifest_rows_ordered (fs : Fs.node) (dir : Fs.path) :
  NoDup (Fs.glob_md fs dir) ->
  let files := SyncManifests.md_files fs dir in
  (files <> [] ->
   SyncManifests.generate_manifest_lines fs dir
   = SyncManifests.manifest_header ++ (SyncManifests.manifest_row fs <$> files) ++ [""])
  /\ ascending (Fs.name <$> files)
  /\ (forall listing,
        listing ≡ₚ Fs.glob_md fs dir ->
        Fs.sorted_paths (filter (fun f => Fs.name f <> "MANIFEST.md") listing) = files).
Proof.
  intros Hnd files. split; [apply generate_manifest_lines_rows|]. split.
  - unfold files. rewrite name_md_files. apply sorted_str_ascending.
    unfold note_names. apply NoDup_filter.
    rewrite glob_md_names in Hnd. by apply NoDup_fmap in Hnd; [|apply _].
  - intros listing Hperm. rewrite glob_md_names in Hperm.
    apply Permutation_map_inv in Hperm as (ns & -> & Hns).
    unfold files. rewrite md_files_names.
    rewrite filter_notes_joinpath, sorted_paths_joinpath. f_equal.
    apply sorted_str_Permutation. unfold note_names. by rewrite <- Hns.
Qed.

Lemma manifest_rows_ordered_witness :
  SyncManifests.generate_manifest_lines dash_fs ["K"]
  = SyncManifests.manifest_header
    ++ (SyncManifests.manifest_row dash_fs <$> [["K"; "a-b.md"]; ["K"; "a.md"]]) ++ [""]
  /\ ascending ["a-b.md"; "a.md"]
  /\ Fs.sorted_paths
       (filter (fun f => Fs.name f <> "MANIFEST.md") [["K"; "a-b.md"]; ["K"; "a.md"]])
     = [["K"; "a-b.md"]; ["K"; "a.md"]].
Proof.
  assert (NoDup (Fs.glob_md dash_fs ["K"])) as Hnd.
  { apply NoDup_ListNoDup. vm_compute. repeat constructor; simpl; intuition discriminate. }
  destruct (manifest_rows_ordered dash_fs ["K"] Hnd) as (Hrows & Hasc & Hperm).
  split; [by apply Hrows|]. split; [exact Hasc|].
  apply Hperm. apply Permutation_swap.
Defined.

(** ** Characters of a text *)

Lemma char_in_append c s t : char_in c (s +:+ t) = char_in c s || char_in c t.
Proof. induction s as [|d s IH]; simpl; [done|]. by rewrite IH, orb_assoc. Qed.

Lemma chars_within_refl s : chars_within s s.
Proof. by intros c. Qed.

Lemma chars_within_trans s t u : chars_within s t -> chars_within t u -> chars_within s u.
Proof. intros H1 H2 c Hc. by apply H2, H1. Qed.

Lemma chars_within_cons c s t : chars_within s t -> chars_within s (String c t).
Proof. intros H d Hd. simpl. rewrite (H d Hd). apply orb_true_r. Qed.

Lemma chars_within_cons_cons c s t : chars_within s t -> chars_within (String c s) (String c t).
Proof.
  intros H d. simpl. intros [->|Hd]%orb_true_iff; [done|].
  rewrite (H d Hd). apply orb_true_r.
Qed.

Lemma chars_within_free c s t : chars_within s t -> char_in c t = false -> char_in c s = false.
Proof.
  intros H Ht. destruct (char_in c s) eqn:E; [|done].
  apply H in E. congruence.
Qed.

Lemma lstrip_within s : chars_within (Py.lstrip s) s.
Proof.
  induction s as [|c s IH]; simpl; [done|].
  destruct (Py.isspace c); [by apply chars_within_cons|apply chars_within_refl].
Qed.

Lemma rstrip_within s : chars_within (Py.rstrip s) s.
Proof.
  induction s as [|c s IH]; simpl; [done|].
  destruct (Py.rstrip s) eqn:E.
  - destruct (Py.isspace c); [done|]. by apply chars_within_cons_cons.
  - by apply chars_within_cons_cons.
Qed.

Lemma strip_within s : chars_within (Py.strip s) s.
Proof.
  unfold Py.strip. eapply chars_within_trans; [apply rstrip_within|apply lstrip_within].
Qed.

Lemma lstrip_char_within c s : chars_within (Py.lstrip_char c s) s.
Proof.
  induction s as [|d s IH]; simpl; [done|].
  destruct (Ascii.eqb d c); [by apply chars_within_cons|apply chars_within_refl].
Qed.

Lemma substring_within n m s : chars_within (String.substring n m s) s.
Proof.
  revert n m. induction s as [|c s IH]; intros n m.
  - destruct n, m; apply chars_within_refl.
  - destruct n as [|n].
    + destruct m as [|m]; simpl; [done|]. apply chars_within_cons_cons, IH.
    + simpl. apply chars_within_cons, IH.
Qed.

Lemma slice_within s a b : chars_within (Py.slice s a b) s.
Proof. apply substring_within. Qed.

(** ** Line terminators *)

Lemma universal_newlines_no_CR_aux s :
  char_in Py.CR (Py.universal_newlines s) = false
  /\ forall c, char_in Py.CR (Py.universal_newlines (String c s)) = false.
Proof.
  induction s as [|d s [IH1 IH2]].
  - split; [done|]. intros c. cbn [Py.universal_newlines].
    destruct (Ascii.eqb c Py.CR) eqn:E; [done|]. simpl. by rewrite E.
  - split; [apply IH2|]. intros c.
    cbn [Py.universal_newlines]. fold (Py.universal_newlines (String d s)).
    destruct (Ascii.eqb c Py.CR) eqn:E.
    + cbn [char_in]. change (Ascii.eqb Py.LF Py.CR) with false. cbn [orb].
      destruct (Ascii.eqb d Py.LF); [exact IH1|apply IH2].
    + cbn [char_in]. rewrite E. cbn [orb]. apply IH2.
Qed.

Lemma universal_newlines_no_CR s : char_in Py.CR (Py.universal_newlines s) = false.
Proof. apply universal_newlines_no_CR_aux. Qed.

Lemma universal_newlines_id s : char_in Py.CR s = false -> Py.universal_newlines s = s.
Proof.
  induction s as [|c s IH]; [done|].
  cbn [char_in Py.universal_newlines].
  intros [E Hs]%orb_false_iff. rewrite E. by rewrite IH.
Qed.

Lemma readlines_line l rest :
  char_in Py.LF l = false ->
  Py.readlines (l +:+ String Py.LF rest) = (l +:+ String Py.LF "") :: Py.readlines rest.
Proof.
  induction l as [|c l IH]; [done|].
  cbn [char_in]. intros [E Hl]%orb_false_iff.
  cbn [String.append Py.readlines]. rewrite E. by rewrite IH.
Qed.

Lemma readlines_line_shaped s : Forall line_shaped (Py.readlines s).
Proof.
  induction s as [|c s IH]; [constructor|].
  cbn [Py.readlines]. destruct (Ascii.eqb c Py.LF) eqn:E.
  - apply Ascii.eqb_eq in E. subst c. constructor; [|done].
    exists "". split; [done|]. by right.
  - destruct (Py.readlines s) as [|l ls].
    + constructor; [|done]. exists (String c ""). split; [|by left].
      simpl. by rewrite E.
    + apply Forall_cons in IH as [(b & Hb & Hl) Hls]. constructor; [|done].
      exists (String c b). split; [simpl; by rewrite E, Hb|].
      destruct Hl as [->| ->]; [by left|by right].
Qed.

Lemma readlines_within s : Forall (fun l => chars_within l s) (Py.readlines s).
Proof.
  induction s as [|c s IH]; [constructor|].
  cbn [Py.readlines]. destruct (Ascii.eqb c Py.LF) eqn:E.
  - constructor.
    + intros d. simpl. by rewrite !orb_false_r; intros ->.
    + eapply Forall_impl; [exact IH|]. intros l Hl. by apply chars_within_cons.
  - destruct (Py.readlines s) as [|l ls].
    + constructor; [|done]. intros d. simpl. rewrite orb_false_r. by intros ->.
    + apply Forall_cons in IH as [Hl Hls]. constructor.
      * by apply chars_within_cons_cons.
      * eapply Forall_impl; [exact Hls|]. intros l' Hl'. by apply chars_within_cons.
Qed.

Lemma rstrip_app_space s c : Py.isspace c = true -> Py.rstrip (s +:+ String c "") = Py.rstrip s.
Proof.
  intros Hc. induction s as [|d s IH]; simpl; [by rewrite Hc|]. by rewrite IH.
Qed.

Lemma lstrip_app s t :
  Py.lstrip (s +:+ t) = if String.eqb (Py.lstrip s) "" then Py.lstrip t else Py.lstrip s +:+ t.
Proof.
  induction s as [|c s IH]; [done|]. simpl.
  destruct (Py.isspace c); [exact IH|done].
Qed.

Lemma strip_app_space s c : Py.isspace c = true -> Py.strip (s +:+ String c "") = Py.strip s.
Proof.
  intros Hc. unfold Py.strip. rewrite lstrip_app.
  destruct (String.eqb (Py.lstrip s) "") eqn:E.
  - apply String.eqb_eq in E. rewrite E. simpl. by rewrite Hc.
  - by apply rstrip_app_space.
Qed.

Lemma strip_line_no_LF l : line_shaped l -> char_in Py.LF (Py.strip l) = false.
Proof.
  intros (b & Hb & [->| ->]).
  - eapply chars_within_free; [apply strip_within|done].
  - rewrite strip_app_space by done.
    eapply chars_within_free; [apply strip_within|done].
Qed.

Lemma chars_within_append s s' t t' :
  chars_within s s' -> chars_within t t' -> chars_within (s +:+ t) (s' +:+ t').
Proof.
  intros Hs Ht c. rewrite !char_in_append.
  intros [H|H]%orb_true_iff; apply orb_true_iff; auto.
Qed.

(** ** Descriptions hold no line terminator *)

Section CleanDescriptions.
Import Fs SyncManifests.

Lemma first_heading_loop_within lines d :
  first_heading_loop lines = Some d ->
  exists line, line ∈ lines /\ chars_within d (Py.strip line +:+ "...").
Proof.
  induction lines as [|line lines IH]; [done|].
  cbn [first_heading_loop].
  destruct (String.eqb (Py.strip line) "") eqn:E.
  - intros (l & Hl & Hd)%IH. exists l. split; [|done]. apply elem_of_cons. by right.
  - intros Hd. exists line. split; [apply elem_of_cons; by left|].
    destruct (Py.startswith "#" (Py.strip line)); injection Hd as <-.
    + eapply chars_within_trans; [apply strip_within|].
      eapply chars_within_trans; [apply lstrip_char_within|].
      rewrite <- (append_nil_r (Py.strip line)) at 1.
      by apply chars_within_append; [apply chars_within_refl|].
    + apply chars_within_append; [apply slice_within|].
      destruct (_ >? _); [apply chars_within_refl|by intros c].
Qed.

Lemma iter_lines_shape fs f lines failure :
  iter_lines fs f = Ok (lines, failure) ->
  Forall (fun l => line_shaped l /\ char_in Py.CR l = false) lines.
Proof.
  assert (forall t, Forall (fun l => line_shaped l /\ char_in Py.CR l = false)
                           (Py.readlines (Py.universal_newlines t))) as Hall.
  { intros t. apply Forall_forall. intros l Hl. split.
    - exact (proj1 (Forall_forall _ _) (readlines_line_shaped _) l Hl).
    - eapply chars_within_free;
        [exact (proj1 (Forall_forall _ _) (readlines_within _) l Hl)|].
      apply universal_newlines_no_CR. }
  unfold iter_lines. destruct (resolve fs f) as [[[t|]|es|h]|]; try done.
  - intros [= <- _]. apply Hall.
  - intros [= <- _]. constructor.
  - intros [= <- _]. apply Forall_forall. intros l [_ Hl]%list_elem_of_filter.
    exact (proj1 (Forall_forall _ _) (Hall h) l Hl).
Qed.

Lemma get_first_heading_clean fs f :
  char_in Py.LF (get_first_heading fs f) = false
  /\ char_in Py.CR (get_first_heading fs f) = false.
Proof.
  destruct (iter_lines fs f) as [[lines failure]|e] eqn:Hit;
    [|unfold get_first_heading; by rewrite Hit].
  rewrite (get_first_heading_lines _ _ _ _ Hit).
  pose proof (iter_lines_shape _ _ _ _ Hit) as Hshape.
  destruct (first_heading_loop _) as [d|] eqn:Hd; [|done].
  apply first_heading_loop_within in Hd as (line & Hline & Hd).
  destruct (proj1 (Forall_forall _ _) Hshape line Hline) as [Hls Hcr].
  split.
  - eapply chars_within_free; [exact Hd|].
    rewrite char_in_append, orb_false_r.
    by apply strip_line_no_LF.
  - eapply chars_within_free; [exact Hd|].
    rewrite char_in_append, orb_false_r.
    eapply chars_within_free; [apply strip_within|done].
Qed.

End CleanDescriptions.

(** ** Joined lines *)

Lemma join_cons sep l ls :
  ls <> [] -> Py.join sep (l :: ls) = l +:+ sep +:+ Py.join sep ls.
Proof. by destruct ls. Qed.

Lemma readlines_join ls :
  Forall (fun l => char_in Py.LF l = false) ls ->
  Py.readlines (Py.join (String Py.LF "") (ls ++ [""]))
  = (fun l => l +:+ String Py.LF "") <$> ls.
Proof.
  induction 1 as [|l ls Hl _ IH]; [done|].
  cbn [app]. rewrite join_cons by (by destruct ls).
  cbn [String.append fmap list_fmap].
  rewrite readlines_line by done. by rewrite IH.
Qed.

Lemma char_in_join c sep ls :
  char_in c sep = false ->
  Forall (fun l => char_in c l = false) ls ->
  char_in c (Py.join sep ls) = false.
Proof.
  intros Hsep. induction 1 as [|l ls Hl Hls IH]; [done|].
  destruct ls as [|l' ls]; [done|].
  rewrite join_cons by done.
  by rewrite !char_in_append, Hl, Hsep, IH.
Qed.

(** ** Searching a text *)

Lemma find_from_cases sub s i :
  0 <= i ->
  (Py.find_from sub s i = -1 /\ Py.find_from sub s 0 = -1)
  \/ (exists k, 0 <= k /\ Py.find_from sub s 0 = k /\ Py.find_from sub s i = i + k).
Proof.
  revert i. induction s as [|c s IH]; intros i Hi; cbn [Py.find_from].
  - destruct (String.prefix sub ""); [right; exists 0; lia|by left].
  - destruct (String.prefix sub (String c s)); [right; exists 0; lia|].
    destruct (IH (i + 1) ltac:(lia)) as [[H1 H0]|(k & Hk & H0 & H1)];
      destruct (IH (0 + 1) ltac:(lia)) as [[H1' H0']|(k' & Hk' & H0' & H1')].
    + by left.
    + lia.
    + lia.
    + right. exists (1 + k). split; [lia|]. split; lia.
Qed.

Lemma contains_cons_false sub c s :
  Py.contains sub (String c s) = false ->
  String.prefix sub (String c s) = false /\ Py.contains sub s = false.
Proof.
  unfold Py.contains, Py.find. cbn [Py.find_from].
  destruct (String.prefix sub (String c s)); [done|].
  intros H. split; [done|].
  apply negb_false_iff, Z.eqb_eq in H.
  destruct (find_from_cases sub s (0 + 1) ltac:(lia)) as [[_ H0]|(k & Hk & _ & H1)].
  - rewrite H0. done.
  - lia.
Qed.

Lemma prefix_bracket_append s t u :
  String.prefix "]" (s +:+ String "]" t) = String.prefix "]" (s +:+ String "]" u).
Proof.
  destruct s as [|c s]; cbn [String.append]; by rewrite !prefix_cons, !prefix_nil.
Qed.

(** In a text that holds no [\]\]] even when a [\]] follows it, the first
    [\]\]] of the text followed by [\]\]] is the one that follows it. *)
Lemma find_close stem rest i :
  Py.contains "]]" (stem +:+ "]") = false ->
  Py.find_from "]]" (stem +:+ "]]" +:+ rest) i = i + Py.len stem.
Proof.
  revert i. induction stem as [|c stem IH]; intros i Hsafe.
  - cbn [String.append Py.find_from].
    rewrite !prefix_cons, prefix_nil. unfold Py.len. simpl. lia.
  - cbn [String.append] in Hsafe.
    apply contains_cons_false in Hsafe as [Hp Hsafe].
    cbn [String.append Py.find_from].
    rewrite prefix_cons in Hp. rewrite prefix_cons.
    rewrite (prefix_bracket_append stem (String "]" rest) "").
    rewrite Hp.
    change (stem +:+ String "]" (String "]" rest)) with (stem +:+ "]]" +:+ rest).
    rewrite IH by done. unfold Py.len. simpl String.length. lia.
Qed.

Lemma slice_middle p s q :
  Py.slice (p +:+ s +:+ q) (Py.len p) (Py.len p + Py.len s) = s.
Proof.
  unfold Py.slice, Py.clamp, Py.len. rewrite !length_append.
  rewrite of_nat_ltb_0.
  assert ((Z.of_nat (String.length p) + Z.of_nat (String.length s) <? 0) = false) as ->
    by (apply Z.ltb_ge; lia).
  rewrite !Z.min_l by lia.
  replace (Z.of_nat (String.length p) + Z.of_nat (String.length s)
           - Z.of_nat (String.length p)) with (Z.of_nat (String.length s)) by lia.
  rewrite !Nat2Z.id, substring_skip. apply substring_0_append.
Qed.

Lemma rstrip_app_nonspace s c :
  Py.isspace c = false -> Py.rstrip (s +:+ String c "") = s +:+ String c "".
Proof.
  intros Hc. induction s as [|d s IH]; simpl; [by rewrite Hc|].
  rewrite IH. by destruct s.
Qed.

(** The character that marks the line feed inside the literals. *)
Lemma LF_literal : "
" = String Py.LF "".
Proof. reflexivity. Qed.

(** ** Parsing the rows of a manifest *)

Section ParseRows.
Import Fs VaultCleaner.

Lemma row_of_ends stem description :
  row_of stem description
  = ("| [[" +:+ stem +:+ "]] | " +:+ description +:+ " ") +:+ "|".
Proof. unfold row_of. by rewrite !append_assoc. Qed.

Lemma strip_row stem description :
  Py.strip (row_of stem description +:+ String Py.LF "") = row_of stem description.
Proof.
  rewrite strip_app_space by done. unfold Py.strip.
  assert (Py.lstrip (row_of stem description) = row_of stem description) as -> by done.
  rewrite row_of_ends. by apply rstrip_app_nonspace.
Qed.

Lemma find_open rest : Py.find "[[" ("| [[" +:+ rest) = 2.
Proof.
  unfold Py.find. cbn [String.append Py.find_from].
  by rewrite !prefix_cons, !prefix_nil.
Qed.

Lemma find_close_row stem description :
  Py.contains "]]" (stem +:+ "]") = false ->
  Py.find "]]" (row_of stem description) = 4 + Py.len stem.
Proof.
  intros Hsafe. unfold Py.find, row_of. cbn [String.append Py.find_from].
  rewrite !prefix_cons. cbn [Ascii.eqb Bool.eqb andb].
  change (String "]" (String "]" (String " " (String "|" (String " " (description +:+ " |"))))))
    with ("]]" +:+ " | " +:+ description +:+ " |").
  by rewrite find_close.
Qed.

Lemma parse_row entries stem description :
  Py.contains "]]" (stem +:+ "]") = false ->
  parse_manifest_line entries (row_of stem description +:+ String Py.LF "")
  = {[ stem ]} ∪ entries.
Proof.
  intros Hsafe. unfold parse_manifest_line. rewrite strip_row.
  pose proof (find_close_row stem description Hsafe) as Hclose.
  unfold row_of in *. unfold Py.contains, Py.startswith.
  rewrite !find_open, Hclose.
  cbn [String.append]. rewrite prefix_cons, prefix_nil.
  assert ((4 + Py.len stem =? -1) = false) as ->
    by (apply Z.eqb_neq; unfold Py.len; lia).
  cbn [negb andb Z.eqb Ascii.eqb Bool.eqb]. f_equal. f_equal.
  change (2 + 2) with (Py.len "| [[").
  change 4 with (Py.len "| [[").
  exact (slice_middle "| [[" stem ("]] | " +:+ description +:+ " |")).
Qed.

End ParseRows.

Section RoundTrip.
Import Fs SyncManifests VaultCleaner.

Lemma md_files_Permutation fs dir : md_files fs dir ≡ₚ notes fs dir.
Proof. apply sorted_Permutation. Qed.

Lemma glob_md_missing fs dir : exists_ fs dir = false -> glob_md fs dir = [].
Proof. unfold exists_, glob_md. by destruct (resolve fs dir) as [[| |]|]. Qed.

Lemma parse_manifest_read_text fs p text :
  read_text fs p = Ok text ->
  parse_manifest fs p = foldl parse_manifest_line ∅ (Py.readlines text).
Proof.
  intros Hr. unfold parse_manifest.
  rewrite (iter_lines_read_text _ _ _ Hr).
  unfold exists_, read_text in *. by destruct (resolve fs p).
Qed.

Lemma actual_files_loop (files : list path) (acc : gset string) :
  foldl (fun files f =>
           if bool_decide (name f <> "MANIFEST.md") then {[ stem f ]} ∪ files
           else files)
        acc files
  = list_to_set (stem <$> filter (fun f => name f <> "MANIFEST.md") files) ∪ acc.
Proof.
  revert acc. induction files as [|f files IH]; intros acc.
  - simpl. by rewrite union_empty_l_L.
  - cbn [foldl]. rewrite IH, filter_cons.
    destruct (decide (name f <> "MANIFEST.md")) as [Hf|Hf].
    + rewrite bool_decide_eq_true_2 by done. cbn [fmap list_fmap list_to_set].
      apply set_eq. intros x. rewrite !elem_of_union. tauto.
    + by rewrite bool_decide_eq_false_2 by done.
Qed.

Lemma get_actual_files_notes fs dir :
  get_actual_files fs dir = list_to_set (stem <$> notes fs dir).
Proof.
  unfold get_actual_files, notes.
  destruct (exists_ fs dir) eqn:E; simpl.
  - by rewrite actual_files_loop, union_empty_r_L.
  - by rewrite glob_md_missing.
Qed.

Lemma parse_header entries :
  foldl parse_manifest_line entries
        ((fun l => l +:+ String Py.LF "") <$> manifest_header)
  = entries.
Proof. reflexivity. Qed.

Lemma parse_placeholder entries :
  parse_manifest_line entries
    ("| *(empty)* | Add notes to this folder |" +:+ String Py.LF "")
  = entries.
Proof. reflexivity. Qed.

Lemma parse_rows fs (files : list path) (entries : gset string) :
  Forall (fun f => link_safe (stem f)) files ->
  foldl parse_manifest_line entries
        ((fun l => l +:+ String Py.LF "") <$> (manifest_row fs <$> files))
  = list_to_set (stem <$> files) ∪ entries.
Proof.
  intros Hsafe. revert entries.
  induction Hsafe as [|f files (_ & _ & Hf) _ IH]; intros entries.
  - simpl. by rewrite union_empty_l_L.
  - cbn [fmap list_fmap foldl list_to_set].
    change (manifest_row fs f) with (row_of (stem f) (get_first_heading fs f)).
    rewrite parse_row by done. rewrite IH.
    apply set_eq. intros x. rewrite !elem_of_union. tauto.
Qed.

Lemma row_no_terminator fs f c :
  (c = Py.LF \/ c = Py.CR) ->
  char_in c (stem f) = false ->
  char_in c (manifest_row fs f) = false.
Proof.
  intros Hc Hstem. unfold manifest_row.
  rewrite !char_in_append, Hstem.
  destruct (get_first_heading_clean fs f) as [HLF HCR].
  by destruct Hc as [-> | ->]; rewrite ?HLF, ?HCR.
Qed.

Lemma generate_manifest_lines_body fs dir :
  generate_manifest_lines fs dir = manifest_body fs dir ++ [""].
Proof.
  unfold generate_manifest_lines, manifest_body.
  destruct (md_files fs dir) as [|f files]; [done|].
  by rewrite rows_loop.
Qed.

Lemma manifest_body_no_terminator fs dir c :
  (c = Py.LF \/ c = Py.CR) ->
  Forall (fun f => char_in c (stem f) = false) (md_files fs dir) ->
  Forall (fun l => char_in c l = false) (manifest_body fs dir).
Proof.
  intros Hc Hstems. unfold manifest_body.
  destruct (md_files fs dir) as [|f files] eqn:E.
  - by destruct Hc as [-> | ->]; repeat constructor.
  - apply Forall_app. split.
    + by destruct Hc as [-> | ->]; repeat constructor.
    + apply Forall_fmap. eapply Forall_impl; [exact Hstems|].
      intros f' Hf'. by apply row_no_terminator.
Qed.

Lemma generated_content_no_CR fs dir :
  Forall (fun f => char_in Py.CR (stem f) = false) (md_files fs dir) ->
  char_in Py.CR (generate_manifest_content fs dir) = false.
Proof.
  intros Hstems. unfold generate_manifest_content.
  apply char_in_join; [done|].
  rewrite generate_manifest_lines_body. apply Forall_app. split.
  - apply manifest_body_no_terminator; [by right|done].
  - by repeat constructor.
Qed.

Lemma readlines_generated fs dir :
  Forall (fun f => char_in Py.LF (stem f) = false) (md_files fs dir) ->
  Py.readlines (generate_manifest_content fs dir)
  = (fun l => l +:+ String Py.LF "") <$> manifest_body fs dir.
Proof.
  intros Hstems. unfold generate_manifest_content.
  rewrite generate_manifest_lines_body, LF_literal.
  apply readlines_join. apply manifest_body_no_terminator; [by left|done].
Qed.

Lemma parse_generated fs dir :
  Forall (fun f => link_safe (stem f)) (md_files fs dir) ->
  foldl parse_manifest_line ∅ (Py.readlines (generate_manifest_content fs dir))
  = list_to_set (stem <$> md_files fs dir).
Proof.
  intros Hsafe. rewrite readlines_generated.
  2:{ eapply Forall_impl; [exact Hsafe|]. by intros f (? & _). }
  unfold manifest_body. destruct (md_files fs dir) as [|f files] eqn:E.
  - reflexivity.
  - rewrite fmap_app, foldl_app, parse_header.
    rewrite parse_rows by done. by rewrite union_empty_r_L.
Qed.

Lemma md_files_safe fs dir (P : path -> Prop) :
  (forall f, f ∈ glob_md fs dir -> name f <> "MANIFEST.md" -> P f) ->
  Forall P (md_files fs dir).
Proof.
  intros H. apply Forall_forall. intros f Hf.
  rewrite md_files_Permutation in Hf.
  apply list_elem_of_filter in Hf as [Hname Hf]. by apply H.
Qed.

End RoundTrip.

(** C6, as stated, fails: the manifest generated for a folder holding the
    note [x\].md] parses to the stem [x], not to [x\]]. *)
Lemma manifest_round_trip_counterexample :
  Fs.read_text bracket_fs ["M.md"]
  = Ok (SyncManifests.generate_manifest_content bracket_fs ["K"])
  /\ VaultCleaner.parse_manifest bracket_fs ["M.md"] = {[ "x" ]}
  /\ VaultCleaner.get_actual_files bracket_fs ["K"] = {[ "x]" ]}
  /\ VaultCleaner.parse_manifest bracket_fs ["M.md"]
     <> VaultCleaner.get_actual_files bracket_fs ["K"].
Proof.
  assert (VaultCleaner.parse_manifest bracket_fs ["M.md"] = {[ "x" ]}) as Hp
    by (vm_compute; reflexivity).
  assert (VaultCleaner.get_actual_files bracket_fs ["K"] = {[ "x]" ]}) as Ha
    by (vm_compute; reflexivity).
  split; [reflexivity|]. split; [exact Hp|]. split; [exact Ha|].
  rewrite Hp, Ha. intros H.
  assert ("x" ∈ ({[ "x]" ]} : gset string)) as Hin
    by (rewrite <- H; by apply elem_of_singleton).
  apply elem_of_singleton in Hin. discriminate Hin.
Qed.

(** C6, amended: when every note stem of a folder can be carried by a
    reference (it holds neither LF nor CR, and no [\]\]] appears in it even
    when a [\]] follows it), parsing the manifest generated for the folder
    yields exactly the set of the note stems of the folder, the empty set
    for a folder without notes. *)
Theorem manifest_round_trip (fs : Fs.node) (dir manifest_path : Fs.path) :
  Fs.resolve fs manifest_path
  = Some (Fs.File (Some (SyncManifests.generate_manifest_content fs dir))) ->
  (forall f, f ∈ Fs.glob_md fs dir -> Fs.name f <> "MANIFEST.md" -> link_safe (Fs.stem f)) ->
  VaultCleaner.parse_manifest fs manifest_path = list_to_set (Fs.stem <$> notes fs dir)
  /\ VaultCleaner.get_actual_files fs dir = list_to_set (Fs.stem <$> notes fs dir)
  /\ (notes fs dir = [] -> VaultCleaner.parse_manifest fs manifest_path = ∅).
Proof.
  intros Hstored Hsafe.
  assert (VaultCleaner.parse_manifest fs manifest_path
          = list_to_set (Fs.stem <$> notes fs dir)) as Hparse.
  { unfold VaultCleaner.parse_manifest, Fs.exists_, Fs.iter_lines. rewrite Hstored.
    cbn [negb try_pass].
    rewrite universal_newlines_id.
    2:{ apply generated_content_no_CR. apply md_files_safe.
        intros f Hf Hname. by destruct (Hsafe f Hf Hname) as (_ & ? & _). }
    rewrite parse_generated by (by apply md_files_safe).
    apply set_eq. intros s. rewrite !elem_of_list_to_set.
    by rewrite md_files_Permutation. }
  split; [exact Hparse|]. split; [apply get_actual_files_notes|].
  intros Hnone. by rewrite Hparse, Hnone.
Qed.

Lemma manifest_round_trip_witness :
  VaultCleaner.parse_manifest synced_fs ["K"; "MANIFEST.md"]
  = list_to_set (Fs.stem <$> notes synced_fs ["K"])
  /\ VaultCleaner.get_actual_files synced_fs ["K"]
     = list_to_set (Fs.stem <$> notes synced_fs ["K"])
  /\ (notes synced_fs ["K"] = [] ->
      VaultCleaner.parse_manifest synced_fs ["K"; "MANIFEST.md"] = ∅).
Proof.
  apply (manifest_round_trip synced_fs ["K"] ["K"; "MANIFEST.md"]).
  - reflexivity.
  - intros f Hf _. apply list_elem_of_In in Hf. vm_compute in Hf.
    destruct Hf as [<-|[<-|[<-|[]]]]; by vm_compute.
Defined.

(** ** Writing a file *)

Section Writing.
Import Fs.

Lemma alter_entry_spec c (F : option node -> result node) es es' :
  alter_entry c F es = Ok es' ->
  exists n',
    F (lookup_entry c es) = Ok n'
    /\ lookup_entry c es' = Some n'
    /\ (forall c0, c0 <> c -> lookup_entry c0 es' = lookup_entry c0 es)
    /\ filter (fun n => n <> c) (fst <$> es') = filter (fun n => n <> c) (fst <$> es).
Proof.
  revert es'. induction es as [|[d m] es IH]; intros es'; cbn [alter_entry lookup_entry].
  - destruct (F None) as [n|e] eqn:HF; [|done]. intros [= <-].
    exists n. split; [done|]. cbn [lookup_entry]. rewrite String.eqb_refl.
    split; [done|]. split.
    + intros c0 Hc0. apply not_eq_sym, String.eqb_neq in Hc0. by rewrite Hc0.
    + cbn [fmap list_fmap fst]. rewrite filter_cons.
      by destruct (decide (c <> c)).
  - destruct (String.eqb d c) eqn:E.
    + apply String.eqb_eq in E. subst d.
      destruct (F (Some m)) as [n|e] eqn:HF; [|done]. intros [= <-].
      exists n. split; [done|]. cbn [lookup_entry]. rewrite String.eqb_refl.
      split; [done|]. split; [|done].
      intros c0 Hc0. apply not_eq_sym, String.eqb_neq in Hc0. by rewrite Hc0.
    + destruct (alter_entry c F es) as [es''|e] eqn:Ha; [|done]. intros [= <-].
      destruct (IH es'' eq_refl) as (n & HF & Hl & Ho & Hf).
      exists n. split; [done|]. cbn [lookup_entry]. rewrite E.
      split; [done|]. split.
      * intros c0 Hc0. destruct (String.eqb d c0); [done|]. by apply Ho.
      * cbn [fmap list_fmap fst]. rewrite !filter_cons.
        destruct (decide (d <> c)); by rewrite Hf.
Qed.

Lemma write_text_dir es c p txt :
  write_text (Dir es) (c :: p) txt
  = es' ← alter_entry c
            (fun o =>
               match o with
               | Some m => write_text m p txt
               | None =>
                   match p with
                   | [] => Ok (File (Some txt))
                   | _ :: _ => Raise FileNotFoundError
                   end
               end) es;
    Ok (Dir es').
Proof. reflexivity. Qed.

Lemma write_text_spec dir n :
  forall fs fs' txt,
    write_text fs (dir ++ [n]) txt = Ok fs' ->
    resolve fs' (dir ++ [n]) = Some (File (Some txt))
    /\ (forall n' q, n' <> n -> resolve fs' (dir ++ n' :: q) = resolve fs (dir ++ n' :: q))
    /\ (exists es es',
          resolve fs dir = Some (Dir es)
          /\ resolve fs' dir = Some (Dir es')
          /\ filter (fun m => m <> n) (fst <$> es')
             = filter (fun m => m <> n) (fst <$> es)).
Proof.
  induction dir as [|c dir IH]; intros fs fs' txt; cbn [app].
  - destruct fs as [t|es|h]; [done| |done]. rewrite write_text_dir.
    match goal with
    | |- context [alter_entry n ?F es] =>
        destruct (alter_entry n F es) as [es'|e] eqn:Ha; [|done]
    end.
    intros [= <-].
    apply alter_entry_spec in Ha as (n' & HF & Hl & Ho & Hf).
    assert (n' = File (Some txt)) as ->.
    { destruct (lookup_entry n es) as [[t|es0|h]|]; cbn in HF; congruence. }
    split; [cbn [resolve]; by rewrite Hl|]. split.
    + intros n0 q Hn0. cbn [resolve]. by rewrite Ho.
    + by exists es, es'.
  - destruct fs as [t|es|h]; [done| |done]. rewrite write_text_dir.
    match goal with
    | |- context [alter_entry c ?F es] =>
        destruct (alter_entry c F es) as [es'|e] eqn:Ha; [|done]
    end.
    intros [= <-].
    apply alter_entry_spec in Ha as (m' & HF & Hl & Ho & Hf).
    destruct (lookup_entry c es) as [m|] eqn:Hm.
    2:{ by destruct dir. }
    destruct (IH m m' txt HF) as (Hnew & Hold & (es0 & es0' & H0 & H0' & Hf0)).
    cbn [resolve]. rewrite Hl, Hm. split; [done|]. split; [done|].
    by exists es0, es0'.
Qed.

End Writing.

(** ** Running the synchronisation twice *)

Section Idempotence.
Import Fs SyncManifests.

Lemma filter_notes_md (l : list string) :
  filter (fun n => n <> "MANIFEST.md") (filter (fun n => Is_true (endswith ".md" n)) l)
  = filter (fun n => Is_true (endswith ".md" n)) (filter (fun n => n <> "MANIFEST.md") l).
Proof.
  induction l as [|n l IH]; [done|].
  rewrite !filter_cons.
  destruct (decide (Is_true (endswith ".md" n))), (decide (n <> "MANIFEST.md"));
    rewrite ?filter_cons; repeat case_decide; try done; by rewrite IH.
Qed.

Lemma read_text_resolve fs fs' p t :
  resolve fs' p = resolve fs p -> read_text fs p = Ok t -> read_text fs' p = Ok t.
Proof. unfold read_text. intros ->. by destruct (resolve fs p). Qed.

Lemma get_first_heading_resolve fs fs' p :
  resolve fs' p = resolve fs p -> get_first_heading fs' p = get_first_heading fs p.
Proof.
  intros H. unfold get_first_heading, iter_lines. rewrite H.
  by destruct (resolve fs p) as [[[t|]|es|h]|].
Qed.

Lemma write_manifest_body fs fs' dir txt :
  write_text fs (dir // "MANIFEST.md") txt = Ok fs' ->
  manifest_body fs' dir = manifest_body fs dir.
Proof.
  intros Hw. apply write_text_spec in Hw as (_ & Hold & (es & es' & He & He' & Hf)).
  assert (note_names fs' dir = note_names fs dir) as Hnames.
  { unfold note_names, md_names. rewrite He, He'.
    by rewrite !filter_notes_md, Hf. }
  assert (md_files fs' dir = md_files fs dir) as Hfiles
    by (by rewrite !md_files_names, Hnames).
  assert (manifest_row fs' <$> md_files fs dir = manifest_row fs <$> md_files fs dir)
    as Hrows.
  { apply list_fmap_ext. intros i f Hin.
    unfold manifest_row. do 4 f_equal.
    apply get_first_heading_resolve.
    apply list_elem_of_lookup_2 in Hin. rewrite md_files_names in Hin.
    apply list_elem_of_fmap in Hin as (m & -> & Hm).
    unfold Py.sorted_str in Hm. apply elem_of_sorted in Hm.
    unfold note_names in Hm. apply list_elem_of_filter in Hm as [Hm _].
    exact (Hold m [] Hm). }
  unfold manifest_body. rewrite Hfiles. revert Hrows.
  destruct (md_files fs dir) as [|f files]; [done|]. by intros ->.
Qed.

Lemma write_manifest_content fs fs' dir txt :
  write_text fs (dir // "MANIFEST.md") txt = Ok fs' ->
  generate_manifest_content fs' dir = generate_manifest_content fs dir.
Proof.
  intros Hw. unfold generate_manifest_content.
  by rewrite !generate_manifest_lines_body, (write_manifest_body _ _ _ _ Hw).
Qed.

(** With stems free of carriage returns, a second run finds the manifest
    in step and leaves the file system as it is. *)
Lemma update_manifest_twice fs dir b fs1 :
  update_manifest fs dir false = Ok (b, fs1) ->
  (forall f, f ∈ glob_md fs dir -> name f <> "MANIFEST.md" ->
             char_in Py.CR (stem f) = false) ->
  update_manifest fs1 dir false = Ok (true, fs1)
  /\ generate_manifest_content fs1 dir = generate_manifest_content fs dir.
Proof.
  intros Hfirst Hstems.
  assert (char_in Py.CR (generate_manifest_content fs dir) = false) as Hclean
    by (by apply generated_content_no_CR, md_files_safe).
  pose proof Hfirst as Hrun. unfold update_manifest in Hrun.
  destruct (if exists_ fs (dir // "MANIFEST.md")
            then read_text fs (dir // "MANIFEST.md") else Ok "")
    as [current|e] eqn:Hcur; [|done].
  cbn [mbind result_bind] in Hrun.
  destruct (String.eqb current (generate_manifest_content fs dir)) eqn:Heq.
  - injection Hrun as <- <-. by split.
  - cbn [mbind result_bind] in Hrun.
    destruct (write_text fs (dir // "MANIFEST.md") (generate_manifest_content fs dir))
      as [fs'|e] eqn:Hw; [|done].
    injection Hrun as <- <-.
    pose proof (write_manifest_content _ _ _ _ Hw) as Hsame.
    split; [|done].
    apply write_text_spec in Hw as (Hnew & _ & _).
    change (dir ++ ["MANIFEST.md"]) with (dir // "MANIFEST.md") in Hnew.
    unfold update_manifest, exists_, read_text. rewrite Hnew, Hsame.
    cbn [mbind result_bind].
    by rewrite universal_newlines_id, String.eqb_refl.
Qed.

End Idempotence.

(** C1 fails on the code: for a note whose name holds a carriage return
    the first run writes the manifest, and the second run, made on the
    file system the first one left, again reports it out of step and
    writes the same text again, although what it regenerates is identical
    to what the file holds: read back in text mode, the carriage return
    comes out as a line feed. *)
Theorem update_manifest_carriage_return :
  SyncManifests.update_manifest cr_fs ["K"] false = Ok (false, cr_fs_synced)
  /\ SyncManifests.generate_manifest_content cr_fs_synced ["K"] = cr_manifest
  /\ Fs.resolve cr_fs_synced ["K"; "MANIFEST.md"] = Some (Fs.File (Some cr_manifest))
  /\ Fs.read_text cr_fs_synced ["K"; "MANIFEST.md"] <> Ok cr_manifest
  /\ SyncManifests.update_manifest cr_fs_synced ["K"] false = Ok (false, cr_fs_synced).
Proof. repeat split; try reflexivity. discriminate. Qed.

(** ** Section headings of the issue body *)

Section IssueBody.
Import VaultCleaner.

Lemma not_heading_h3 s : ~ is_section_heading ("### " +:+ s).
Proof.
  unfold is_section_heading, Py.startswith. cbn [String.append].
  rewrite !prefix_cons. cbn [Ascii.eqb Bool.eqb andb]. exact id.
Qed.

Lemma not_heading_bullet s : ~ is_section_heading ("- " +:+ s).
Proof.
  unfold is_section_heading, Py.startswith. cbn [String.append].
  rewrite !prefix_cons. cbn [Ascii.eqb Bool.eqb andb]. exact id.
Qed.

Lemma filter_bullets {A} (f : A -> string) (l : list A) :
  filter is_section_heading ((fun x => "- " +:+ f x) <$> l) = [].
Proof.
  induction l as [|x l IH]; [done|].
  cbn [fmap list_fmap]. rewrite filter_cons_False by apply not_heading_bullet.
  exact IH.
Qed.

Lemma manifest_blocks_no_heading (issues : dict ManifestIssue) (init : list string) :
  filter is_section_heading
    (foldl (fun lines '(pillar, issues) =>
              let lines :=
                lines ++ ["### " +:+ pillar +:+ "/Knowledge/MANIFEST.md"; ""] in
              let lines :=
                lines ++ map (fun name => "- Add: `[[" +:+ name +:+ "]]`") (add issues) in
              let lines :=
                lines ++ map (fun name => "- Remove: `[[" +:+ name +:+ "]]`")
                             (remove issues) in
              lines ++ [""])
           init issues)
  = filter is_section_heading init.
Proof.
  revert init. induction issues as [|[pillar issue] issues IH]; intros init; [done|].
  cbn [foldl]. rewrite IH. cbv zeta. rewrite !filter_app.
  rewrite (filter_bullets (fun name => "Add: `[[" +:+ name +:+ "]]`")).
  rewrite (filter_bullets (fun name => "Remove: `[[" +:+ name +:+ "]]`")).
  rewrite filter_cons_False by apply not_heading_h3.
  by rewrite !app_nil_r.
Qed.

Lemma item_blocks_no_heading (folder : string) (items : dict (list FileItem))
    (init : list string) :
  filter is_section_heading
    (foldl (fun lines '(pillar, items) =>
              let lines := lines ++ ["### " +:+ pillar +:+ folder; ""] in
              let lines :=
                lines ++ map (fun item =>
                                "- `" +:+ item_name item +:+ "` ("
                                  +:+ Py.str (age_days item) +:+ " days)")
                             items in
              lines ++ [""])
           init items)
  = filter is_section_heading init.
Proof.
  revert init. induction items as [|[pillar its] items IH]; intros init; [done|].
  cbn [foldl]. rewrite IH. cbv zeta. rewrite !filter_app.
  rewrite (filter_bullets
             (fun item => "`" +:+ item_name item +:+ "` ("
                            +:+ Py.str (age_days item) +:+ " days)")).
  rewrite filter_cons_False by apply not_heading_h3.
  by rewrite !app_nil_r.
Qed.

(** The numbered sections of the issue body are those of the non-empty
    results among the three that [generate_issue_body] takes, in the order
    manifest drift, inbox aging, stale projects, numbered from 1 without a
    gap. *)
Lemma issue_sections_numbered (manifest_issues : dict ManifestIssue)
    (inbox_items stale_projects : dict (list FileItem)) :
  filter is_section_heading
    (generate_issue_lines manifest_issues inbox_items stale_projects)
  = numbered_headings 1 (section_titles manifest_issues inbox_items stale_projects).
Proof.
  unfold generate_issue_lines, section_titles.
  destruct (truthy manifest_issues), (truthy inbox_items), (truthy stale_projects);
    cbv zeta;
    rewrite ?filter_app, ?(item_blocks_no_heading "/Inbox/"),
      ?(item_blocks_no_heading "/Projects/"), ?manifest_blocks_no_heading,
      ?filter_app, ?(item_blocks_no_heading "/Inbox/"), ?manifest_blocks_no_heading,
      ?filter_app, ?manifest_blocks_no_heading, ?filter_app;
    reflexivity.
Qed.

End IssueBody.

(** ** What [strip] removes *)

Lemma lstrip_decomposition s :
  exists l, s = l +:+ Py.lstrip s /\ whitespace_only l
            /\ forall c t, Py.lstrip s = String c t -> Py.isspace c = false.
Proof.
  induction s as [|c s (l & Hs & Hl & Hc)].
  - exists "". by repeat split.
  - cbn [Py.lstrip]. destruct (Py.isspace c) eqn:E.
    + exists (String c l). cbn [String.append whitespace_only]. by rewrite <- Hs.
    + exists "". split; [done|]. split; [done|].
      intros c' t [= <- _]. exact E.
Qed.

Lemma rstrip_decomposition s :
  exists r, s = Py.rstrip s +:+ r /\ whitespace_only r
            /\ forall t c, Py.rstrip s = t +:+ String c "" -> Py.isspace c = false.
Proof.
  induction s as [|c s (r & Hs & Hr & Hc)].
  - exists "". split; [done|]. split; [done|].
    intros [|d t] c H; discriminate H.
  - cbn [Py.rstrip]. destruct (Py.rstrip s) as [|d u] eqn:Hu.
    + cbn [String.append] in Hs. subst r.
      destruct (Py.isspace c) eqn:E.
      * exists (String c s). split; [done|]. split; [done|].
        intros [|d t] c' H; discriminate H.
      * exists s. split; [done|]. split; [done|].
        intros [|d t] c' H; cbn [String.append] in H.
        -- by injection H as <-.
        -- injection H as _ H. by destruct t.
    + exists r. split; [cbn [String.append] in *; by rewrite <- Hs|].
      split; [done|].
      intros [|e t] c' H; cbn [String.append] in H; [discriminate H|].
      injection H as _ H. by apply (Hc t).
Qed.

(** [strip] removes a run of white space at each end, and what it keeps
    neither starts nor ends in white space. *)
Lemma strip_decomposition s :
  exists l r,
    s = l +:+ Py.strip s +:+ r
    /\ whitespace_only l /\ whitespace_only r
    /\ (forall c t, Py.strip s = String c t -> Py.isspace c = false)
    /\ (forall t c, Py.strip s = t +:+ String c "" -> Py.isspace c = false).
Proof.
  destruct (lstrip_decomposition s) as (l & Hs & Hl & Hfirst).
  destruct (rstrip_decomposition (Py.lstrip s)) as (r & Hs' & Hr & Hlast).
  exists l, r. unfold Py.strip. split; [by rewrite <- Hs', <- Hs|].
  split; [done|]. split; [done|]. split; [|done].
  intros c t Hc. destruct (Py.lstrip s) as [|d u] eqn:Hu; [done|].
  assert (d = c) as <-.
  { cbn [Py.rstrip] in Hc. destruct (Py.rstrip u); [|by injection Hc].
    destruct (Py.isspace d); [done|by injection Hc]. }
  by apply (Hfirst d u).
Qed.

(** ** More on writing files *)

Section MoreWriting.
Import Fs.

Lemma resolve_app fs p q :
  resolve fs (p ++ q) = match resolve fs p with
                        | Some n => resolve n q
                        | None => None
                        end.
Proof.
  revert fs. induction p as [|c p IH]; intros fs; [done|].
  cbn [app resolve]. destruct fs as [t|es|h]; [done| |done].
  destruct (lookup_entry c es) as [n|]; [apply IH|done].
Qed.

Lemma alter_entry_ok c (F : option node -> result node) es n' :
  F (lookup_entry c es) = Ok n' -> exists es', alter_entry c F es = Ok es'.
Proof.
  induction es as [|[d m] es IH]; cbn [alter_entry lookup_entry].
  - intros ->. by eexists.
  - destruct (String.eqb d c).
    + intros ->. by eexists.
    + intros [es' ->]%IH. by eexists.
Qed.

Lemma alter_entry_names c (F : option node -> result node) es es' m :
  lookup_entry c es = Some m ->
  alter_entry c F es = Ok es' ->
  fst <$> es' = fst <$> es.
Proof.
  revert es'. induction es as [|[d m0] es IH]; intros es'; [done|].
  cbn [alter_entry lookup_entry]. destruct (String.eqb d c).
  - intros _. destruct (F (Some m0)); [|done]. by intros [= <-].
  - intros Hm. destruct (alter_entry c F es) as [es''|] eqn:E; [|done].
    intros [= <-]. cbn [fmap list_fmap]. f_equal. by apply IH.
Qed.

Lemma write_text_ok dir n txt :
  forall fs es,
    resolve fs dir = Some (Dir es) ->
    (lookup_entry n es = None \/ exists t, lookup_entry n es = Some (File t)) ->
    exists fs', write_text fs (dir ++ [n]) txt = Ok fs'.
Proof.
  induction dir as [|c dir IH]; intros fs es Hdir Hn; cbn [app].
  - cbn [resolve] in Hdir. injection Hdir as ->. rewrite write_text_dir.
    match goal with
    | |- context [alter_entry n ?F es] =>
        destruct (alter_entry_ok n F es (File (Some txt))) as [es' ->]
    end.
    + by destruct Hn as [-> | [t ->]].
    + by eexists.
  - cbn [resolve] in Hdir. destruct fs as [t|es0|h]; [done| |done].
    destruct (lookup_entry c es0) as [m|] eqn:Hm; [|done].
    destruct (IH m es Hdir Hn) as [m' Hm'].
    rewrite write_text_dir.
    match goal with
    | |- context [alter_entry c ?F es0] =>
        destruct (alter_entry_ok c F es0 m') as [es' ->]
    end.
    + by rewrite Hm.
    + by eexists.
Qed.

Lemma exists_joinpath fs dir es n :
  resolve fs dir = Some (Dir es) ->
  exists_ fs (dir // n) = match lookup_entry n es with Some _ => true | None => false end.
Proof.
  intros Hdir. unfold exists_, joinpath. rewrite resolve_app, Hdir.
  cbn [resolve]. by destruct (lookup_entry n es).
Qed.

End MoreWriting.

(** ** The text of a manifest *)

Lemma concat_nosep_cons l ls : String.concat "" (l :: ls) = l +:+ String.concat "" ls.
Proof. destruct ls; [by rewrite append_nil_r|done]. Qed.

Lemma concat_nosep_app ls1 ls2 :
  String.concat "" (ls1 ++ ls2) = String.concat "" ls1 +:+ String.concat "" ls2.
Proof.
  induction ls1 as [|l ls1 IH]; [done|].
  cbn [app]. by rewrite !concat_nosep_cons, IH, append_assoc.
Qed.

Lemma join_terminated ls :
  Py.join (String Py.LF "") (ls ++ [""])
  = String.concat "" ((fun l => l +:+ String Py.LF "") <$> ls).
Proof.
  induction ls as [|l ls IH]; [done|].
  cbn [app fmap list_fmap]. rewrite join_cons by (by intros [_ [=]]%app_eq_nil).
  by rewrite concat_nosep_cons, IH, append_assoc.
Qed.

Section ManifestText.
Import Fs SyncManifests.

Lemma generate_manifest_content_lines fs dir :
  generate_manifest_content fs dir
  = String.concat "" ((fun l => l +:+ String Py.LF "") <$> manifest_body fs dir).
Proof.
  unfold generate_manifest_content.
  rewrite generate_manifest_lines_body, LF_literal. apply join_terminated.
Qed.

Lemma manifest_body_header fs dir :
  exists tail, manifest_body fs dir = manifest_header ++ tail.
Proof.
  unfold manifest_body. destruct (md_files fs dir) as [|f files]; by eexists.
Qed.

Lemma generate_manifest_content_nonempty fs dir : generate_manifest_content fs dir <> "".
Proof.
  rewrite generate_manifest_content_lines.
  destruct (manifest_body_header fs dir) as (tail & ->). discriminate.
Qed.

Lemma manifest_body_last fs dir :
  exists init text, manifest_body fs dir = init ++ [text +:+ "|"].
Proof.
  unfold manifest_body. destruct (md_files fs dir) as [|f files] eqn:E.
  - exists manifest_header, "| *(empty)* | Add notes to this folder ". done.
  - destruct (exists_last (l := f :: files)) as (files' & g & ->); [done|].
    exists (manifest_header ++ (manifest_row fs <$> files')),
      ("| [[" +:+ stem g +:+ "]] | " +:+ get_first_heading fs g +:+ " ").
    rewrite fmap_app, app_assoc. f_equal. cbn [fmap list_fmap]. f_equal.
    unfold manifest_row. by rewrite !append_assoc.
Qed.

End ManifestText.


(** X1: the generated manifest is the fixed header followed by one line per
    note, in the order of [md_files], or by the placeholder line when the
    folder has no note; every line ends in a line feed, and the text ends
    in a bar followed by exactly one line feed. *)
Theorem manifest_text_format (fs : Fs.node) (dir : Fs.path) :
  SyncManifests.generate_manifest_content fs dir
  = MANIFEST_HEADER_TEXT
    +:+ match SyncManifests.md_files fs dir with
        | [] => "| *(empty)* | Add notes to this folder |
"
        | files =>
            String.concat ""
              ((fun f => SyncManifests.manifest_row fs f +:+ String Py.LF "") <$> files)
        end
  /\ exists text,
       SyncManifests.generate_manifest_content fs dir = text +:+ "|" +:+ String Py.LF "".
Proof.
  split.
  - rewrite generate_manifest_content_lines. unfold manifest_body.
    destruct (SyncManifests.md_files fs dir) as [|f files]; [reflexivity|].
    rewrite fmap_app, concat_nosep_app. f_equal.
    by rewrite <- list_fmap_compose.
  - rewrite generate_manifest_content_lines.
    destruct (manifest_body_last fs dir) as (init & text & ->).
    rewrite fmap_app, concat_nosep_app. cbn [fmap list_fmap String.concat].
    exists (String.concat "" ((fun l => l +:+ String Py.LF "") <$> init) +:+ text).
    by rewrite !append_assoc.
Qed.

(** ** What a write leaves alone *)

Section WriteFrame.
Import Fs.

Lemma write_text_frame p :
  forall fs fs' txt q,
    write_text fs p txt = Ok fs' ->
    ~ q `prefix_of` p -> ~ p `prefix_of` q ->
    resolve fs' q = resolve fs q.
Proof.
  induction p as [|c p IH]; intros fs fs' txt q Hw Hqp Hpq.
  - destruct Hpq. by exists q.
  - destruct q as [|d q]; [destruct Hqp; by eexists|].
    destruct fs as [t|es|h]; [done| |done]. rewrite write_text_dir in Hw.
    match type of Hw with
    | context [alter_entry c ?F es] =>
        destruct (alter_entry c F es) as [es'|e] eqn:Ha; [|done]
    end.
    injection Hw as <-.
    apply alter_entry_spec in Ha as (n' & HF & Hc & Hother & _).
    cbn [resolve]. destruct (decide (d = c)) as [->|Hd].
    + rewrite Hc. destruct (lookup_entry c es) as [m|] eqn:Hm.
      * apply (IH m n' txt q HF).
        -- intros [k ->]. apply Hqp. by exists k.
        -- intros [k ->]. apply Hpq. by exists k.
      * destruct p; [|done]. destruct Hpq. by exists q.
    + by rewrite Hother.
Qed.

(** The directories above the file keep their listings. *)
Lemma write_text_above q :
  forall fs fs' txt c r,
    write_text fs (q ++ c :: r) txt = Ok fs' ->
    r <> [] ->
    exists es es',
      resolve fs q = Some (Dir es)
      /\ resolve fs' q = Some (Dir es')
      /\ fst <$> es' = fst <$> es.
Proof.
  induction q as [|d q IH]; intros fs fs' txt c r Hw Hr; cbn [app] in Hw.
  - destruct fs as [t|es|h]; [done| |done]. rewrite write_text_dir in Hw.
    match type of Hw with
    | context [alter_entry c ?F es] =>
        destruct (alter_entry c F es) as [es'|e] eqn:Ha; [|done]
    end.
    injection Hw as <-. exists es, es'. split; [done|]. split; [done|].
    destruct (lookup_entry c es) as [m|] eqn:Hm.
    + by apply (alter_entry_names _ _ _ _ _ Hm Ha).
    + apply alter_entry_spec in Ha as (n' & HF & _). rewrite Hm in HF.
      by destruct r.
  - destruct fs as [t|es|h]; [done| |done]. rewrite write_text_dir in Hw.
    match type of Hw with
    | context [alter_entry d ?F es] =>
        destruct (alter_entry d F es) as [es'|e] eqn:Ha; [|done]
    end.
    injection Hw as <-.
    apply alter_entry_spec in Ha as (n' & HF & Hd & _).
    cbn [resolve]. rewrite Hd.
    destruct (lookup_entry d es) as [m|] eqn:Hm.
    + by apply (IH m n' txt c r HF).
    + by destruct q.
Qed.

End WriteFrame.

Ltac case_eqb :=
  match goal with
  | |- context [String.eqb ?a ?b] => destruct (String.eqb a b)
  end.

Section UpdateManifestMore.
Import Fs SyncManifests.

Lemma read_text_exists fs p t : read_text fs p = Ok t -> exists_ fs p = true.
Proof. unfold read_text, exists_. by destruct (resolve fs p). Qed.

Lemma update_manifest_current fs dir check b fs' :
  update_manifest fs dir check = Ok (b, fs') ->
  (b = true <-> read_text fs (dir // "MANIFEST.md")
                = Ok (generate_manifest_content fs dir))
  /\ (b = true -> fs' = fs).
Proof.
  unfold update_manifest.
  pose proof (generate_manifest_content_nonempty fs dir) as Hne.
  destruct (exists_ fs (dir // "MANIFEST.md")) eqn:Hex.
  - destruct (read_text fs (dir // "MANIFEST.md")) as [cur|e]; [|done].
    cbn. destruct (String.eqb_spec cur (generate_manifest_content fs dir)) as [->|Hcur].
    + intros [= <- <-]. done.
    + intros H. assert (b = false) as ->.
      { destruct check; [congruence|].
        destruct (write_text _ _ _); cbn in H; congruence. }
      split; [|done]. split; [done|]. intros [= ?]. done.
  - cbn. destruct (generate_manifest_content fs dir) as [|c g] eqn:Hg; [done|].
    cbn. intros H. assert (b = false) as ->.
    { destruct check; [congruence|].
      destruct (write_text _ _ _); cbn in H; congruence. }
    split; [|done]. split; [done|].
    intros Hr%read_text_exists. congruence.
Qed.

Lemma update_manifest_in_sync fs dir check :
  read_text fs (dir // "MANIFEST.md") = Ok (generate_manifest_content fs dir) ->
  update_manifest fs dir check = Ok (true, fs).
Proof.
  intros Hr. unfold update_manifest.
  rewrite (read_text_exists _ _ _ Hr), Hr. cbn. by rewrite String.eqb_refl.
Qed.

Lemma update_manifest_modes fs dir b fs' :
  update_manifest fs dir false = Ok (b, fs') ->
  update_manifest fs dir true = Ok (b, fs).
Proof.
  unfold update_manifest.
  destruct (if exists_ fs (dir // "MANIFEST.md") then _ else _) as [cur|e]; [|done].
  cbn. case_eqb; [by intros [= <- <-]|].
  destruct (write_text _ _ _); [by intros [= <- <-]|done].
Qed.

Lemma update_manifest_written fs dir fs' :
  update_manifest fs dir false = Ok (false, fs') ->
  write_text fs (dir // "MANIFEST.md") (generate_manifest_content fs dir) = Ok fs'.
Proof.
  unfold update_manifest.
  destruct (if exists_ fs (dir // "MANIFEST.md") then _ else _) as [cur|e]; [|done].
  cbn. case_eqb; [done|].
  destruct (write_text _ _ _); [by intros [= <-]|done].
Qed.

End UpdateManifestMore.

(** X2: with [--check] semantics [update_manifest] never touches the file
    system; it answers [True] exactly when the manifest file reads as the
    generated text, and it fails exactly when the manifest path exists but
    cannot be read as text. *)
Theorem update_manifest_check_only (fs : Fs.node) (dir : Fs.path) :
  let manifest_path := dir // "MANIFEST.md" in
  let new_content := SyncManifests.generate_manifest_content fs dir in
  (forall b fs', SyncManifests.update_manifest fs dir true = Ok (b, fs') -> fs' = fs)
  /\ (SyncManifests.update_manifest fs dir true = Ok (true, fs)
      <-> Fs.read_text fs manifest_path = Ok new_content)
  /\ (forall e, SyncManifests.update_manifest fs dir true = Raise e
                <-> Fs.exists_ fs manifest_path = true
                    /\ Fs.read_text fs manifest_path = Raise e).
Proof.
  cbn zeta. split; [|split].
  - intros b fs'. unfold SyncManifests.update_manifest.
    destruct (if Fs.exists_ fs (dir // "MANIFEST.md") then _ else _) as [cur|e]; [|done].
    cbn. by case_eqb; intros [= <- <-].
  - split.
    + intros H. by apply update_manifest_current in H as [[H _] _]; apply H.
    + apply update_manifest_in_sync.
  - intros e. unfold SyncManifests.update_manifest.
    destruct (Fs.exists_ fs (dir // "MANIFEST.md")).
    + destruct (Fs.read_text fs (dir // "MANIFEST.md")) as [cur|e']; cbn.
      * case_eqb; split; intros H; try done; by destruct H.
      * split; [by intros [= ->]|by intros [_ [= ->]]].
    + cbn. destruct (SyncManifests.generate_manifest_content fs dir);
        split; intros H; try done; by destruct H.
Qed.

(** X3: what a successful [update_manifest] in write mode leaves: its answer
    is that of the check mode; when it answers [True] nothing is written;
    when it answers [False] the manifest file holds the generated text and
    every path that is neither the manifest nor a folder above it resolves
    as before. *)
Theorem update_manifest_write_effect (fs fs' : Fs.node) (dir : Fs.path) (b : bool) :
  SyncManifests.update_manifest fs dir false = Ok (b, fs') ->
  let manifest_path := dir // "MANIFEST.md" in
  let new_content := SyncManifests.generate_manifest_content fs dir in
  SyncManifests.update_manifest fs dir true = Ok (b, fs)
  /\ (b = true -> fs' = fs /\ Fs.read_text fs manifest_path = Ok new_content)
  /\ (b = false ->
      Fs.resolve fs' manifest_path = Some (Fs.File (Some new_content))
      /\ forall q, ~ q `prefix_of` manifest_path -> ~ manifest_path `prefix_of` q ->
                   Fs.resolve fs' q = Fs.resolve fs q).
Proof.
  intros Hu. cbn zeta. split; [by apply update_manifest_modes in Hu|]. split.
  - intros ->. apply update_manifest_current in Hu as [[H _] Hfs].
    split; [by apply Hfs|by apply H].
  - intros ->. apply update_manifest_written in Hu. split.
    + by apply write_text_spec in Hu as [H _].
    + intros q Hq1 Hq2. by apply (write_text_frame _ _ _ _ _ Hu).
Qed.

Lemma update_manifest_write_effect_witness :
  SyncManifests.update_manifest alphabet_fs ["Knowledge"] true = Ok (false, alphabet_fs)
  /\ exists fs',
       SyncManifests.update_manifest alphabet_fs ["Knowledge"] false = Ok (false, fs')
       /\ Fs.resolve fs' ["Knowledge"; "MANIFEST.md"]
          = Some (Fs.File (Some (SyncManifests.generate_manifest_content
                                   alphabet_fs ["Knowledge"])))
       /\ Fs.resolve fs' ["Knowledge"; "Alpha.md"]
          = Fs.resolve alphabet_fs ["Knowledge"; "Alpha.md"].
Proof.
  destruct (SyncManifests.update_manifest alphabet_fs ["Knowledge"] false)
    as [[b fs']|e] eqn:Hu; [|by vm_compute in Hu].
  assert (b = false) as -> by (vm_compute in Hu; congruence).
  destruct (update_manifest_write_effect _ _ _ _ Hu) as (Hc & _ & Hf).
  destruct (Hf eq_refl) as [Hm Hframe].
  split; [exact Hc|]. exists fs'. split; [reflexivity|]. split; [exact Hm|].
  apply Hframe.
  - intros [k Hk]. discriminate Hk.
  - intros [k Hk]. discriminate Hk.
Defined.

(** X4: a folder without a manifest is never in sync: whenever
    [update_manifest] returns on a folder in which [MANIFEST.md] does not
    exist, it returns [False]; in check mode the file system is then the one
    it started from, and in write mode the file [MANIFEST.md] then holds the
    generated text. *)
Theorem update_manifest_creates_missing (fs fs' : Fs.node) (dir : Fs.path)
    (check_only b : bool) :
  Fs.exists_ fs (dir // "MANIFEST.md") = false ->
  SyncManifests.update_manifest fs dir check_only = Ok (b, fs') ->
  b = false
  /\ (check_only = true -> fs' = fs)
  /\ (check_only = false ->
      Fs.resolve fs' (dir // "MANIFEST.md")
      = Some (Fs.File (Some (SyncManifests.generate_manifest_content fs dir)))).
Proof.
  intros Hex Hrun.
  destruct (update_manifest_current _ _ _ _ _ Hrun) as [Hb _].
  assert (b = false) as ->.
  { destruct b; [|done]. destruct Hb as [Hb _].
    specialize (Hb eq_refl). apply read_text_exists in Hb. congruence. }
  split; [done|]. split.
  - intros ->. revert Hrun. unfold SyncManifests.update_manifest.
    destruct (if Fs.exists_ fs (dir // "MANIFEST.md") then _ else _) as [cur|e]; [|done].
    cbn. by case_eqb; intros [= <-].
  - intros ->. apply update_manifest_written in Hrun.
    by apply write_text_spec in Hrun as [H _].
Qed.

Lemma update_manifest_creates_missing_witness :
  SyncManifests.update_manifest dash_fs ["K"] true = Ok (false, dash_fs)
  /\ exists fs',
       SyncManifests.update_manifest dash_fs ["K"] false = Ok (false, fs')
       /\ Fs.resolve fs' (["K"] // "MANIFEST.md")
          = Some (Fs.File (Some (SyncManifests.generate_manifest_content dash_fs ["K"]))).
Proof.
  split; [reflexivity|].
  assert (exists b fs', SyncManifests.update_manifest dash_fs ["K"] false = Ok (b, fs'))
    as (b & fs' & Hrun) by (vm_compute; eauto).
  destruct (update_manifest_creates_missing dash_fs fs' ["K"] false b eq_refl Hrun)
    as (Hb & _ & Hw).
  exists fs'. split; [by rewrite Hrun, Hb|]. by apply Hw.
Defined.

(** X5: for notes whose stems hold no carriage return a second run of
    [update_manifest] finds the manifest in sync: after a successful run
    in write mode both modes answer [True] and leave the file system as it
    is, and the manifest they would generate is the one of the first run. *)
Theorem update_manifest_idempotent (fs fs1 : Fs.node) (dir : Fs.path) (b : bool) :
  SyncManifests.update_manifest fs dir false = Ok (b, fs1) ->
  (forall f, f ∈ Fs.glob_md fs dir -> Fs.name f <> "MANIFEST.md" ->
             char_in Py.CR (Fs.stem f) = false) ->
  SyncManifests.update_manifest fs1 dir false = Ok (true, fs1)
  /\ SyncManifests.update_manifest fs1 dir true = Ok (true, fs1)
  /\ SyncManifests.generate_manifest_content fs1 dir
     = SyncManifests.generate_manifest_content fs dir.
Proof.
  intros Hu Hcr. destruct (update_manifest_twice fs dir b fs1 Hu Hcr) as [H2 Hg].
  split; [done|]. split; [|done]. by apply update_manifest_modes in H2.
Qed.

Lemma update_manifest_idempotent_witness :
  exists fs1,
    SyncManifests.update_manifest alphabet_fs ["Knowledge"] false = Ok (false, fs1)
    /\ SyncManifests.update_manifest fs1 ["Knowledge"] false = Ok (true, fs1)
    /\ SyncManifests.update_manifest fs1 ["Knowledge"] true = Ok (true, fs1)
    /\ SyncManifests.generate_manifest_content fs1 ["Knowledge"]
       = SyncManifests.generate_manifest_content alphabet_fs ["Knowledge"].
Proof.
  destruct (SyncManifests.update_manifest alphabet_fs ["Knowledge"] false)
    as [[b fs1]|e] eqn:Hu; [|by vm_compute in Hu].
  assert (b = false) as -> by (vm_compute in Hu; congruence).
  exists fs1. split; [reflexivity|].
  apply (update_manifest_idempotent alphabet_fs fs1 ["Knowledge"] false Hu).
  intros f Hf _. vm_compute in Hf.
  repeat (apply elem_of_cons in Hf as [->|Hf]; [reflexivity|]).
  by apply elem_of_nil in Hf.
Defined.

(** ** One line per note *)

(** X6: a description never holds a line break, so a note takes exactly one
    line of the manifest whatever its text: when no stem holds a line feed,
    the generated text reads back as the lines of the table, each closed by
    a line feed, and it has four header lines and then as many lines as
    there are notes, or the single placeholder line. *)
Theorem manifest_one_line_per_note (fs : Fs.node) (dir : Fs.path) :
  (forall f, f ∈ Fs.glob_md fs dir -> Fs.name f <> "MANIFEST.md" ->
             char_in Py.LF (Fs.stem f) = false) ->
  (forall f, char_in Py.LF (SyncManifests.get_first_heading fs f) = false
             /\ char_in Py.CR (SyncManifests.get_first_heading fs f) = false)
  /\ Py.readlines (SyncManifests.generate_manifest_content fs dir)
     = (fun l => l +:+ String Py.LF "") <$> manifest_body fs dir
  /\ length (Py.readlines (SyncManifests.generate_manifest_content fs dir))
     = (4 + Nat.max 1 (length (notes fs dir)))%nat.
Proof.
  intros Hlf.
  assert (Py.readlines (SyncManifests.generate_manifest_content fs dir)
          = (fun l => l +:+ String Py.LF "") <$> manifest_body fs dir) as Hr.
  { apply readlines_generated. by apply md_files_safe. }
  split; [apply get_first_heading_clean|]. split; [exact Hr|].
  rewrite Hr, length_fmap. unfold manifest_body.
  rewrite <- (Permutation_length (md_files_Permutation fs dir)).
  destruct (SyncManifests.md_files fs dir) as [|f files]; [reflexivity|].
  rewrite length_app, length_fmap. cbn [length SyncManifests.manifest_header]. lia.
Qed.

Lemma manifest_one_line_per_note_witness :
  (forall f, char_in Py.LF (SyncManifests.get_first_heading notes_fs f) = false
             /\ char_in Py.CR (SyncManifests.get_first_heading notes_fs f) = false)
  /\ Py.readlines (SyncManifests.generate_manifest_content notes_fs ["K"])
     = (fun l => l +:+ String Py.LF "") <$> manifest_body notes_fs ["K"]
  /\ length (Py.readlines (SyncManifests.generate_manifest_content notes_fs ["K"]))
     = (4 + Nat.max 1 (length (notes notes_fs ["K"])))%nat.
Proof.
  apply (manifest_one_line_per_note notes_fs ["K"]).
  intros f Hf _. vm_compute in Hf.
  repeat (apply elem_of_cons in Hf as [->|Hf]; [reflexivity|]).
  by apply elem_of_nil in Hf.
Defined.

(** ** The pillars of a vault *)





Section Pillars.
Import Fs.

Lemma iterdir_names fs r :
  is_dir fs r = true -> iterdir fs r = Ok (joinpath r <$> root_names fs r).
Proof.
  unfold is_dir, iterdir, root_names.
  destruct (resolve fs r) as [[t|es|h]|]; [done| |done|done]. intros _.
  f_equal. induction es as [|[n m] es IH]; [done|].
  cbn [map fmap list_fmap fst] in *. by rewrite IH.
Qed.

Lemma iterdir_file fs r t :
  resolve fs r = Some (File t) -> iterdir fs r = Raise NotADirectoryError.
Proof. unfold iterdir. by intros ->. Qed.

Lemma sync_pillars_loop fs r (ns : list string) (acc : list string) :
  foldl (fun pillars item =>
           if is_dir fs item && negb (Py.startswith "." (name item)) then
             if exists_ fs (item // "Knowledge") then pillars ++ [name item]
             else pillars
           else pillars)
        acc (joinpath r <$> ns)
  = acc ++ filter (fun n => Is_true (sync_pillar fs r n)) ns.
Proof.
  revert acc. induction ns as [|n ns IH]; intros acc; [by rewrite app_nil_r|].
  cbn [fmap list_fmap foldl]. rewrite filter_cons, name_joinpath.
  destruct (decide (Is_true (sync_pillar fs r n))) as [H|H].
  - apply Is_true_true in H. unfold sync_pillar, visible_folder in H.
    apply andb_true_iff in H as [-> ->]. by rewrite IH, <- app_assoc.
  - apply Is_true_false in H. unfold sync_pillar, visible_folder in H.
    destruct (is_dir fs (r // n) && negb (Py.startswith "." n));
      cbn [andb] in H; [rewrite H|]; apply IH.
Qed.

Lemma cleaner_pillars_loop fs r (ns : list string) (acc : list string) :
  foldl (fun pillars item =>
           if is_dir fs item && negb (Py.startswith "." (name item)) then
             let has_inbox := exists_ fs (item // "Inbox") in
             let has_projects := exists_ fs (item // "Projects") in
             let has_knowledge := exists_ fs (item // "Knowledge") in
             if has_inbox || has_projects || has_knowledge
             then pillars ++ [name item]
             else pillars
           else pillars)
        acc (joinpath r <$> ns)
  = acc ++ filter (fun n => Is_true (cleaner_pillar fs r n)) ns.
Proof.
  revert acc. induction ns as [|n ns IH]; intros acc; [by rewrite app_nil_r|].
  cbn [fmap list_fmap foldl]. rewrite filter_cons, name_joinpath. cbn zeta.
  destruct (decide (Is_true (cleaner_pillar fs r n))) as [H|H].
  - apply Is_true_true in H. unfold cleaner_pillar, visible_folder in H.
    apply andb_true_iff in H as [-> ->]. by rewrite IH, <- app_assoc.
  - apply Is_true_false in H. unfold cleaner_pillar, visible_folder in H.
    destruct (is_dir fs (r // n) && negb (Py.startswith "." n));
      cbn [andb] in H; [rewrite H|]; apply IH.
Qed.

Lemma sync_get_pillars_names fs r :
  is_dir fs r = true ->
  SyncManifests.get_pillars fs r
  = Ok (Py.sorted_str (filter (fun n => Is_true (sync_pillar fs r n)) (root_names fs r))).
Proof.
  intros Hd. unfold SyncManifests.get_pillars. rewrite (iterdir_names _ _ Hd). cbn.
  by rewrite sync_pillars_loop.
Qed.

Lemma cleaner_get_pillars_names fs r :
  is_dir fs r = true ->
  VaultCleaner.get_pillars fs r
  = Ok (Py.sorted_str (filter (fun n => Is_true (cleaner_pillar fs r n)) (root_names fs r))).
Proof.
  intros Hd. unfold VaultCleaner.get_pillars. rewrite (iterdir_names _ _ Hd). cbn.
  by rewrite cleaner_pillars_loop.
Qed.

Lemma elem_of_sorted_str x l : x ∈ Py.sorted_str l <-> x ∈ l.
Proof. unfold Py.sorted_str. apply elem_of_sorted. Qed.

Lemma sorted_str_Sorted l : Sorted (fun a b => String.leb a b = true) (Py.sorted_str l).
Proof. apply sorted_Sorted, String.leb_total. Qed.

Lemma get_pillars_is_dir_sync fs r ps :
  SyncManifests.get_pillars fs r = Ok ps -> is_dir fs r = true.
Proof.
  unfold SyncManifests.get_pillars, iterdir, is_dir.
  by destruct (resolve fs r) as [[t|es|h]|].
Qed.

Lemma get_pillars_is_dir_cleaner fs r ps :
  VaultCleaner.get_pillars fs r = Ok ps -> is_dir fs r = true.
Proof.
  unfold VaultCleaner.get_pillars, iterdir, is_dir.
  by destruct (resolve fs r) as [[t|es|h]|].
Qed.

End Pillars.

(** X7: whenever [get_pillars] of [sync-manifests.py] returns, the root is
    a directory, the result is in ascending code point order, and it holds
    a name exactly when that name is an entry of the root that is a
    directory, does not start with a dot and has an entry [Knowledge]. *)
Theorem sync_get_pillars_spec (fs : Fs.node) (r : Fs.path) (pillars : list string) :
  SyncManifests.get_pillars fs r = Ok pillars ->
  Fs.is_dir fs r = true
  /\ Sorted (fun a b => String.leb a b = true) pillars
  /\ forall n, n ∈ pillars
               <-> n ∈ root_names fs r
                   /\ Fs.is_dir fs (r // n) = true
                   /\ Py.startswith "." n = false
                   /\ Fs.exists_ fs (r // n // "Knowledge") = true.
Proof.
  intros Hps. pose proof (get_pillars_is_dir_sync _ _ _ Hps) as Hd.
  split; [done|].
  rewrite (sync_get_pillars_names _ _ Hd) in Hps. injection Hps as <-.
  split; [apply sorted_str_Sorted|].
  intros n. rewrite elem_of_sorted_str, list_elem_of_filter.
  unfold sync_pillar, visible_folder.
  destruct (Fs.is_dir fs (r // n)), (Py.startswith "." n),
    (Fs.exists_ fs (r // n // "Knowledge")); cbn; intuition congruence.
Qed.

Lemma sync_get_pillars_spec_witness :
  SyncManifests.get_pillars pillars_fs [] = Ok ["Zebra"]
  /\ Fs.is_dir pillars_fs [] = true
  /\ Sorted (fun a b => String.leb a b = true) ["Zebra"]
  /\ forall n, n ∈ ["Zebra"]
               <-> n ∈ root_names pillars_fs []
                   /\ Fs.is_dir pillars_fs ([] // n) = true
                   /\ Py.startswith "." n = false
                   /\ Fs.exists_ pillars_fs ([] // n // "Knowledge") = true.
Proof.
  split; [reflexivity|].
  apply (sync_get_pillars_spec pillars_fs [] ["Zebra"]). reflexivity.
Defined.

(** X8: whenever [get_pillars] of [vault-cleaner.py] returns, the root is a
    directory, the result is in ascending code point order, and it holds a
    name exactly when that name is an entry of the root that is a
    directory, does not start with a dot and has an entry [Inbox],
    [Projects] or [Knowledge]. *)
Theorem cleaner_get_pillars_spec (fs : Fs.node) (r : Fs.path) (pillars : list string) :
  VaultCleaner.get_pillars fs r = Ok pillars ->
  Fs.is_dir fs r = true
  /\ Sorted (fun a b => String.leb a b = true) pillars
  /\ forall n, n ∈ pillars
               <-> n ∈ root_names fs r
                   /\ Fs.is_dir fs (r // n) = true
                   /\ Py.startswith "." n = false
                   /\ (Fs.exists_ fs (r // n // "Inbox") = true
                       \/ Fs.exists_ fs (r // n // "Projects") = true
                       \/ Fs.exists_ fs (r // n // "Knowledge") = true).
Proof.
  intros Hps. pose proof (get_pillars_is_dir_cleaner _ _ _ Hps) as Hd.
  split; [done|].
  rewrite (cleaner_get_pillars_names _ _ Hd) in Hps. injection Hps as <-.
  split; [apply sorted_str_Sorted|].
  intros n. rewrite elem_of_sorted_str, list_elem_of_filter.
  unfold cleaner_pillar, visible_folder.
  destruct (Fs.is_dir fs (r // n)), (Py.startswith "." n),
    (Fs.exists_ fs (r // n // "Knowledge")), (Fs.exists_ fs (r // n // "Inbox")),
    (Fs.exists_ fs (r // n // "Projects")); cbn; intuition congruence.
Qed.

Lemma cleaner_get_pillars_spec_witness :
  VaultCleaner.get_pillars pillars_fs [] = Ok ["Alpha"; "Zebra"]
  /\ Fs.is_dir pillars_fs [] = true
  /\ Sorted (fun a b => String.leb a b = true) ["Alpha"; "Zebra"]
  /\ forall n, n ∈ ["Alpha"; "Zebra"]
               <-> n ∈ root_names pillars_fs []
                   /\ Fs.is_dir pillars_fs ([] // n) = true
                   /\ Py.startswith "." n = false
                   /\ (Fs.exists_ pillars_fs ([] // n // "Inbox") = true
                       \/ Fs.exists_ pillars_fs ([] // n // "Projects") = true
                       \/ Fs.exists_ pillars_fs ([] // n // "Knowledge") = true).
Proof.
  split; [reflexivity|].
  apply (cleaner_get_pillars_spec pillars_fs [] ["Alpha"; "Zebra"]). reflexivity.
Defined.

(** X9: the two scripts agree on the pillars that have a [Knowledge]
    folder: on the same vault, the pillars of [sync-manifests.py] are
    those pillars of [vault-cleaner.py] whose [Knowledge] entry exists,
    in the same order. *)
Theorem pillars_agree (fs : Fs.node) (r : Fs.path) (ps qs : list string) :
  SyncManifests.get_pillars fs r = Ok ps ->
  VaultCleaner.get_pillars fs r = Ok qs ->
  forall n, n ∈ ps <-> n ∈ qs /\ Fs.exists_ fs (r // n // "Knowledge") = true.
Proof.
  intros Hps Hqs n. pose proof (get_pillars_is_dir_sync _ _ _ Hps) as Hd.
  rewrite (sync_get_pillars_names _ _ Hd) in Hps. injection Hps as <-.
  rewrite (cleaner_get_pillars_names _ _ Hd) in Hqs. injection Hqs as <-.
  rewrite !elem_of_sorted_str, !list_elem_of_filter.
  unfold sync_pillar, cleaner_pillar.
  destruct (visible_folder fs r n), (Fs.exists_ fs (r // n // "Knowledge")),
    (Fs.exists_ fs (r // n // "Inbox")), (Fs.exists_ fs (r // n // "Projects"));
    cbn; intuition congruence.
Qed.

Lemma pillars_agree_witness :
  SyncManifests.get_pillars pillars_fs [] = Ok ["Zebra"]
  /\ VaultCleaner.get_pillars pillars_fs [] = Ok ["Alpha"; "Zebra"]
  /\ ("Zebra" ∈ ["Zebra"]
      <-> "Zebra" ∈ ["Alpha"; "Zebra"]
          /\ Fs.exists_ pillars_fs ([] // "Zebra" // "Knowledge") = true)
  /\ ("Alpha" ∈ ["Zebra"]
      <-> "Alpha" ∈ ["Alpha"; "Zebra"]
          /\ Fs.exists_ pillars_fs ([] // "Alpha" // "Knowledge") = true).
Proof.
  split; [reflexivity|]. split; [reflexivity|].
  split; apply (pillars_agree pillars_fs []); reflexivity.
Defined.

(** ** The reports of the two age checks *)

Lemma Sorted_weaken {A} (R R' : A -> A -> Prop) l :
  (forall a b, R a b -> R' a b) -> Sorted R l -> Sorted R' l.
Proof.
  intros HR. induction 1 as [|x l Hl IH Hhd]; constructor; [done|].
  destruct Hhd; constructor. by apply HR.
Qed.

Section AgeReports.
Import Fs VaultCleaner.
Context (w : world) (r : path).

Lemma sorted_by_age_descending items :
  Sorted (fun a b => age_days b <= age_days a) (sorted_by_age items).
Proof.
  unfold sorted_by_age.
  apply (Sorted_weaken (fun a b => (- age_days a <=? - age_days b) = true)).
  - intros a b H. apply Z.leb_le in H. lia.
  - apply (sorted_Sorted (fun a b => - age_days a <=? - age_days b)).
    intros x y. destruct (Z.leb_spec (- age_days x) (- age_days y)); [by left|].
    right. apply Z.leb_le. lia.
Qed.

Lemma sorted_by_age_Permutation items : sorted_by_age items ≡ₚ items.
Proof. apply sorted_Permutation. Qed.

Lemma elem_of_aged threshold files item :
  item ∈ aged w r threshold files
  <-> exists f, f ∈ files /\ threshold <= age_of w r f /\ item = item_of w r f.
Proof.
  unfold aged. rewrite list_elem_of_fmap. split.
  - intros (f & -> & [Hage Hf]%list_elem_of_filter). by exists f.
  - intros (f & Hf & Hage & ->). exists f. split; [done|].
    by apply list_elem_of_filter.
Qed.

Lemma folder_report_shape folder threshold pillars d pillar items :
  get_pillars (fs w) r = Ok pillars ->
  check_folder w r folder threshold = Ok d ->
  dict_get pillar d = Some items ->
  pillar ∈ pillars
  /\ aged w r threshold (glob_md (fs w) (r // pillar // folder)) <> []
  /\ items = sorted_by_age (aged w r threshold (glob_md (fs w) (r // pillar // folder))).
Proof.
  intros Hp Hc Hg. rewrite (check_folder_spec _ _ _ _ _ Hp) in Hc.
  injection Hc as <-. rewrite dict_get_reports in Hg.
  destruct (decide (pillar ∈ pillars)) as [Hin|]; [|done]. split; [done|].
  unfold folder_report in Hg.
  destruct (exists_ (fs w) (r // pillar // folder)); [|done].
  destruct (aged w r threshold (glob_md (fs w) (r // pillar // folder)))
    as [|i is_] eqn:E; [done|].
  split; [done|]. congruence.
Qed.

Lemma folder_listed_iff folder threshold pillars pillar n :
  get_pillars (fs w) r = Ok pillars ->
  listed (check_folder w r folder threshold) pillar n
  <-> pillar ∈ pillars
      /\ exists f, f ∈ glob_md (fs w) (r // pillar // folder)
                   /\ name f = n /\ threshold <= age_of w r f.
Proof.
  intros Hp. split.
  - intros Hl. split; [|by apply folder_listed_inv].
    destruct Hl as (d & items & item & Hd & Hg & _).
    by destruct (folder_report_shape _ _ _ _ _ _ Hp Hd Hg) as [H _].
  - intros (Hin & f & Hf & <- & Hage).
    destruct (folder_reported w r folder threshold pillars pillar f Hp Hin Hf Hage)
      as (d & items & Hd & Hg & Hitem).
    exists d, items, (item_of w r f). done.
Qed.

Lemma folder_report_items folder threshold pillars d pillar items :
  get_pillars (fs w) r = Ok pillars ->
  check_folder w r folder threshold = Ok d ->
  dict_get pillar d = Some items ->
  items <> []
  /\ Sorted (fun a b => age_days b <= age_days a) items
  /\ (forall item, item ∈ items
        <-> exists f, f ∈ glob_md (fs w) (r // pillar // folder)
                      /\ threshold <= age_of w r f
                      /\ item = {| item_name := name f; age_days := age_of w r f |})
  /\ length items
     = length (filter (fun f => threshold <= age_of w r f)
                      (glob_md (fs w) (r // pillar // folder))).
Proof.
  intros Hp Hc Hg.
  destruct (folder_report_shape _ _ _ _ _ _ Hp Hc Hg) as (_ & Hne & ->).
  split; [|split; [|split]].
  - intros E. apply Hne. by apply (sorted_nil_inv _ _ E).
  - apply sorted_by_age_descending.
  - intros item. rewrite (elem_of_Permutation_proper _ _ _ (sorted_by_age_Permutation _)).
    apply elem_of_aged.
  - rewrite (Permutation_length (sorted_by_age_Permutation _)).
    unfold aged. by rewrite length_fmap.
Qed.

End AgeReports.

(** X10: which files the two age checks list. A name is listed under a
    pillar by [check_inbox_items] exactly when the pillar is one of
    [get_pillars] and its [Inbox] holds a [*.md] entry of that name whose
    age is at least three days; by [check_stale_projects] exactly when
    its [Projects] holds such an entry whose age is at least thirty days. *)
Theorem age_checks_listed (w : VaultCleaner.world) (r : Fs.path)
    (pillars : list string) (pillar n : string) :
  VaultCleaner.get_pillars (VaultCleaner.fs w) r = Ok pillars ->
  (listed (VaultCleaner.check_inbox_items w r) pillar n
   <-> pillar ∈ pillars
       /\ exists f, f ∈ Fs.glob_md (VaultCleaner.fs w) (r // pillar // "Inbox")
                    /\ Fs.name f = n /\ 3 <= age_of w r f)
  /\ (listed (VaultCleaner.check_stale_projects w r) pillar n
      <-> pillar ∈ pillars
          /\ exists f, f ∈ Fs.glob_md (VaultCleaner.fs w) (r // pillar // "Projects")
                       /\ Fs.name f = n /\ 30 <= age_of w r f).
Proof.
  intros Hp. rewrite check_inbox_items_folder, check_stale_projects_folder.
  split; by apply folder_listed_iff.
Qed.

Lemma age_checks_listed_witness :
  (listed (VaultCleaner.check_inbox_items aging_world ["vault"]) "P" "a.md"
   <-> "P" ∈ ["P"]
       /\ exists f, f ∈ Fs.glob_md aging_fs (["vault"] // "P" // "Inbox")
                    /\ Fs.name f = "a.md" /\ 3 <= age_of aging_world ["vault"] f)
  /\ (listed (VaultCleaner.check_stale_projects aging_world ["vault"]) "P" "a.md"
      <-> "P" ∈ ["P"]
          /\ exists f, f ∈ Fs.glob_md aging_fs (["vault"] // "P" // "Projects")
                       /\ Fs.name f = "a.md" /\ 30 <= age_of aging_world ["vault"] f).
Proof. apply (age_checks_listed aging_world ["vault"] ["P"] "P" "a.md"). reflexivity. Defined.

(** X11: the shape of what the two age checks record. A pillar has an entry
    only when some file is old enough; its list is never empty, runs from
    the oldest file to the youngest, and holds one item per [*.md] entry
    of the folder that has reached the threshold, with the entry's name
    and its age in whole days. *)
Theorem age_checks_report (w : VaultCleaner.world) (r : Fs.path) :
  (forall d pillar items,
     VaultCleaner.check_inbox_items w r = Ok d ->
     dict_get pillar d = Some items ->
     items <> []
     /\ Sorted (fun a b => VaultCleaner.age_days b <= VaultCleaner.age_days a) items
     /\ (forall item, item ∈ items
           <-> exists f, f ∈ Fs.glob_md (VaultCleaner.fs w) (r // pillar // "Inbox")
                         /\ 3 <= age_of w r f
                         /\ item = {| VaultCleaner.item_name := Fs.name f;
                                      VaultCleaner.age_days := age_of w r f |})
     /\ length items
        = length (filter (fun f => 3 <= age_of w r f)
                         (Fs.glob_md (VaultCleaner.fs w) (r // pillar // "Inbox"))))
  /\ (forall d pillar items,
        VaultCleaner.check_stale_projects w r = Ok d ->
        dict_get pillar d = Some items ->
        items <> []
        /\ Sorted (fun a b => VaultCleaner.age_days b <= VaultCleaner.age_days a) items
        /\ (forall item, item ∈ items
              <-> exists f, f ∈ Fs.glob_md (VaultCleaner.fs w) (r // pillar // "Projects")
                            /\ 30 <= age_of w r f
                            /\ item = {| VaultCleaner.item_name := Fs.name f;
                                         VaultCleaner.age_days := age_of w r f |})
        /\ length items
           = length (filter (fun f => 30 <= age_of w r f)
                            (Fs.glob_md (VaultCleaner.fs w) (r // pillar // "Projects")))).
Proof.
  rewrite check_inbox_items_folder, check_stale_projects_folder.
  split; intros d pillar items Hc Hg.
  - destruct (VaultCleaner.get_pillars (VaultCleaner.fs w) r) as [ps|e] eqn:Hp.
    + by apply (folder_report_items w r "Inbox" 3 ps d).
    + unfold check_folder in Hc. by rewrite Hp in Hc.
  - destruct (VaultCleaner.get_pillars (VaultCleaner.fs w) r) as [ps|e] eqn:Hp.
    + by apply (folder_report_items w r "Projects" 30 ps d).
    + unfold check_folder in Hc. by rewrite Hp in Hc.
Qed.

(** ** A folder in sync has no drift *)

Section FolderDrift.
Import Fs SyncManifests VaultCleaner.

Lemma notes_names fs dir : notes fs dir = joinpath dir <$> note_names fs dir.
Proof. unfold notes, note_names. by rewrite glob_md_names, filter_notes_joinpath. Qed.

Lemma elem_of_notes fs dir f :
  f ∈ notes fs dir <-> f ∈ glob_md fs dir /\ name f <> "MANIFEST.md".
Proof. unfold notes. rewrite list_elem_of_filter. tauto. Qed.

Lemma write_note_names fs fs' dir txt :
  write_text fs (dir // "MANIFEST.md") txt = Ok fs' ->
  note_names fs' dir = note_names fs dir.
Proof.
  intros Hw. apply write_text_spec in Hw as (_ & _ & (es & es' & He & He' & Hf)).
  unfold note_names, md_names. rewrite He, He'.
  by rewrite !filter_notes_md, Hf.
Qed.

Lemma update_manifest_note_names fs fs' dir b :
  update_manifest fs dir false = Ok (b, fs') ->
  note_names fs' dir = note_names fs dir.
Proof.
  intros Hu. destruct b.
  - by apply update_manifest_current in Hu as [_ ->].
  - apply update_manifest_written in Hu. by apply write_note_names in Hu.
Qed.

Lemma in_sync_parse fs dir :
  read_text fs (dir // "MANIFEST.md") = Ok (generate_manifest_content fs dir) ->
  (forall f, f ∈ notes fs dir -> link_safe (stem f)) ->
  parse_manifest fs (dir // "MANIFEST.md") = get_actual_files fs dir.
Proof.
  intros Hr Hsafe. rewrite (parse_manifest_read_text _ _ _ Hr).
  rewrite parse_generated.
  - rewrite get_actual_files_notes. apply set_eq. intros s.
    rewrite !elem_of_list_to_set. by rewrite md_files_Permutation.
  - apply md_files_safe. intros f Hf Hn. apply Hsafe. by apply elem_of_notes.
Qed.

Lemma drift_of_in_sync fs r pillar :
  parse_manifest fs (r // pillar // "Knowledge" // "MANIFEST.md")
  = get_actual_files fs (r // pillar // "Knowledge") ->
  drift_of fs r pillar = None.
Proof.
  intros H. unfold drift_of. rewrite H, difference_diag_L, elements_empty.
  by destruct (exists_ fs _).
Qed.

Lemma parse_manifest_nothing_read fs p :
  exists_ fs p = false
  \/ (exists e, iter_lines fs p = Raise e)
  \/ (exists failure, iter_lines fs p = Ok ([], failure)) ->
  parse_manifest fs p = ∅.
Proof.
  unfold parse_manifest. intros [-> | [[e ->] | [failure ->]]]; [done| |];
    by destruct (exists_ fs p).
Qed.

Lemma actual_files_empty fs dir : get_actual_files fs dir = ∅ <-> notes fs dir = [].
Proof.
  rewrite get_actual_files_notes. split.
  - destruct (notes fs dir) as [|f fs0]; [done|]. intros H.
    assert (stem f ∈ (∅ : gset string)) as Hin; [|by apply elem_of_empty in Hin].
    rewrite <- H. cbn [fmap list_fmap list_to_set]. apply elem_of_union. left.
    by apply elem_of_singleton.
  - by intros ->.
Qed.

End FolderDrift.

(** X12: a folder that [sync-manifests.py --check] accepts shows no drift to
    [vault-cleaner.py], as long as every stem can be carried by a wiki
    link: when [update_manifest] answers [True], the entries that
    [parse_manifest] reads from the manifest are the stems that
    [get_actual_files] finds, so neither additions nor removals are due. *)
Theorem check_passes_no_drift (fs : Fs.node) (dir : Fs.path) :
  SyncManifests.update_manifest fs dir true = Ok (true, fs) ->
  (forall f, f ∈ notes fs dir -> link_safe (Fs.stem f)) ->
  VaultCleaner.parse_manifest fs (dir // "MANIFEST.md")
  = VaultCleaner.get_actual_files fs dir
  /\ VaultCleaner.get_actual_files fs dir
       ∖ VaultCleaner.parse_manifest fs (dir // "MANIFEST.md") = ∅
  /\ VaultCleaner.parse_manifest fs (dir // "MANIFEST.md")
       ∖ VaultCleaner.get_actual_files fs dir = ∅.
Proof.
  intros Hu Hsafe. apply update_manifest_current in Hu as [[Hr _] _].
  rewrite (in_sync_parse fs dir (Hr eq_refl) Hsafe).
  by rewrite difference_diag_L.
Qed.

Lemma check_passes_no_drift_witness :
  VaultCleaner.parse_manifest synced_fs (["K"] // "MANIFEST.md")
  = VaultCleaner.get_actual_files synced_fs ["K"]
  /\ VaultCleaner.get_actual_files synced_fs ["K"]
       ∖ VaultCleaner.parse_manifest synced_fs (["K"] // "MANIFEST.md") = ∅
  /\ VaultCleaner.parse_manifest synced_fs (["K"] // "MANIFEST.md")
       ∖ VaultCleaner.get_actual_files synced_fs ["K"] = ∅.
Proof.
  apply (check_passes_no_drift synced_fs ["K"]); [reflexivity|].
  intros f Hf. vm_compute in Hf.
  repeat (apply elem_of_cons in Hf as [->|Hf]; [by vm_compute|]).
  by apply elem_of_nil in Hf.
Defined.

(** X13: after [update_manifest] has run in write mode on a folder whose
    stems can be carried by a wiki link, [vault-cleaner.py] reads from the
    manifest exactly the stems of the notes of the folder, which are
    those the folder had before the run. *)
Theorem update_then_no_drift (fs fs' : Fs.node) (dir : Fs.path) (b : bool) :
  SyncManifests.update_manifest fs dir false = Ok (b, fs') ->
  (forall f, f ∈ notes fs dir -> link_safe (Fs.stem f)) ->
  VaultCleaner.parse_manifest fs' (dir // "MANIFEST.md")
  = VaultCleaner.get_actual_files fs' dir
  /\ VaultCleaner.get_actual_files fs' dir = VaultCleaner.get_actual_files fs dir.
Proof.
  intros Hu Hsafe.
  assert (notes fs' dir = notes fs dir) as Hnotes
    by (by rewrite !notes_names, (update_manifest_note_names _ _ _ _ Hu)).
  split; [|by rewrite !get_actual_files_notes, Hnotes].
  destruct (update_manifest_twice fs dir b fs' Hu) as [H2 _].
  { intros f Hf Hn. destruct (Hsafe f) as (_ & Hcr & _); [|done].
    by apply elem_of_notes. }
  apply update_manifest_current in H2 as [[Hr _] _].
  apply (in_sync_parse fs' dir (Hr eq_refl)). by rewrite Hnotes.
Qed.

Lemma update_then_no_drift_witness :
  exists fs',
    SyncManifests.update_manifest alphabet_fs ["Knowledge"] false = Ok (false, fs')
    /\ VaultCleaner.parse_manifest fs' (["Knowledge"] // "MANIFEST.md")
       = VaultCleaner.get_actual_files fs' ["Knowledge"]
    /\ VaultCleaner.get_actual_files fs' ["Knowledge"]
       = VaultCleaner.get_actual_files alphabet_fs ["Knowledge"].
Proof.
  destruct (SyncManifests.update_manifest alphabet_fs ["Knowledge"] false)
    as [[b fs1]|e] eqn:Hu; [|by vm_compute in Hu].
  assert (b = false) as -> by (vm_compute in Hu; congruence).
  exists fs1. split; [reflexivity|].
  apply (update_then_no_drift alphabet_fs fs1 ["Knowledge"] false Hu).
  intros f Hf. vm_compute in Hf.
  repeat (apply elem_of_cons in Hf as [->|Hf]; [by vm_compute|]).
  by apply elem_of_nil in Hf.
Defined.

(** X14: what [check_manifest_sync] makes of a [Knowledge] folder from
    whose manifest nothing is read, because it is missing, is a directory
    or cannot be decoded from its first bytes on: a folder with notes is
    reported with the stem of every note to add and nothing to remove,
    while a folder without notes is not reported at all. *)
Theorem missing_manifest_drift (fs : Fs.node) (r : Fs.path) (pillars : list string)
    (pillar : string) :
  let knowledge_dir := r // pillar // "Knowledge" in
  VaultCleaner.get_pillars fs r = Ok pillars ->
  pillar ∈ pillars ->
  Fs.exists_ fs knowledge_dir = true ->
  Fs.exists_ fs (knowledge_dir // "MANIFEST.md") = false
  \/ Fs.is_dir fs (knowledge_dir // "MANIFEST.md") = true
  \/ Fs.resolve fs (knowledge_dir // "MANIFEST.md") = Some (Fs.File None) ->
  exists issues,
    VaultCleaner.check_manifest_sync fs r = Ok issues
    /\ (notes fs knowledge_dir = [] -> dict_get pillar issues = None)
    /\ (notes fs knowledge_dir <> [] ->
        dict_get pillar issues
        = Some {| VaultCleaner.add :=
                    Py.sorted_str
                      (elements (list_to_set (Fs.stem <$> notes fs knowledge_dir)
                                   : gset string));
                  VaultCleaner.remove := [] |}).
Proof.
  cbn zeta. intros Hp Hin Hk Hm.
  rewrite (check_manifest_sync_spec _ _ _ Hp). eexists. split; [reflexivity|].
  rewrite dict_get_drift, decide_True by done.
  unfold drift_of. rewrite Hk.
  rewrite (parse_manifest_nothing_read fs (r // pillar // "Knowledge" // "MANIFEST.md")).
  2:{ destruct Hm as [Hm|[Hm|Hm]]; [by left|right; left|right; right].
      - unfold Fs.is_dir, Fs.iter_lines in *.
        destruct (Fs.resolve fs _) as [[t|es|h]|]; try done. by eexists.
      - unfold Fs.iter_lines. rewrite Hm. by eexists. }
  rewrite difference_empty_L, empty_difference_L, get_actual_files_notes.
  split.
  - intros ->. by rewrite elements_empty.
  - intros Hn. rewrite elements_empty.
    destruct (truthy (elements (list_to_set (Fs.stem <$> notes fs (r // pillar // "Knowledge"))
                                  : gset string)))
      eqn:Ht; [done|].
    destruct Hn. apply actual_files_empty. rewrite get_actual_files_notes.
    match goal with |- ?X = ∅ => destruct (decide (X = ∅)) as [|Hne]; [done|] end.
    apply truthy_elements in Hne. congruence.
Qed.

Lemma missing_manifest_drift_witness :
  exists issues,
    VaultCleaner.check_manifest_sync unlisted_fs ["vault"] = Ok issues
    /\ (notes unlisted_fs (["vault"] // "Work" // "Knowledge") = [] ->
        dict_get "Work" issues = None)
    /\ (notes unlisted_fs (["vault"] // "Work" // "Knowledge") <> [] ->
        dict_get "Work" issues
        = Some {| VaultCleaner.add :=
                    Py.sorted_str
                      (elements (list_to_set
                                   (Fs.stem <$> notes unlisted_fs
                                                  (["vault"] // "Work" // "Knowledge"))
                                   : gset string));
                  VaultCleaner.remove := [] |}).
Proof.
  apply (missing_manifest_drift unlisted_fs ["vault"] ["Work"] "Work").
  - reflexivity.
  - apply elem_of_cons. by left.
  - reflexivity.
  - left. reflexivity.
Defined.

(** ** A run of [sync-manifests.py] *)





Section SyncRun.
Import Fs SyncManifests.
Context (r : path).

Lemma main_fold fs check_only :
  main fs r check_only
  = pillars ← get_pillars fs r;
    state ← foldl (main_step r check_only) (Ok (true, fs)) pillars;
    let '(all_in_sync, fs') := (state : bool * node) in
    if check_only && negb all_in_sync then Ok (1, fs') else Ok (0, fs').
Proof.
  unfold main. destruct (get_pillars fs r) as [[|p ps]|e]; [|done|done].
  cbn. by destruct check_only.
Qed.

Lemma main_fold_raise check_only e ps :
  foldl (main_step r check_only) (Raise e) ps = Raise e.
Proof. induction ps as [|p ps IH]; [done|]. apply IH. Qed.

Lemma main_step_inv check_only a fs p a' fs' :
  main_step r check_only (Ok (a, fs)) p = Ok (a', fs') ->
  (exists_ fs (r // p // "Knowledge") = false /\ a' = a /\ fs' = fs)
  \/ (exists_ fs (r // p // "Knowledge") = true
      /\ exists b, update_manifest fs (r // p // "Knowledge") check_only = Ok (b, fs')
                   /\ a' = a && b).
Proof.
  unfold main_step. cbn [mbind result_bind].
  destruct (exists_ fs (r // p // "Knowledge")); cbn [negb].
  - destruct (update_manifest fs (r // p // "Knowledge") check_only)
      as [[b fs1]|e]; [|done].
    cbn [mbind result_bind]. intros H. right. split; [done|]. exists b.
    destruct b; injection H as <- <-; split; try done.
    + by rewrite andb_true_r.
    + by rewrite andb_false_r.
  - intros [= <- <-]. by left.
Qed.

(** *** Locality *)

Lemma resolve_below fs1 fs2 dir q :
  resolve fs1 dir = resolve fs2 dir -> resolve fs1 (dir ++ q) = resolve fs2 (dir ++ q).
Proof. intros H. by rewrite !resolve_app, H. Qed.

Lemma note_names_local fs1 fs2 dir :
  resolve fs1 dir = resolve fs2 dir -> note_names fs1 dir = note_names fs2 dir.
Proof. intros H. unfold note_names, md_names. by rewrite H. Qed.

Lemma manifest_body_local fs1 fs2 dir :
  note_names fs1 dir = note_names fs2 dir ->
  (forall n, n ∈ note_names fs2 dir -> resolve fs1 (dir // n) = resolve fs2 (dir // n)) ->
  manifest_body fs1 dir = manifest_body fs2 dir.
Proof.
  intros Hnames Hres.
  assert (md_files fs1 dir = md_files fs2 dir) as Hfiles
    by (by rewrite !md_files_names, Hnames).
  assert (manifest_row fs1 <$> md_files fs2 dir = manifest_row fs2 <$> md_files fs2 dir)
    as Hrows.
  { apply list_fmap_ext. intros i f Hin.
    unfold manifest_row. do 4 f_equal.
    apply get_first_heading_resolve.
    apply list_elem_of_lookup_2 in Hin. rewrite md_files_names in Hin.
    apply list_elem_of_fmap in Hin as (m & -> & Hm).
    unfold Py.sorted_str in Hm. apply elem_of_sorted in Hm. by apply Hres. }
  unfold manifest_body. rewrite Hfiles. revert Hrows.
  destruct (md_files fs2 dir) as [|f files]; [done|]. by intros ->.
Qed.

Lemma generate_local fs1 fs2 dir :
  resolve fs1 dir = resolve fs2 dir ->
  generate_manifest_content fs1 dir = generate_manifest_content fs2 dir.
Proof.
  intros H. unfold generate_manifest_content.
  rewrite !generate_manifest_lines_body. do 2 f_equal.
  apply manifest_body_local; [by apply note_names_local|].
  intros n _. by apply resolve_below.
Qed.

Lemma manifest_in_sync_local fs1 fs2 p :
  resolve fs1 (r // p // "Knowledge") = resolve fs2 (r // p // "Knowledge") ->
  manifest_in_sync fs2 r p -> manifest_in_sync fs1 r p.
Proof.
  intros H Hs. unfold manifest_in_sync in *.
  rewrite (generate_local _ _ _ H).
  apply (read_text_resolve fs2 fs1); [|exact Hs].
  apply (resolve_below _ _ _ ["MANIFEST.md"] H).
Qed.

(** *** What a step keeps *)

Lemma same_vault_refl fs : same_vault r fs fs.
Proof. by repeat split. Qed.

Lemma same_vault_trans fs0 fs1 fs2 :
  same_vault r fs0 fs1 -> same_vault r fs1 fs2 -> same_vault r fs0 fs2.
Proof.
  intros (A1 & B1 & C1 & D1 & E1 & F1) (A2 & B2 & C2 & D2 & E2 & F2).
  split; [congruence|]. split; [congruence|].
  split; [intros n; by rewrite C2|]. split; [intros n x; by rewrite D2|].
  split; [intros n; by rewrite E2|]. intros q Hq. by rewrite F2, F1.
Qed.

Lemma manifest_path_eq p :
  r // p // "Knowledge" // "MANIFEST.md" = r ++ [p; "Knowledge"; "MANIFEST.md"].
Proof. unfold joinpath. by rewrite <- !app_assoc. Qed.

Lemma knowledge_path_eq p : r // p // "Knowledge" = r ++ [p; "Knowledge"].
Proof. unfold joinpath. by rewrite <- !app_assoc. Qed.

Lemma write_manifest_same_vault fs fs' p txt :
  write_text fs (r // p // "Knowledge" // "MANIFEST.md") txt = Ok fs' ->
  same_vault r fs fs'.
Proof.
  intros Hw.
  assert (forall q, ~ q `prefix_of` manifest_of r p -> ~ manifest_of r p `prefix_of` q ->
                    resolve fs' q = resolve fs q) as Hframe
    by (intros q; apply (write_text_frame _ _ _ _ _ Hw)).
  pose proof Hw as Hw1. rewrite manifest_path_eq in Hw1.
  destruct (write_text_above r fs fs' txt p ["Knowledge"; "MANIFEST.md"] Hw1)
    as (es & es' & He & He' & Hn); [done|].
  pose proof Hw as Hw2. rewrite manifest_path_eq in Hw2.
  change (r ++ [p; "Knowledge"; "MANIFEST.md"])
    with (r ++ [p] ++ "Knowledge" :: ["MANIFEST.md"]) in Hw2.
  rewrite app_assoc in Hw2.
  destruct (write_text_above (r ++ [p]) fs fs' txt "Knowledge" ["MANIFEST.md"] Hw2)
    as (ps & ps' & Hp & Hp' & _); [done|].
  pose proof Hw as Hw3.
  apply write_text_spec in Hw3 as (_ & _ & (ks & ks' & Hk & Hk' & _)).
  split; [unfold is_dir; by rewrite He, He'|].
  split; [unfold root_names; by rewrite He, He'|].
  split; [|split; [|split]].
  - intros n. destruct (decide (n = p)) as [->|Hne].
    + unfold is_dir, joinpath. by rewrite Hp, Hp'.
    + unfold is_dir. rewrite Hframe; [done| |].
      * unfold manifest_of. rewrite manifest_path_eq. unfold joinpath.
        intros [k Hk0]. rewrite <- app_assoc in Hk0.
        apply app_inv_head in Hk0. injection Hk0 as -> _. done.
      * unfold manifest_of. rewrite manifest_path_eq. unfold joinpath.
        intros [k Hk0]. rewrite <- app_assoc in Hk0.
        apply app_inv_head in Hk0. discriminate Hk0.
  - intros n x.
    destruct (decide (n = p /\ x = "Knowledge")) as [[-> ->]|Hne].
    + unfold exists_. by rewrite Hk, Hk'.
    + unfold exists_. rewrite Hframe; [done| |].
      * unfold manifest_of. rewrite manifest_path_eq. unfold joinpath.
        intros [k Hk0]. rewrite <- !app_assoc in Hk0.
        apply app_inv_head in Hk0. injection Hk0 as H1 H2 _. by destruct Hne.
      * unfold manifest_of. rewrite manifest_path_eq. unfold joinpath.
        intros [k Hk0]. rewrite <- !app_assoc in Hk0.
        apply app_inv_head in Hk0. discriminate Hk0.
  - intros n. destruct (decide (n = p)) as [->|Hne].
    + by apply (write_note_names _ _ _ _ Hw).
    + apply note_names_local. apply Hframe.
      * unfold manifest_of. rewrite manifest_path_eq. unfold joinpath.
        intros [k Hk0]. rewrite <- !app_assoc in Hk0.
        apply app_inv_head in Hk0. injection Hk0 as -> _. done.
      * unfold manifest_of. rewrite manifest_path_eq. unfold joinpath.
        intros [k Hk0]. rewrite <- !app_assoc in Hk0.
        apply app_inv_head in Hk0. discriminate Hk0.
  - intros q Hq. destruct (Hq p) as [Hq1 Hq2]. by apply Hframe.
Qed.

Lemma update_manifest_same_vault fs fs' p b :
  update_manifest fs (r // p // "Knowledge") false = Ok (b, fs') ->
  same_vault r fs fs'.
Proof.
  intros Hu. destruct b.
  - apply update_manifest_current in Hu as [_ ->]; [apply same_vault_refl|done].
  - apply update_manifest_written in Hu. by apply write_manifest_same_vault in Hu.
Qed.

Lemma update_manifest_other fs fs' p n b :
  update_manifest fs (r // p // "Knowledge") false = Ok (b, fs') ->
  n <> p ->
  resolve fs' (r // n // "Knowledge") = resolve fs (r // n // "Knowledge").
Proof.
  intros Hu Hne. destruct b.
  - by apply update_manifest_current in Hu as [_ ->].
  - apply update_manifest_written in Hu.
    apply (write_text_frame _ _ _ _ _ Hu).
    + rewrite manifest_path_eq, knowledge_path_eq.
      intros [k Hk0]. rewrite <- !app_assoc in Hk0.
      apply app_inv_head in Hk0. injection Hk0 as -> _. done.
    + rewrite manifest_path_eq, knowledge_path_eq.
      intros [k Hk0]. rewrite <- !app_assoc in Hk0.
      apply app_inv_head in Hk0. discriminate Hk0.
Qed.

(** The stems of the notes of every pillar hold no carriage return. *)
Lemma notes_same_vault fs0 fs n :
  same_vault r fs0 fs ->
  notes fs (r // n // "Knowledge") = notes fs0 (r // n // "Knowledge").
Proof. intros (_ & _ & _ & _ & E & _). by rewrite !notes_names, E. Qed.

Lemma write_run_fold ps :
  forall fs a fs' a' (done_ : string -> Prop),
    foldl (main_step r false) (Ok (a, fs)) ps = Ok (a', fs') ->
    (forall n f, n ∈ ps -> f ∈ notes fs (r // n // "Knowledge") ->
                 char_in Py.CR (stem f) = false) ->
    (forall p, done_ p -> exists_ fs (r // p // "Knowledge") = true ->
               manifest_in_sync fs r p) ->
    same_vault r fs fs'
    /\ (forall p, done_ p \/ p ∈ ps -> exists_ fs' (r // p // "Knowledge") = true ->
                  manifest_in_sync fs' r p).
Proof.
  induction ps as [|p ps IH]; intros fs a fs' a' done_ Hfold Hcr Hdone.
  - injection Hfold as <- <-. split; [apply same_vault_refl|].
    intros p [Hp|Hp]; [by apply Hdone|by apply elem_of_nil in Hp].
  - cbn [foldl] in Hfold.
    destruct (main_step r false (Ok (a, fs)) p) as [[a1 fs1]|e] eqn:Hstep;
      [|by rewrite main_fold_raise in Hfold].
    apply main_step_inv in Hstep as [(Hex & -> & ->) | (Hex & b & Hu & ->)].
    + destruct (IH fs a fs' a' (fun q => done_ q \/ q = p) Hfold) as [Hsv Hsync].
      { intros n f Hn. apply Hcr. apply elem_of_cons. by right. }
      { intros q [Hq| ->] Hq'; [by apply Hdone|congruence]. }
      split; [done|]. intros q Hq. apply Hsync.
      destruct Hq as [Hq|[->|Hq]%elem_of_cons]; tauto.
    + pose proof (update_manifest_same_vault _ _ _ _ Hu) as Hsv1.
      destruct (IH fs1 (a && b) fs' a' (fun q => done_ q \/ q = p) Hfold) as [Hsv Hsync].
      { intros n f Hn Hf. rewrite (notes_same_vault fs fs1 n Hsv1) in Hf.
        apply (Hcr n); [|done]. apply elem_of_cons. by right. }
      { intros q Hq Hq'. destruct (decide (q = p)) as [->|Hne].
        - destruct (update_manifest_twice _ _ _ _ Hu) as [H2 _].
          { intros f Hf Hn. apply (Hcr p); [apply elem_of_cons; by left|].
            by apply elem_of_notes. }
          apply update_manifest_current in H2 as [[H _] _]. by apply H.
        - destruct Hq as [Hq|Hq]; [|done].
          pose proof (update_manifest_other _ _ _ q _ Hu Hne) as Hres.
          apply (manifest_in_sync_local fs1 fs q Hres). apply Hdone; [done|].
          unfold exists_ in *. by rewrite <- Hres. }
      split; [by apply (same_vault_trans fs fs1 fs')|].
      intros q Hq. apply Hsync.
      destruct Hq as [Hq|[->|Hq]%elem_of_cons]; tauto.
Qed.

Lemma synced_run_fold check_only ps fs a :
  (forall p, p ∈ ps -> exists_ fs (r // p // "Knowledge") = true ->
             manifest_in_sync fs r p) ->
  foldl (main_step r check_only) (Ok (a, fs)) ps = Ok (a, fs).
Proof.
  induction ps as [|p ps IH]; intros Hsync; [done|].
  cbn [foldl].
  assert (main_step r check_only (Ok (a, fs)) p = Ok (a, fs)) as ->.
  { unfold main_step. cbn [mbind result_bind].
    destruct (exists_ fs (r // p // "Knowledge")) eqn:Hex; [|done]. cbn [negb].
    rewrite (update_manifest_in_sync fs _ check_only); [done|].
    apply Hsync; [|done]. apply elem_of_cons. by left. }
  apply IH. intros q Hq. apply Hsync. apply elem_of_cons. by right.
Qed.

Lemma check_fold_frame ps :
  forall fs a fs' a',
    foldl (main_step r true) (Ok (a, fs)) ps = Ok (a', fs') ->
    fs' = fs
    /\ (a' = true <-> a = true
                      /\ forall p, p ∈ ps -> exists_ fs (r // p // "Knowledge") = true ->
                                   manifest_in_sync fs r p).
Proof.
  induction ps as [|p ps IH]; intros fs a fs' a' Hfold.
  - injection Hfold as <- <-. split; [done|]. split; [|tauto].
    intros ->. split; [done|]. intros p Hp. by apply elem_of_nil in Hp.
  - cbn [foldl] in Hfold.
    destruct (main_step r true (Ok (a, fs)) p) as [[a1 fs1]|e] eqn:Hstep;
      [|by rewrite main_fold_raise in Hfold].
    apply main_step_inv in Hstep as [(Hex & -> & ->) | (Hex & b & Hu & ->)].
    + destruct (IH _ _ _ _ Hfold) as [-> Hiff]. split; [done|].
      rewrite Hiff. split; intros [Ha Hall]; (split; [done|]).
      * intros q [->|Hq]%elem_of_cons; [congruence|by apply Hall].
      * intros q Hq. apply Hall. apply elem_of_cons. by right.
    + assert (fs1 = fs) as ->.
      { unfold update_manifest in Hu.
        destruct (if exists_ fs _ then _ else _) as [cur|e]; [|done].
        cbn in Hu. revert Hu. by case_eqb; intros [= <- <-]. }
      destruct (IH _ _ _ _ Hfold) as [-> Hiff]. split; [done|].
      pose proof (update_manifest_current _ _ _ _ _ Hu) as [Hb _].
      rewrite Hiff, andb_true_iff. split.
      * intros [[Ha Hbt] Hall]. split; [done|].
        intros q [->|Hq]%elem_of_cons; [intros _; by apply Hb|by apply Hall].
      * intros [Ha Hall]. split; [split; [done|]|].
        -- apply Hb. apply Hall; [|done]. apply elem_of_cons. by left.
        -- intros q Hq. apply Hall. apply elem_of_cons. by right.
Qed.

Lemma get_pillars_same_vault fs0 fs ps :
  same_vault r fs0 fs ->
  get_pillars fs0 r = Ok ps ->
  get_pillars fs r = Ok ps.
Proof.
  intros (A & B & C & D & _) Hps.
  pose proof (get_pillars_is_dir_sync _ _ _ Hps) as Hd.
  rewrite sync_get_pillars_names in Hps by done. injection Hps as <-.
  rewrite sync_get_pillars_names by congruence. do 2 f_equal. rewrite B.
  apply list_filter_iff. intros n. unfold sync_pillar, visible_folder.
  by rewrite C, D.
Qed.

Lemma sync_pillar_exists fs ps p :
  get_pillars fs r = Ok ps -> p ∈ ps -> exists_ fs (r // p // "Knowledge") = true.
Proof.
  intros Hps Hp. pose proof (get_pillars_is_dir_sync _ _ _ Hps) as Hd.
  rewrite sync_get_pillars_names in Hps by done. injection Hps as <-.
  apply elem_of_sorted_str, list_elem_of_filter in Hp as [Hp _].
  apply Is_true_true in Hp. unfold sync_pillar in Hp.
  by apply andb_true_iff in Hp as [_ Hp].
Qed.

Lemma cleaner_pillar_sync fs ps qs q :
  get_pillars fs r = Ok ps ->
  VaultCleaner.get_pillars fs r = Ok qs ->
  q ∈ qs -> exists_ fs (r // q // "Knowledge") = true -> q ∈ ps.
Proof.
  intros Hps Hqs Hq Hk. pose proof (get_pillars_is_dir_sync _ _ _ Hps) as Hd.
  rewrite sync_get_pillars_names in Hps by done. injection Hps as <-.
  rewrite cleaner_get_pillars_names in Hqs by done. injection Hqs as <-.
  apply elem_of_sorted_str, list_elem_of_filter in Hq as [Hq Hin].
  apply elem_of_sorted_str, list_elem_of_filter. split; [|done].
  apply Is_true_true in Hq. apply Is_true_true.
  unfold cleaner_pillar in Hq. unfold sync_pillar.
  apply andb_true_iff in Hq as [-> _]. by rewrite Hk.
Qed.

Lemma no_drift_fold fs qs acc :
  (forall q, q ∈ qs -> drift_of fs r q = None) ->
  foldl (record_drift fs r) acc qs = acc.
Proof.
  revert acc. induction qs as [|q qs IH]; intros acc Hq; [done|].
  cbn [foldl]. unfold record_drift at 2.
  rewrite (Hq q) by (apply elem_of_cons; by left).
  apply IH. intros q' Hq'. apply Hq. apply elem_of_cons. by right.
Qed.

Lemma write_run fs code fs' :
  main fs r false = Ok (code, fs') ->
  exists ps a,
    get_pillars fs r = Ok ps
    /\ foldl (main_step r false) (Ok (true, fs)) ps = Ok (a, fs')
    /\ code = 0.
Proof.
  rewrite main_fold. destruct (get_pillars fs r) as [ps|e]; [|done].
  cbn [mbind result_bind].
  destruct (foldl (main_step r false) (Ok (true, fs)) ps) as [[a fs1]|e] eqn:Hf; [|done].
  cbn [mbind result_bind andb]. intros [= <- <-]. exists ps, a. by repeat split.
Qed.

End SyncRun.


(** X15: a run of [sync-manifests.py] with [--check] leaves the file system
    as it is and ends with status 0 or 1; the status is 0 exactly when the
    manifest of every pillar reads as the text generated for it. Every
    pillar is examined: the [Knowledge] folder of a pillar always exists. *)
Theorem sync_main_check (fs fs' : Fs.node) (r : Fs.path) (code : Z) :
  SyncManifests.main fs r true = Ok (code, fs') ->
  fs' = fs
  /\ (code = 0 \/ code = 1)
  /\ exists pillars,
       SyncManifests.get_pillars fs r = Ok pillars
       /\ (forall p, p ∈ pillars -> Fs.exists_ fs (r // p // "Knowledge") = true)
       /\ (code = 0 <-> forall p, p ∈ pillars -> manifest_in_sync fs r p).
Proof.
  rewrite main_fold. destruct (SyncManifests.get_pillars fs r) as [ps|e] eqn:Hps; [|done].
  cbn [mbind result_bind].
  destruct (foldl (main_step r true) (Ok (true, fs)) ps) as [[a fs1]|e] eqn:Hfold; [|done].
  cbn [mbind result_bind andb]. intros Hcode.
  apply check_fold_frame in Hfold as [-> Hiff].
  assert (fs' = fs /\ code = if a then 0 else 1) as [-> ->]
    by (destruct a; injection Hcode as <- <-; done).
  split; [done|]. split; [destruct a; tauto|].
  exists ps. split; [done|]. split; [intros p; by apply sync_pillar_exists|].
  split.
  - intros Hc p Hp. assert (a = true) as Ha by (by destruct a).
    apply Hiff in Ha as [_ Hall]. apply Hall; [done|].
    by apply (sync_pillar_exists r fs ps).
  - intros Hall. assert (a = true) as ->; [|done].
    apply Hiff. split; [done|]. intros p Hp _. by apply Hall.
Qed.

Lemma sync_main_check_witness :
  mixed_fs = mixed_fs
  /\ (1 = 0 \/ 1 = 1)
  /\ exists pillars,
       SyncManifests.get_pillars mixed_fs ["vault"] = Ok pillars
       /\ (forall p, p ∈ pillars -> Fs.exists_ mixed_fs (["vault"] // p // "Knowledge") = true)
       /\ (1 = 0 <-> forall p, p ∈ pillars -> manifest_in_sync mixed_fs ["vault"] p).
Proof. apply (sync_main_check mixed_fs mixed_fs ["vault"] 1). reflexivity. Defined.

(** X16: a successful run of [sync-manifests.py] without [--check] ends with
    status 0 and changes nothing but manifests: the pillars, the notes of
    every [Knowledge] folder and every path that is neither the manifest
    of a folder [<root>/<name>/Knowledge] nor a folder above one are as
    before. *)
Theorem sync_main_write (fs fs' : Fs.node) (r : Fs.path) (code : Z) :
  SyncManifests.main fs r false = Ok (code, fs') ->
  code = 0
  /\ SyncManifests.get_pillars fs' r = SyncManifests.get_pillars fs r
  /\ (forall n, notes fs' (r // n // "Knowledge") = notes fs (r // n // "Knowledge"))
  /\ (forall q, (forall p, ~ q `prefix_of` manifest_of r p
                           /\ ~ manifest_of r p `prefix_of` q) ->
                Fs.resolve fs' q = Fs.resolve fs q).
Proof.
  intros Hm. apply write_run in Hm as (ps & a & Hps & Hfold & ->).
  assert (same_vault r fs fs') as Hsv.
  { clear Hps. revert Hfold. generalize true. revert fs.
    induction ps as [|p ps IH]; intros fs a0 Hfold.
    - injection Hfold as <- <-. apply same_vault_refl.
    - cbn [foldl] in Hfold.
      destruct (main_step r false (Ok (a0, fs)) p) as [[a1 fs1]|e] eqn:Hstep;
        [|by rewrite main_fold_raise in Hfold].
      apply main_step_inv in Hstep as [(Hex & -> & ->) | (Hex & b & Hu & ->)].
      + by apply (IH _ _ Hfold).
      + apply (same_vault_trans r fs fs1 fs'); [|by apply (IH _ _ Hfold)].
        by apply update_manifest_same_vault in Hu. }
  split; [done|]. split; [|split].
  - rewrite Hps. by apply (get_pillars_same_vault r fs fs').
  - intros n. by apply notes_same_vault.
  - by destruct Hsv as (_ & _ & _ & _ & _ & F).
Qed.

Lemma sync_main_write_witness :
  exists fs',
    SyncManifests.main mixed_fs ["vault"] false = Ok (0, fs')
    /\ SyncManifests.get_pillars fs' ["vault"] = SyncManifests.get_pillars mixed_fs ["vault"]
    /\ (forall n, notes fs' (["vault"] // n // "Knowledge")
                  = notes mixed_fs (["vault"] // n // "Knowledge"))
    /\ (forall q, (forall p, ~ q `prefix_of` manifest_of ["vault"] p
                             /\ ~ manifest_of ["vault"] p `prefix_of` q) ->
                  Fs.resolve fs' q = Fs.resolve mixed_fs q).
Proof.
  destruct (SyncManifests.main mixed_fs ["vault"] false) as [[c fs']|e] eqn:Hm;
    [|by vm_compute in Hm].
  destruct (sync_main_write mixed_fs fs' ["vault"] c Hm) as (-> & H).
  by exists fs'.
Defined.

(** X17: running [sync-manifests.py] brings the vault in sync: when no stem
    of a note of a pillar holds a carriage return, then after a successful
    run without [--check] a run with [--check] ends with status 0, and a
    second run without [--check] changes nothing. *)
Theorem sync_main_then_check (fs fs' : Fs.node) (r : Fs.path) (code : Z)
    (pillars : list string) :
  SyncManifests.main fs r false = Ok (code, fs') ->
  SyncManifests.get_pillars fs r = Ok pillars ->
  (forall p f, p ∈ pillars -> f ∈ notes fs (r // p // "Knowledge") ->
               char_in Py.CR (Fs.stem f) = false) ->
  SyncManifests.main fs' r true = Ok (0, fs')
  /\ SyncManifests.main fs' r false = Ok (0, fs')
  /\ forall p, p ∈ pillars -> manifest_in_sync fs' r p.
Proof.
  intros Hm Hps Hcr. apply write_run in Hm as (ps & a & Hps' & Hfold & _).
  assert (ps = pillars) as -> by congruence.
  destruct (write_run_fold r pillars fs true fs' a (fun _ => False) Hfold Hcr)
    as [Hsv Hsync]; [done|].
  pose proof (get_pillars_same_vault r fs fs' pillars Hsv Hps) as Hps1.
  assert (forall p, p ∈ pillars -> manifest_in_sync fs' r p) as Hall.
  { intros p Hp. apply Hsync; [by right|]. by apply (sync_pillar_exists r fs' pillars). }
  split; [|split; [|done]].
  - rewrite main_fold, Hps1. cbn [mbind result_bind].
    rewrite synced_run_fold; [done|]. intros p Hp _. by apply Hall.
  - rewrite main_fold, Hps1. cbn [mbind result_bind].
    rewrite synced_run_fold; [done|]. intros p Hp _. by apply Hall.
Qed.

Lemma sync_main_then_check_witness :
  exists fs',
    SyncManifests.main mixed_fs ["vault"] false = Ok (0, fs')
    /\ SyncManifests.main fs' ["vault"] true = Ok (0, fs')
    /\ SyncManifests.main fs' ["vault"] false = Ok (0, fs')
    /\ forall p, p ∈ ["Home"; "Work"] -> manifest_in_sync fs' ["vault"] p.
Proof.
  destruct (SyncManifests.main mixed_fs ["vault"] false) as [[c fs']|e] eqn:Hm;
    [|by vm_compute in Hm].
  assert (c = 0) as -> by (vm_compute in Hm; congruence).
  exists fs'. split; [reflexivity|].
  apply (sync_main_then_check mixed_fs fs' ["vault"] 0 ["Home"; "Work"] Hm);
    [reflexivity|].
  intros p f Hp Hf.
  apply elem_of_cons in Hp as [->|Hp]; [|apply elem_of_cons in Hp as [->|Hp]].
  - vm_compute in Hf.
    repeat (apply elem_of_cons in Hf as [->|Hf]; [reflexivity|]).
    by apply elem_of_nil in Hf.
  - vm_compute in Hf.
    repeat (apply elem_of_cons in Hf as [->|Hf]; [reflexivity|]).
    by apply elem_of_nil in Hf.
  - by apply elem_of_nil in Hp.
Defined.

(** X18: the two scripts fit together: when every stem of a note of a pillar
    can be carried by a wiki link, then after a successful run of
    [sync-manifests.py] without [--check] the manifest check of
    [vault-cleaner.py] finds no pillar to report. *)
Theorem sync_main_then_cleaner (fs fs' : Fs.node) (r : Fs.path) (code : Z)
    (pillars : list string) :
  SyncManifests.main fs r false = Ok (code, fs') ->
  SyncManifests.get_pillars fs r = Ok pillars ->
  (forall p f, p ∈ pillars -> f ∈ notes fs (r // p // "Knowledge") ->
               link_safe (Fs.stem f)) ->
  VaultCleaner.check_manifest_sync fs' r = Ok [].
Proof.
  intros Hm Hps Hsafe. apply write_run in Hm as (ps & a & Hps' & Hfold & _).
  assert (ps = pillars) as -> by congruence.
  destruct (write_run_fold r pillars fs true fs' a (fun _ => False) Hfold)
    as [Hsv Hsync]; [|done|].
  { intros p f Hp Hf. by destruct (Hsafe p f Hp Hf) as (_ & ? & _). }
  pose proof (get_pillars_same_vault r fs fs' pillars Hsv Hps) as Hps1.
  pose proof (get_pillars_is_dir_sync _ _ _ Hps1) as Hd.
  pose proof (cleaner_get_pillars_names fs' r Hd) as Hqs.
  rewrite (check_manifest_sync_spec _ _ _ Hqs). f_equal.
  apply no_drift_fold. intros q Hq.
  destruct (Fs.exists_ fs' (r // q // "Knowledge")) eqn:Hk.
  - pose proof (cleaner_pillar_sync r fs' pillars _ q Hps1 Hqs Hq Hk) as Hin.
    apply drift_of_in_sync, in_sync_parse.
    + apply Hsync; [by right|done].
    + intros f Hf. rewrite (notes_same_vault r fs fs' q Hsv) in Hf.
      by apply (Hsafe q).
  - unfold drift_of. by rewrite Hk.
Qed.

Lemma sync_main_then_cleaner_witness :
  exists fs',
    SyncManifests.main mixed_fs ["vault"] false = Ok (0, fs')
    /\ VaultCleaner.check_manifest_sync fs' ["vault"] = Ok [].
Proof.
  destruct (SyncManifests.main mixed_fs ["vault"] false) as [[c fs']|e] eqn:Hm;
    [|by vm_compute in Hm].
  assert (c = 0) as -> by (vm_compute in Hm; congruence).
  exists fs'. split; [reflexivity|].
  apply (sync_main_then_cleaner mixed_fs fs' ["vault"] 0 ["Home"; "Work"] Hm);
    [reflexivity|].
  intros p f Hp Hf.
  apply elem_of_cons in Hp as [->|Hp]; [|apply elem_of_cons in Hp as [->|Hp]].
  - vm_compute in Hf.
    repeat (apply elem_of_cons in Hf as [->|Hf]; [by vm_compute|]).
    by apply elem_of_nil in Hf.
  - vm_compute in Hf.
    repeat (apply elem_of_cons in Hf as [->|Hf]; [by vm_compute|]).
    by apply elem_of_nil in Hf.
  - by apply elem_of_nil in Hp.
Defined.

(** ** The findings in the issue body *)

Section IssueFindings.
Import VaultCleaner.

Lemma manifest_blocks_elem (issues : dict ManifestIssue) (init : list string) :
  let res :=
    foldl (fun lines '(pillar, issues) =>
             let lines :=
               lines ++ ["### " +:+ pillar +:+ "/Knowledge/MANIFEST.md"; ""] in
             let lines :=
               lines ++ map (fun name => "- Add: `[[" +:+ name +:+ "]]`") (add issues) in
             let lines :=
               lines ++ map (fun name => "- Remove: `[[" +:+ name +:+ "]]`")
                            (remove issues) in
             lines ++ [""])
          init issues in
  (forall l, l ∈ init -> l ∈ res)
  /\ (forall pillar issue,
        (pillar, issue) ∈ issues ->
        ("### " +:+ pillar +:+ "/Knowledge/MANIFEST.md") ∈ res
        /\ (forall name, name ∈ add issue -> ("- Add: `[[" +:+ name +:+ "]]`") ∈ res)
        /\ (forall name, name ∈ remove issue ->
                         ("- Remove: `[[" +:+ name +:+ "]]`") ∈ res)).
Proof.
  cbv zeta. revert init.
  induction issues as [|[p0 i0] issues IH]; intros init.
  - split; [done|]. intros pillar issue H. by apply elem_of_nil in H.
  - cbn [foldl]. cbv zeta.
    match goal with
    | |- context [foldl ?f ?init' issues] => destruct (IH init') as [Hinit Hrest]
    end.
    split.
    + intros l Hl. apply Hinit. rewrite !elem_of_app. tauto.
    + intros pillar issue [[= -> ->]|Hin]%elem_of_cons; [|by apply Hrest].
      split; [|split].
      * apply Hinit. rewrite !elem_of_app, !elem_of_cons. tauto.
      * intros name Hn. apply Hinit. rewrite !elem_of_app.
        left. left. right. apply list_elem_of_In.
        apply (in_map (fun name => "- Add: `[[" +:+ name +:+ "]]`")).
        by apply list_elem_of_In.
      * intros name Hn. apply Hinit. rewrite !elem_of_app.
        left. right. apply list_elem_of_In.
        apply (in_map (fun name => "- Remove: `[[" +:+ name +:+ "]]`")).
        by apply list_elem_of_In.
Qed.

Lemma item_blocks_elem (folder : string) (items : dict (list FileItem))
    (init : list string) :
  let res :=
    foldl (fun lines '(pillar, items) =>
             let lines := lines ++ ["### " +:+ pillar +:+ folder; ""] in
             let lines :=
               lines ++ map (fun item =>
                               "- `" +:+ item_name item +:+ "` ("
                                 +:+ Py.str (age_days item) +:+ " days)")
                            items in
             lines ++ [""])
          init items in
  (forall l, l ∈ init -> l ∈ res)
  /\ (forall pillar its,
        (pillar, its) ∈ items ->
        ("### " +:+ pillar +:+ folder) ∈ res
        /\ (forall item, item ∈ its ->
              ("- `" +:+ item_name item +:+ "` ("
                 +:+ Py.str (age_days item) +:+ " days)") ∈ res)).
Proof.
  cbv zeta. revert init.
  induction items as [|[p0 i0] items IH]; intros init.
  - split; [done|]. intros pillar its H. by apply elem_of_nil in H.
  - cbn [foldl]. cbv zeta.
    match goal with
    | |- context [foldl ?f ?init' items] => destruct (IH init') as [Hinit Hrest]
    end.
    split.
    + intros l Hl. apply Hinit. rewrite !elem_of_app. tauto.
    + intros pillar its [[= -> ->]|Hin]%elem_of_cons; [|by apply Hrest].
      split.
      * apply Hinit. rewrite !elem_of_app, !elem_of_cons. tauto.
      * intros item Hn. apply Hinit. rewrite !elem_of_app.
        left. right.
        apply list_elem_of_In.
        apply (in_map (fun item => "- `" +:+ item_name item +:+ "` ("
                                     +:+ Py.str (age_days item) +:+ " days)")).
        by apply list_elem_of_In.
Qed.

End IssueFindings.

Ltac dig_lines tac :=
  first
    [ solve [tac]
    | apply elem_of_app; left; dig_lines tac
    | apply manifest_blocks_elem; dig_lines tac
    | apply (item_blocks_elem "/Inbox/"); dig_lines tac
    | apply (item_blocks_elem "/Projects/"); dig_lines tac ].

(** X21: the issue body names every finding: each pillar of the three
    reports has its heading, and each name to add or to remove and each
    aged file has its bullet line, among the lines of the body. *)
Theorem issue_body_lists_findings (manifest_issues : dict VaultCleaner.ManifestIssue)
    (inbox_items stale_projects : dict (list VaultCleaner.FileItem)) :
  let lines :=
    VaultCleaner.generate_issue_lines manifest_issues inbox_items stale_projects in
  let bullet := fun item =>
    "- `" +:+ VaultCleaner.item_name item +:+ "` ("
      +:+ Py.str (VaultCleaner.age_days item) +:+ " days)" in
  (forall pillar issue,
     (pillar, issue) ∈ manifest_issues ->
     ("### " +:+ pillar +:+ "/Knowledge/MANIFEST.md") ∈ lines
     /\ (forall name, name ∈ VaultCleaner.add issue ->
                      ("- Add: `[[" +:+ name +:+ "]]`") ∈ lines)
     /\ (forall name, name ∈ VaultCleaner.remove issue ->
                      ("- Remove: `[[" +:+ name +:+ "]]`") ∈ lines))
  /\ (forall pillar items,
        (pillar, items) ∈ inbox_items ->
        ("### " +:+ pillar +:+ "/Inbox/") ∈ lines
        /\ forall item, item ∈ items -> bullet item ∈ lines)
  /\ (forall pillar items,
        (pillar, items) ∈ stale_projects ->
        ("### " +:+ pillar +:+ "/Projects/") ∈ lines
        /\ forall item, item ∈ items -> bullet item ∈ lines).
Proof.
  cbv zeta. split; [|split].
  - intros pillar issue Hin.
    assert (truthy manifest_issues = true) as Ht by (by destruct manifest_issues; [apply elem_of_nil in Hin|]).
    unfold VaultCleaner.generate_issue_lines. rewrite Ht.
    destruct (truthy inbox_items), (truthy stale_projects); cbv zeta;
      (split; [|split]); intros;
      dig_lines ltac:(eapply manifest_blocks_elem; eassumption).
  - intros pillar items Hin.
    assert (truthy inbox_items = true) as Ht by (by destruct inbox_items; [apply elem_of_nil in Hin|]).
    unfold VaultCleaner.generate_issue_lines. rewrite Ht.
    destruct (truthy manifest_issues), (truthy stale_projects); cbv zeta;
      split; intros;
      dig_lines ltac:(eapply (item_blocks_elem "/Inbox/"); eassumption).
  - intros pillar items Hin.
    assert (truthy stale_projects = true) as Ht by (by destruct stale_projects; [apply elem_of_nil in Hin|]).
    unfold VaultCleaner.generate_issue_lines. rewrite Ht.
    destruct (truthy manifest_issues), (truthy inbox_items); cbv zeta;
      split; intros;
      dig_lines ltac:(eapply (item_blocks_elem "/Projects/"); eassumption).
Qed.

(** ** A run of [vault-cleaner.py] *)

Section CleanerRun.
Import Fs VaultCleaner.

Lemma truthy_dict_set {V} k (v : V) d : truthy (dict_set k v d) = true.
Proof. destruct d as [|[k' v'] d]; [done|]. cbn. by destruct (String.eqb k' k). Qed.

Lemma truthy_false {A} (l : list A) : truthy l = false <-> l = [].
Proof. by destruct l. Qed.

Lemma drift_fold_empty fs r ps acc :
  foldl (record_drift fs r) acc ps = []
  <-> acc = [] /\ forall p, p ∈ ps -> drift_of fs r p = None.
Proof.
  revert acc. induction ps as [|p ps IH]; intros acc.
  - cbn [foldl]. split; [|tauto]. intros ->. split; [done|].
    intros p Hp. by apply elem_of_nil in Hp.
  - cbn [foldl]. rewrite IH. unfold record_drift at 1. split.
    + intros [Hacc Hall]. destruct (drift_of fs r p) eqn:Hd.
      * apply truthy_false in Hacc. by rewrite truthy_dict_set in Hacc.
      * split; [done|]. intros q [->|Hq]%elem_of_cons; [done|by apply Hall].
    + intros [-> Hall]. rewrite (Hall p) by (apply elem_of_cons; by left).
      split; [done|]. intros q Hq. apply Hall. apply elem_of_cons. by right.
Qed.

Lemma report_fold_empty w r folder threshold ps acc :
  foldl (record_report w r folder threshold) acc ps = []
  <-> acc = [] /\ forall p, p ∈ ps -> folder_report w r folder threshold p = None.
Proof.
  revert acc. induction ps as [|p ps IH]; intros acc.
  - cbn [foldl]. split; [|tauto]. intros ->. split; [done|].
    intros p Hp. by apply elem_of_nil in Hp.
  - cbn [foldl]. rewrite IH. unfold record_report at 1. split.
    + intros [Hacc Hall]. destruct (folder_report w r folder threshold p) eqn:Hd.
      * apply truthy_false in Hacc. by rewrite truthy_dict_set in Hacc.
      * split; [done|]. intros q [->|Hq]%elem_of_cons; [done|by apply Hall].
    + intros [-> Hall]. rewrite (Hall p) by (apply elem_of_cons; by left).
      split; [done|]. intros q Hq. apply Hall. apply elem_of_cons. by right.
Qed.

Lemma drift_of_None fs r p :
  drift_of fs r p = None
  <-> (exists_ fs (r // p // "Knowledge") = true ->
       parse_manifest fs (r // p // "Knowledge" // "MANIFEST.md")
       = get_actual_files fs (r // p // "Knowledge")).
Proof.
  unfold drift_of. destruct (exists_ fs (r // p // "Knowledge")); [|by split].
  set (M := parse_manifest _ _). set (A := get_actual_files _ _).
  destruct (decide (M = A)) as [->|Hne].
  - rewrite difference_diag_L, elements_empty. by split.
  - pose proof Hne as [H|H]%sets_differ; apply truthy_elements in H; rewrite H.
    + rewrite orb_true_r. split; [done|]. intros HMA. by destruct Hne; apply HMA.
    + rewrite orb_true_l. split; [done|]. intros HMA. by destruct Hne; apply HMA.
Qed.

Lemma folder_report_None w r folder threshold p :
  folder_report w r folder threshold p = None
  <-> forall f, f ∈ glob_md (fs w) (r // p // folder) -> age_of w r f < threshold.
Proof.
  unfold folder_report. destruct (exists_ (fs w) (r // p // folder)) eqn:Hex.
  - destruct (aged w r threshold (glob_md (fs w) (r // p // folder))) as [|i is_] eqn:Ha.
    + split; [|done]. intros _ f Hf.
      destruct (Z.lt_ge_cases (age_of w r f) threshold) as [|Hge]; [done|].
      assert (item_of w r f ∈ aged w r threshold (glob_md (fs w) (r // p // folder))) as Hin
        by (apply elem_of_aged; by exists f).
      rewrite Ha in Hin. by apply elem_of_nil in Hin.
    + split; [done|]. intros Hall.
      assert (i ∈ aged w r threshold (glob_md (fs w) (r // p // folder))) as Hin
        by (rewrite Ha; apply elem_of_cons; by left).
      apply elem_of_aged in Hin as (f & Hf & Hage & _). specialize (Hall f Hf). lia.
  - split; [|done]. intros _ f Hf. by rewrite (glob_md_missing _ _ Hex) in Hf; apply elem_of_nil in Hf.
Qed.

Lemma append_text_dir es c p txt :
  append_text (Dir es) (c :: p) txt
  = es' ← alter_entry c
            (fun o =>
               match o with
               | Some m => append_text m p txt
               | None =>
                   match p with
                   | [] => Ok (File (Some txt))
                   | _ :: _ => Raise FileNotFoundError
                   end
               end) es;
    Ok (Dir es').
Proof. reflexivity. Qed.

Lemma append_text_spec p :
  forall fs fs' txt,
    append_text fs p txt = Ok fs' ->
    resolve fs' p = match resolve fs p with
                    | Some (File (Some t)) => Some (File (Some (t +:+ txt)))
                    | Some n => Some n
                    | None => Some (File (Some txt))
                    end.
Proof.
  induction p as [|c p IH]; intros fs fs' txt Ha.
  - destruct fs as [[t|]|es|h]; cbn in Ha |- *; congruence.
  - destruct fs as [t|es|h]; [done| |done]. rewrite append_text_dir in Ha.
    match type of Ha with
    | context [alter_entry c ?F es] =>
        destruct (alter_entry c F es) as [es'|e] eqn:Hes; [|done]
    end.
    injection Ha as <-.
    apply alter_entry_spec in Hes as (n' & HF & Hc & _ & _).
    cbn [resolve]. rewrite Hc.
    destruct (lookup_entry c es) as [m|] eqn:Hm; [by apply IH|].
    destruct p; [|done]. by injection HF as <-.
Qed.

Lemma append_text_frame p :
  forall fs fs' txt q,
    append_text fs p txt = Ok fs' ->
    ~ q `prefix_of` p -> ~ p `prefix_of` q ->
    resolve fs' q = resolve fs q.
Proof.
  induction p as [|c p IH]; intros fs fs' txt q Hw Hqp Hpq.
  - destruct Hpq. by exists q.
  - destruct q as [|d q]; [destruct Hqp; by eexists|].
    destruct fs as [t|es|h]; [done| |done]. rewrite append_text_dir in Hw.
    match type of Hw with
    | context [alter_entry c ?F es] =>
        destruct (alter_entry c F es) as [es'|e] eqn:Ha; [|done]
    end.
    injection Hw as <-.
    apply alter_entry_spec in Ha as (n' & HF & Hc & Hother & _).
    cbn [resolve]. destruct (decide (d = c)) as [->|Hd].
    + rewrite Hc. destruct (lookup_entry c es) as [m|] eqn:Hm.
      * apply (IH m n' txt q HF).
        -- intros [k ->]. apply Hqp. by exists k.
        -- intros [k ->]. apply Hpq. by exists k.
      * destruct p; [|done]. destruct Hpq. by exists q.
    + by rewrite Hother.
Qed.

Lemma cleaner_main_inv w r o :
  main w r = Ok o ->
  exists m i s before,
    check_manifest_sync (fs w) r = Ok m
    /\ check_inbox_items w r = Ok i
    /\ check_stale_projects w r = Ok s
    /\ has_tasks o = truthy m || truthy i || truthy s
    /\ (if has_tasks o
        then write_text (fs w) (r // "cleaning-tasks.md") (generate_issue_body m i s)
             = Ok before
        else before = fs w)
    /\ set_github_output w before "has_tasks" (if has_tasks o then "true" else "false")
       = Ok (fs_after o).
Proof.
  unfold main.
  destruct (check_manifest_sync (fs w) r) as [m|e]; [|done].
  destruct (check_inbox_items w r) as [i|e]; [|done].
  destruct (check_stale_projects w r) as [s|e]; [|done].
  cbn [mbind result_bind].
  destruct (truthy m || truthy i || truthy s) eqn:Ht.
  - destruct (write_text (fs w) (r // "cleaning-tasks.md") (generate_issue_body m i s))
      as [fs'|e] eqn:Hw; [|done].
    cbn [mbind result_bind].
    destruct (set_github_output w fs' "has_tasks" (Py.lower (Py.str_bool true)))
      as [fs''|e] eqn:Hg; [|done].
    cbn [mbind result_bind]. intros [= <-]. exists m, i, s, fs'. cbn. by repeat split.
  - cbn [mbind result_bind].
    destruct (set_github_output w (fs w) "has_tasks" (Py.lower (Py.str_bool false)))
      as [fs''|e] eqn:Hg; [|done].
    cbn [mbind result_bind]. intros [= <-]. exists m, i, s, (fs w). cbn. by repeat split.
Qed.

End CleanerRun.

(** X22: what a successful run of [vault-cleaner.py] leaves. The flag
    [has_tasks] tells whether one of the three checks found something. The
    run works in two steps. First the report: without tasks nothing is
    written; with tasks the file [cleaning-tasks.md] at the vault root then
    holds the issue body generated from the three reports, and every path
    that is neither that file nor a folder above it resolves as before.
    Then the output variable: when [GITHUB_OUTPUT] names no file, nothing
    more is written; when it names a file, the line [has_tasks=true] or
    [has_tasks=false] is added at the end of that file, which is created
    with that line when it does not exist and keeps its state when its
    content is no text, and every path that is neither that file nor a
    folder above it resolves as after the first step. *)
Theorem cleaner_main_outcome (w : VaultCleaner.world) (r : Fs.path)
    (o : VaultCleaner.outcome) :
  VaultCleaner.main w r = Ok o ->
  exists m i s reported,
    VaultCleaner.check_manifest_sync (VaultCleaner.fs w) r = Ok m
    /\ VaultCleaner.check_inbox_items w r = Ok i
    /\ VaultCleaner.check_stale_projects w r = Ok s
    /\ VaultCleaner.has_tasks o = truthy m || truthy i || truthy s
    /\ (VaultCleaner.has_tasks o = false -> reported = VaultCleaner.fs w)
    /\ (VaultCleaner.has_tasks o = true ->
        Fs.resolve reported (r // "cleaning-tasks.md")
        = Some (Fs.File (Some (VaultCleaner.generate_issue_body m i s)))
        /\ forall q, ~ q `prefix_of` r // "cleaning-tasks.md" ->
                     ~ r // "cleaning-tasks.md" `prefix_of` q ->
                     Fs.resolve reported q = Fs.resolve (VaultCleaner.fs w) q)
    /\ (VaultCleaner.github_output w = None -> VaultCleaner.fs_after o = reported)
    /\ (forall g, VaultCleaner.github_output w = Some g ->
        let line := "has_tasks="
                    +:+ (if VaultCleaner.has_tasks o then "true" else "false")
                    +:+ String Py.LF "" in
        Fs.resolve (VaultCleaner.fs_after o) g
        = match Fs.resolve reported g with
          | Some (Fs.File (Some t)) => Some (Fs.File (Some (t +:+ line)))
          | Some n => Some n
          | None => Some (Fs.File (Some line))
          end
        /\ forall q, ~ q `prefix_of` g -> ~ g `prefix_of` q ->
                     Fs.resolve (VaultCleaner.fs_after o) q = Fs.resolve reported q).
Proof.
  intros Hm.
  apply cleaner_main_inv in Hm as (m & i & s & before & H1 & H2 & H3 & Ht & Hw & Hg).
  exists m, i, s, before. repeat (split; [done|]).
  split; [|split; [|split]].
  - intros Hf. by rewrite Hf in Hw.
  - intros Htrue. rewrite Htrue in Hw. split.
    + by apply write_text_spec in Hw as [H _].
    + intros q Hq1 Hq2. by apply (write_text_frame _ _ _ _ _ Hw).
  - intros Hnone. unfold VaultCleaner.set_github_output in Hg.
    rewrite Hnone in Hg. by injection Hg.
  - intros g Hsome line. unfold VaultCleaner.set_github_output in Hg.
    rewrite Hsome in Hg.
    assert ("has_tasks" +:+ "=" +:+ (if VaultCleaner.has_tasks o then "true" else "false") +:+ "
" = line) as Hline by (subst line; by destruct (VaultCleaner.has_tasks o)).
    rewrite Hline in Hg. split.
    + by apply append_text_spec.
    + intros q Hq1 Hq2. by apply (append_text_frame _ _ _ _ _ Hg).
Qed.

Lemma cleaner_main_outcome_witness :
  exists o i s,
    VaultCleaner.main runner_world ["vault"] = Ok o
    /\ VaultCleaner.check_manifest_sync runner_fs ["vault"] = Ok []
    /\ VaultCleaner.check_inbox_items runner_world ["vault"] = Ok i
    /\ VaultCleaner.check_stale_projects runner_world ["vault"] = Ok s
    /\ VaultCleaner.has_tasks o = true
    /\ Fs.resolve (VaultCleaner.fs_after o) ["vault"; "cleaning-tasks.md"]
       = Some (Fs.File (Some (VaultCleaner.generate_issue_body [] i s)))
    /\ Fs.resolve (VaultCleaner.fs_after o) ["runner"; "output"]
       = Some (Fs.File (Some "step=1
has_tasks=true
"))
    /\ Fs.resolve (VaultCleaner.fs_after o) ["vault"; "P"; "Inbox"; "a.md"]
       = Some (Fs.File (Some "three days")).
Proof.
  destruct (VaultCleaner.main runner_world ["vault"]) as [o|e] eqn:Hm;
    [|by vm_compute in Hm].
  destruct (cleaner_main_outcome runner_world ["vault"] o Hm)
    as (m & i & s & reported & H1 & H2 & H3 & Ht & _ & Hw & _ & Hg).
  assert (m = []) as -> by (vm_compute in H1; congruence).
  assert (truthy i = true) as Hi.
  { destruct i; [by vm_compute in H2|done]. }
  rewrite Hi in Ht. cbn in Ht.
  destruct (Hw Ht) as [Hbody Hrest].
  destruct (Hg ["runner"; "output"] eq_refl) as [Hout Hframe].
  exists o, i, s. repeat (split; [done|]).
  split; [|split].
  - etransitivity; [|exact Hbody]. apply Hframe; by intros [k [=]].
  - rewrite Hout, Hrest, Ht; [reflexivity|by intros [k [=]]..].
  - etransitivity; [apply Hframe; by intros [k [=]]|].
    etransitivity; [apply Hrest; by intros [k [=]]|]. reflexivity.
Defined.

(** X23: when [vault-cleaner.py] finds the vault tidy. A successful run
    reports no task exactly when, for every pillar, the entries read from
    the manifest are the stems of the notes of its [Knowledge] folder (if
    it has one), no [*.md] entry of its [Inbox] is three days old and no
    [*.md] entry of its [Projects] is thirty days old. *)
Theorem cleaner_main_tidy (w : VaultCleaner.world) (r : Fs.path)
    (o : VaultCleaner.outcome) (pillars : list string) :
  VaultCleaner.main w r = Ok o ->
  VaultCleaner.get_pillars (VaultCleaner.fs w) r = Ok pillars ->
  VaultCleaner.has_tasks o = false
  <-> forall p, p ∈ pillars ->
        (Fs.exists_ (VaultCleaner.fs w) (r // p // "Knowledge") = true ->
         VaultCleaner.parse_manifest (VaultCleaner.fs w)
           (r // p // "Knowledge" // "MANIFEST.md")
         = VaultCleaner.get_actual_files (VaultCleaner.fs w) (r // p // "Knowledge"))
        /\ (forall f, f ∈ Fs.glob_md (VaultCleaner.fs w) (r // p // "Inbox") ->
                      age_of w r f < 3)
        /\ (forall f, f ∈ Fs.glob_md (VaultCleaner.fs w) (r // p // "Projects") ->
                      age_of w r f < 30).
Proof.
  intros Hm Hp. apply cleaner_main_inv in Hm as (m & i & s & before & H1 & H2 & H3 & -> & _).
  rewrite (check_manifest_sync_spec _ _ _ Hp) in H1. injection H1 as <-.
  rewrite check_inbox_items_folder, (check_folder_spec _ _ _ _ _ Hp) in H2.
  injection H2 as <-.
  rewrite check_stale_projects_folder, (check_folder_spec _ _ _ _ _ Hp) in H3.
  injection H3 as <-.
  rewrite !orb_false_iff, !truthy_false.
  rewrite drift_fold_empty, !report_fold_empty.
  setoid_rewrite drift_of_None. setoid_rewrite folder_report_None.
  split.
  - intros [[[_ Hd] [_ Hi]] [_ Hs]] p Hin. split; [by apply Hd|]. split; [by apply Hi|by apply Hs].
  - intros Hall. repeat split; try done; intros p Hin; by apply (Hall p Hin).
Qed.

Lemma cleaner_main_tidy_witness :
  false = false
  <-> forall p, p ∈ ["Work"] ->
        (Fs.exists_ stray_fs (["vault"] // p // "Knowledge") = true ->
         VaultCleaner.parse_manifest stray_fs (["vault"] // p // "Knowledge" // "MANIFEST.md")
         = VaultCleaner.get_actual_files stray_fs (["vault"] // p // "Knowledge"))
        /\ (forall f, f ∈ Fs.glob_md stray_fs (["vault"] // p // "Inbox") ->
                      age_of stray_world ["vault"] f < 3)
        /\ (forall f, f ∈ Fs.glob_md stray_fs (["vault"] // p // "Projects") ->
                      age_of stray_world ["vault"] f < 30).
Proof.
  apply (cleaner_main_tidy stray_world ["vault"]
           {| VaultCleaner.has_tasks := false; VaultCleaner.fs_after := stray_fs |}
           ["Work"]); reflexivity.
Defined.

(** ** Decimal numerals *)

Lemma digit_pretty_N_char d : (d < 10)%N -> Py.digit (pretty_N_char d) = Some (Z.of_N d).
Proof.
  intros Hd.
  assert (d = 0 \/ d = 1 \/ d = 2 \/ d = 3 \/ d = 4 \/ d = 5 \/ d = 6 \/ d = 7
          \/ d = 8 \/ d = 9)%N as H by lia.
  repeat (destruct H as [->|H]; [reflexivity|]). by subst.
Qed.

Lemma all_digits_app s t : all_digits (s +:+ t) = all_digits s && all_digits t.
Proof.
  induction s as [|c s IH]; [done|]. cbn [String.append all_digits].
  by destruct (Py.digit c).
Qed.


(** The numeral that [pretty] prints for a positive number. *)
Lemma pretty_N_go_digits x :
  (0 < x)%N ->
  exists ds k,
    ds <> ""
    /\ all_digits ds = true
    /\ (forall s, pretty_N_go x s = ds +:+ s)
    /\ (forall s acc b,
          Py.int_digits (ds +:+ s) acc b = Py.int_digits s (acc * k + Z.of_N x) true).
Proof.
  induction (N.lt_wf_0 x) as [x _ IH]. intros Hx.
  assert (x `mod` 10 < 10)%N as Hmod by (apply N.mod_lt; lia).
  pose proof (N.div_mod x 10 ltac:(lia)) as Hdm.
  destruct (decide (x `div` 10 = 0)%N) as [Hz|Hnz].
  - exists (String (pretty_N_char (x `mod` 10)) ""), 10. split; [done|].
    split; [cbn; by rewrite digit_pretty_N_char|]. split.
    + intros s. by rewrite pretty_N_go_step, Hz, pretty_N_go_0 by done.
    + intros s acc b. cbn [String.append Py.int_digits].
      rewrite digit_pretty_N_char by done. f_equal. lia.
  - destruct (IH (x `div` 10)%N) as (ds & k & Hne & Hd & Hgo & Hint).
    { apply N.div_lt; lia. }
    { lia. }
    exists (ds +:+ String (pretty_N_char (x `mod` 10)) ""), (10 * k).
    split; [by destruct ds|].
    split; [rewrite all_digits_app, Hd; cbn; by rewrite digit_pretty_N_char|]. split.
    + intros s. by rewrite pretty_N_go_step, Hgo, append_assoc by done.
    + intros s acc b. rewrite append_assoc, Hint. cbn [String.append Py.int_digits].
      rewrite digit_pretty_N_char by done. f_equal. lia.
Qed.

(** A numeral holds no white space. *)
Lemma digit_not_space c d : Py.digit c = Some d -> Py.isspace c = false.
Proof.
  unfold Py.digit, Py.isspace.
  destruct (_ && _)%N eqn:E; [|done]. intros _.
  apply andb_true_iff in E as [E1 E2]. apply N.leb_le in E1. apply N.leb_le in E2.
  repeat match goal with
         | |- context [(?a <=? ?b)%N] => destruct (N.leb_spec a b); try lia
         | |- context [(?a =? ?b)%N] => destruct (N.eqb_spec a b); try lia
         end; done.
Qed.

Lemma lstrip_digits ds : all_digits ds = true -> Py.lstrip ds = ds.
Proof.
  destruct ds as [|c ds]; [done|]. cbn. destruct (Py.digit c) eqn:E; [|done].
  by rewrite (digit_not_space _ _ E).
Qed.

Lemma rstrip_digits ds : all_digits ds = true -> Py.rstrip ds = ds.
Proof.
  induction ds as [|c ds IH]; [done|]. cbn [all_digits Py.rstrip].
  destruct (Py.digit c) eqn:E; [|done]. intros Hd. rewrite (IH Hd).
  destruct ds; [|done]. by rewrite (digit_not_space _ _ E).
Qed.

Lemma strip_digits ds : all_digits ds = true -> Py.strip ds = ds.
Proof. intros H. unfold Py.strip. by rewrite lstrip_digits, rstrip_digits. Qed.

Lemma int_unsigned c s :
  Py.digit c <> None ->
  Py.strip (String c s) = String c s ->
  Py.int (String c s) = Py.int_digits (String c s) 0 false.
Proof.
  intros Hc Hs. unfold Py.int. rewrite Hs.
  destruct c as [[] [] [] [] [] [] [] []]; try done.
Qed.

(** [int] reads back what [str] prints for a natural number, also when a
    line feed follows it. *)
Lemma int_str n :
  0 <= n -> Py.int (Py.strip (Py.str n +:+ String Py.LF "")) = Some n.
Proof.
  intros Hn. rewrite strip_app_space by done.
  destruct n as [|p|p]; [done| |lia].
  unfold Py.str, pretty, pretty_Z, pretty, pretty_positive, pretty, pretty_N.
  rewrite decide_False by done.
  destruct (pretty_N_go_digits (N.pos p)) as (ds & k & Hne & Hd & Hgo & Hint); [lia|].
  rewrite Hgo, append_nil_r, (strip_digits _ Hd).
  destruct ds as [|c ds]; [done|].
  rewrite int_unsigned.
  - rewrite <- (append_nil_r (String c ds)), Hint. cbn. f_equal; lia.
  - cbn in Hd. by destruct (Py.digit c).
  - by apply strip_digits.
Qed.

Lemma str_strip n : 0 <= n -> Py.strip (Py.str n +:+ String Py.LF "") = Py.str n.
Proof.
  intros Hn. rewrite strip_app_space by done.
  destruct n as [|p|p]; [done| |lia].
  unfold Py.str, pretty, pretty_Z, pretty, pretty_positive, pretty, pretty_N.
  rewrite decide_False by done.
  destruct (pretty_N_go_digits (N.pos p)) as (ds & k & Hne & Hd & Hgo & Hint); [lia|].
  rewrite Hgo, append_nil_r. by apply strip_digits.
Qed.

Lemma str_nonempty n : Py.str n <> "".
Proof.
  destruct n as [|p|p]; [done| |done].
  unfold Py.str, pretty, pretty_Z, pretty, pretty_positive, pretty, pretty_N.
  rewrite decide_False by done.
  destruct (pretty_N_go_digits (N.pos p)) as (ds & k & Hne & Hd & Hgo & Hint); [lia|].
  by rewrite Hgo, append_nil_r.
Qed.

Lemma all_digits_no_LF ds : all_digits ds = true -> char_in Py.LF ds = false.
Proof.
  induction ds as [|c ds IH]; [done|]. cbn [all_digits char_in].
  destruct (Py.digit c) eqn:E; [|done]. intros Hd. rewrite (IH Hd), orb_false_r.
  destruct (Ascii.eqb_spec c Py.LF) as [->|]; [done|done].
Qed.

Lemma str_no_LF n : char_in Py.LF (Py.str n) = false.
Proof.
  destruct n as [|p|p]; [done| |].
  - unfold Py.str, pretty, pretty_Z, pretty, pretty_positive, pretty, pretty_N.
    rewrite decide_False by done.
    destruct (pretty_N_go_digits (N.pos p)) as (ds & k & Hne & Hd & Hgo & Hint); [lia|].
    rewrite Hgo, append_nil_r. by apply all_digits_no_LF.
  - unfold Py.str, pretty, pretty_Z, pretty, pretty_positive, pretty, pretty_N.
    rewrite decide_False by done.
    destruct (pretty_N_go_digits (N.pos p)) as (ds & k & Hne & Hd & Hgo & Hint); [lia|].
    rewrite Hgo, append_nil_r. cbn. by apply all_digits_no_LF.
Qed.

(** ** The time stamp of a file *)

Section LastModifiedClaim.
Import Fs VaultCleaner.

Lemma git_success_numeral w f r p n d :
  git_log w f r = Ok p -> returncode p = 0 ->
  0 <= n -> stdout p = Py.str n +:+ String Py.LF "" ->
  local_time w (n * US_PER_SECOND) = Ok d ->
  git_success w f r d.
Proof.
  intros Hg Hrc Hn Hout Ht. apply (GitSuccess w f r d p n); try done.
  - rewrite Hout, (str_strip n Hn). apply str_nonempty.
  - rewrite Hout. by apply int_str.
Qed.

(** C8: [get_file_last_modified] never raises and always returns a time
    stamp. Every lookup in version control either succeeds or fails. It
    succeeds when the tool exits with status zero and prints a time stamp
    that the platform converts: in particular when it prints the decimal
    numeral of a number of seconds and a line feed, and then the local
    time of that commit time stamp is returned. It fails when the tool
    cannot be run, exits with another status or prints white space only,
    and also when its output is no number or a number out of range; on any
    failure the modification time of the file system is returned; and
    when that fails too the current time is returned, so that the age
    computed from it less than a day later is zero. *)
Theorem last_modified_resolution (w : world) (f r : path) :
  (exists d, get_file_last_modified w f r = Ok d)
  /\ ((exists d, git_success w f r d) \/ git_failure w f r)
  /\ (forall d, git_success w f r d -> get_file_last_modified w f r = Ok d)
  /\ (forall p n d,
        git_log w f r = Ok p -> returncode p = 0 ->
        0 <= n -> stdout p = Py.str n +:+ String Py.LF "" ->
        local_time w (n * US_PER_SECOND) = Ok d ->
        get_file_last_modified w f r = Ok d)
  /\ ((exists e, git_log w f r = Raise e)
      \/ (exists p, git_log w f r = Ok p
                    /\ (returncode p <> 0 \/ whitespace_only (stdout p))) ->
      git_failure w f r)
  /\ (forall m d,
        git_failure w f r -> stat_mtime w f = Ok m -> local_time w m = Ok d ->
        get_file_last_modified w f r = Ok d)
  /\ (git_failure w f r -> mtime_failure w f ->
      get_file_last_modified w f r = Ok (now w f InLastModified)
      /\ (now w f InLastModified <= now w f InDaysSince
            < now w f InLastModified + US_PER_DAY ->
          age_of w r f = 0)).
Proof.
  split; [apply last_modified_total|].
  split; [apply git_success_or_failure|].
  split; [intros d; apply last_modified_git|].
  split.
  { intros p n d Hg Hrc Hn Hout Ht. apply last_modified_git.
    by apply (git_success_numeral w f r p n d). }
  split.
  { intros [[e He]|(p & Hp & [Hrc|Hws])].
    - by apply (GitUnavailable w f r e).
    - by apply (GitNonZero w f r p).
    - apply (GitNoOutput w f r p); [done|]. by apply strip_whitespace_only. }
  split; [intros m d; apply last_modified_mtime|].
  intros Hgit Hstat.
  pose proof (last_modified_now w f r Hgit Hstat) as Hnow.
  split; [done|]. intros Hclock.
  unfold age_of, last_modified_of. rewrite Hnow.
  by apply days_since_same_day.
Qed.

Lemma last_modified_resolution_witness :
  let f := ["vault"; "P"; "Inbox"; "a.md"] in
  get_file_last_modified (git_world 0 "1736510400
") ["test.md"] [] = Ok (1736510400 * US_PER_SECOND)
  /\ get_file_last_modified (git_world 1 "") ["test.md"] [] = Ok (NOON - HOUR)
  /\ get_file_last_modified (git_world 0 "  ") ["test.md"] [] = Ok (NOON - HOUR)
  /\ get_file_last_modified (git_world 0 "fatal") ["test.md"] [] = Ok (NOON - HOUR)
  /\ get_file_last_modified (git_world 0 "99999999999999") ["test.md"] []
     = Ok (NOON - HOUR)
  /\ get_file_last_modified aging_world f ["vault"] = Ok (97 * DAY)
  /\ get_file_last_modified blind_world f ["vault"] = Ok (100 * DAY)
  /\ age_of blind_world ["vault"] f = 0.
Proof.
  intros f.
  split.
  { destruct (last_modified_resolution (git_world 0 "1736510400
") ["test.md"] []) as (_ & _ & _ & Hgit & _).
    apply (Hgit {| returncode := 0; stdout := "1736510400
" |} 1736510400); [reflexivity|reflexivity|lia|reflexivity|reflexivity]. }
  split.
  { destruct (last_modified_resolution (git_world 1 "") ["test.md"] [])
      as (_ & _ & _ & _ & Hfail & Hmtime & _).
    apply (Hmtime (NOON - HOUR)); [|reflexivity|reflexivity].
    apply Hfail. right. exists {| returncode := 1; stdout := "" |}.
    split; [reflexivity|]. left. discriminate. }
  split.
  { destruct (last_modified_resolution (git_world 0 "  ") ["test.md"] [])
      as (_ & _ & _ & _ & Hfail & Hmtime & _).
    apply (Hmtime (NOON - HOUR)); [|reflexivity|reflexivity].
    apply Hfail. right. exists {| returncode := 0; stdout := "  " |}.
    split; [reflexivity|]. right. by repeat split. }
  split.
  { destruct (last_modified_resolution (git_world 0 "fatal") ["test.md"] [])
      as (_ & _ & _ & _ & _ & Hmtime & _).
    apply (Hmtime (NOON - HOUR)); [|reflexivity|reflexivity].
    by apply (GitNotANumber _ _ _ {| returncode := 0; stdout := "fatal" |}). }
  split.
  { destruct (last_modified_resolution (git_world 0 "99999999999999") ["test.md"] [])
      as (_ & _ & _ & _ & _ & Hmtime & _).
    apply (Hmtime (NOON - HOUR)); [|reflexivity|reflexivity].
    by apply (GitOutOfRange _ _ _ {| returncode := 0; stdout := "99999999999999" |}
                99999999999999 ValueError). }
  split.
  { destruct (last_modified_resolution aging_world f ["vault"])
      as (_ & _ & _ & _ & Hfail & Hmtime & _).
    apply (Hmtime (97 * DAY)); [|reflexivity|reflexivity].
    apply Hfail. left. by exists OSError. }
  destruct (last_modified_resolution blind_world f ["vault"])
    as (_ & _ & _ & _ & Hfail & _ & Hnow).
  assert (git_failure blind_world f ["vault"]) as Hgit
    by (apply Hfail; left; by exists OSError).
  assert (mtime_failure blind_world f) as Hstat
    by (by apply (StatFails _ _ FileNotFoundError)).
  destruct (Hnow Hgit Hstat) as [Hres Hage].
  split; [exact Hres|].
  apply Hage. vm_compute. split; [discriminate|reflexivity].
Defined.

End LastModifiedClaim.

(** ** Manifest drift, by the rows of the manifest *)

Section DriftClaim.
Import Fs VaultCleaner.

Lemma parse_table lines names :
  table_lines lines names ->
  forall entries,
    foldl parse_manifest_line entries lines = list_to_set names ∪ entries.
Proof.
  induction 1 as [|name description lines names (_ & _ & Hsafe) _ IH
                  |line lines names Hline _ IH]; intros entries.
  - cbn. by rewrite union_empty_l_L.
  - cbn [foldl list_to_set]. rewrite IH, (parse_row _ _ _ Hsafe).
    apply set_eq. intros x. rewrite !elem_of_union. tauto.
  - cbn [foldl]. rewrite IH. f_equal. unfold parse_manifest_line.
    by rewrite Hline, andb_false_r.
Qed.

(** C7: for every pillar with a Knowledge folder, [check_manifest_sync]
    reports the pillar exactly when the set of names parsed from its
    manifest differs from the set of the stems of its notes, which are
    the [*.md] entries of the folder but the manifest; [add] is then the
    ascending list of the stems present as files and absent from the
    manifest, [remove] the ascending list of the names present in the
    manifest and absent as files. What is parsed from a manifest that is
    a table are the names between double brackets of its rows, and
    nothing is parsed from a missing manifest. *)
Theorem manifest_drift_reported (fs : node) (r : path) (pillars : list string)
    (pillar : string) :
  get_pillars fs r = Ok pillars ->
  pillar ∈ pillars ->
  exists_ fs (r // pillar // "Knowledge") = true ->
  let knowledge_dir := r // pillar // "Knowledge" in
  let manifest_entries := parse_manifest fs (knowledge_dir // "MANIFEST.md") in
  let note_stems : gset string := list_to_set (stem <$> notes fs knowledge_dir) in
  (forall text names,
     read_text fs (knowledge_dir // "MANIFEST.md") = Ok text ->
     table_lines (Py.readlines text) names ->
     manifest_entries = list_to_set names)
  /\ (exists_ fs (knowledge_dir // "MANIFEST.md") = false -> manifest_entries = ∅)
  /\ exists issues,
       check_manifest_sync fs r = Ok issues
       /\ (is_Some (dict_get pillar issues) <-> manifest_entries <> note_stems)
       /\ (forall issue, dict_get pillar issues = Some issue ->
             ascending (add issue)
             /\ (forall s, s ∈ add issue <-> s ∈ note_stems /\ s ∉ manifest_entries)
             /\ ascending (remove issue)
             /\ (forall s, s ∈ remove issue <-> s ∈ manifest_entries /\ s ∉ note_stems)).
Proof.
  intros Hp Hin Hex. cbv zeta.
  split.
  { intros text names Hr Ht. rewrite (parse_manifest_read_text _ _ _ Hr).
    by rewrite (parse_table _ _ Ht), union_empty_r_L. }
  split.
  { intros Hm. unfold parse_manifest. by rewrite Hm. }
  exists (foldl (record_drift fs r) [] pillars).
  split; [by apply check_manifest_sync_spec|].
  rewrite dict_get_drift, decide_True by done.
  unfold drift_of. rewrite Hex. rewrite get_actual_files_notes.
  set (listed_ := parse_manifest fs _).
  set (actual := list_to_set _).
  destruct (truthy (elements (actual ∖ listed_))
            || truthy (elements (listed_ ∖ actual))) eqn:E.
  - split.
    + split; [|by eauto]. intros _.
      apply not_eq_sym, sets_differ.
      apply orb_true_iff in E as [E|E]; apply truthy_elements in E; auto.
    + intros issue [= <-]. simpl.
      split; [apply sorted_str_ascending, NoDup_elements|].
      split.
      { intros s. unfold Py.sorted_str. rewrite elem_of_sorted, elem_of_elements.
        apply elem_of_difference. }
      split; [apply sorted_str_ascending, NoDup_elements|].
      intros s. unfold Py.sorted_str. rewrite elem_of_sorted, elem_of_elements.
      apply elem_of_difference.
  - split; [|done]. split; [by intros [? ?]|].
    intros Hne. exfalso.
    apply not_eq_sym, sets_differ in Hne.
    apply orb_false_iff in E as [E1 E2].
    destruct Hne as [H|H]; apply truthy_elements in H; congruence.
Qed.

End DriftClaim.

Lemma manifest_drift_reported_witness :
  let knowledge_dir := ["vault"; "Personal"; "Knowledge"] in
  let manifest_entries :=
    VaultCleaner.parse_manifest ghost_fs (knowledge_dir // "MANIFEST.md") in
  let note_stems : gset string := list_to_set (Fs.stem <$> notes ghost_fs knowledge_dir) in
  manifest_entries = {[ "Ghost" ]}
  /\ note_stems = {[ "New" ]}
  /\ exists issues,
       VaultCleaner.check_manifest_sync ghost_fs ["vault"] = Ok issues
       /\ dict_get "Personal" issues
          = Some {| VaultCleaner.add := ["New"]; VaultCleaner.remove := ["Ghost"] |}
       /\ (is_Some (dict_get "Personal" issues) <-> manifest_entries <> note_stems)
       /\ (forall issue, dict_get "Personal" issues = Some issue ->
             ascending (VaultCleaner.add issue)
             /\ (forall s, s ∈ VaultCleaner.add issue
                           <-> s ∈ note_stems /\ s ∉ manifest_entries)
             /\ ascending (VaultCleaner.remove issue)
             /\ (forall s, s ∈ VaultCleaner.remove issue
                           <-> s ∈ manifest_entries /\ s ∉ note_stems)).
Proof.
  cbv zeta.
  destruct (manifest_drift_reported ghost_fs ["vault"] ["Personal"] "Personal")
    as (Htable & _ & issues & Hcheck & Hiff & Hissue).
  - reflexivity.
  - apply elem_of_cons. by left.
  - reflexivity.
  - split.
    { etransitivity; [|apply (union_empty_r_L (C := gset string))].
      apply (Htable _ ["Ghost"] eq_refl). cbn.
      apply table_other; [reflexivity|].
      apply table_other; [reflexivity|].
      apply table_other; [reflexivity|].
      apply table_other; [reflexivity|].
      apply (table_row "Ghost" "Does not exist"); [by repeat split|].
      apply table_end. }
    split; [apply (union_empty_r_L (C := gset string))|].
    exists issues. split; [exact Hcheck|]. split; [|by split].
    assert (VaultCleaner.check_manifest_sync ghost_fs ["vault"]
            = Ok [("Personal", {| VaultCleaner.add := ["New"];
                                  VaultCleaner.remove := ["Ghost"] |})]) as Hrun
      by (vm_compute; reflexivity).
    rewrite Hrun in Hcheck. injection Hcheck as <-. reflexivity.
Defined.

(** ** The sections of the issue body, line by line *)

Section IssueSections.
Import VaultCleaner.

Lemma all_digits_free c ds :
  Py.digit c = None -> all_digits ds = true -> char_in c ds = false.
Proof.
  intros Hc. induction ds as [|d ds IH]; [done|]. cbn [all_digits char_in].
  destruct (Py.digit d) eqn:E; [|done]. intros Hd. rewrite (IH Hd), orb_false_r.
  destruct (Ascii.eqb_spec d c) as [->|]; [congruence|done].
Qed.

Lemma str_free c n :
  Py.digit c = None -> c <> "-"%char -> char_in c (Py.str n) = false.
Proof.
  intros Hc Hdash. destruct n as [|p|p].
  - change (Ascii.eqb "0" c || false = false).
    destruct (Ascii.eqb_spec "0" c) as [<-|]; [by vm_compute in Hc|done].
  - unfold Py.str, pretty, pretty_Z, pretty, pretty_positive, pretty, pretty_N.
    rewrite decide_False by done.
    destruct (pretty_N_go_digits (N.pos p)) as (ds & k & Hne & Hd & Hgo & Hint); [lia|].
    rewrite Hgo, append_nil_r. by apply all_digits_free.
  - unfold Py.str, pretty, pretty_Z, pretty, pretty_positive, pretty, pretty_N.
    rewrite decide_False by done.
    destruct (pretty_N_go_digits (N.pos p)) as (ds & k & Hne & Hd & Hgo & Hint); [lia|].
    rewrite Hgo, append_nil_r. cbn [String.append char_in].
    destruct (Ascii.eqb_spec "-" c) as [<-|]; [done|]. by apply all_digits_free.
Qed.

Lemma str_no_break c n : c = Py.LF \/ c = Py.CR -> char_in c (Py.str n) = false.
Proof. intros [-> | ->]; by apply str_free. Qed.

Lemma Forall_map_free {A} c (f : A -> string) (l : list A) :
  Forall (fun x => char_in c (f x) = false) l ->
  Forall (fun s => char_in c s = false) (map f l).
Proof. induction 1; by constructor. Qed.

Lemma manifest_blocks_free c (issues : dict ManifestIssue) (init : list string) :
  c = Py.LF \/ c = Py.CR ->
  Forall (fun s => char_in c s = false) init ->
  Forall (fun entry =>
            char_in c (fst entry) = false
            /\ Forall (fun s => char_in c s = false) (add (snd entry))
            /\ Forall (fun s => char_in c s = false) (remove (snd entry))) issues ->
  Forall (fun s => char_in c s = false)
    (foldl (fun lines '(pillar, issues) =>
              let lines :=
                lines ++ ["### " +:+ pillar +:+ "/Knowledge/MANIFEST.md"; ""] in
              let lines :=
                lines ++ map (fun name => "- Add: `[[" +:+ name +:+ "]]`") (add issues) in
              let lines :=
                lines ++ map (fun name => "- Remove: `[[" +:+ name +:+ "]]`")
                             (remove issues) in
              lines ++ [""])
           init issues).
Proof.
  intros Hc. revert init.
  induction issues as [|[pillar issue] issues IH]; intros init Hinit Hall; [done|].
  apply Forall_cons in Hall as [(Hp & Ha & Hr) Hall]. cbn [fst snd] in Hp, Ha, Hr.
  cbn [foldl]. apply IH; [|done]. cbv zeta.
  repeat apply Forall_app_2; [done| | | |by constructor].
  - constructor; [|by constructor]. rewrite !char_in_append, Hp.
    destruct Hc as [-> | ->]; reflexivity.
  - apply Forall_map_free. eapply Forall_impl; [exact Ha|].
    intros name Hn. cbn beta. rewrite !char_in_append, Hn.
    destruct Hc as [-> | ->]; reflexivity.
  - apply Forall_map_free. eapply Forall_impl; [exact Hr|].
    intros name Hn. cbn beta. rewrite !char_in_append, Hn.
    destruct Hc as [-> | ->]; reflexivity.
Qed.

Lemma item_blocks_free c (folder : string) (items : dict (list FileItem))
    (init : list string) :
  c = Py.LF \/ c = Py.CR ->
  char_in c folder = false ->
  Forall (fun s => char_in c s = false) init ->
  Forall (fun entry =>
            char_in c (fst entry) = false
            /\ Forall (fun item => char_in c (item_name item) = false) (snd entry))
         items ->
  Forall (fun s => char_in c s = false)
    (foldl (fun lines '(pillar, items) =>
              let lines := lines ++ ["### " +:+ pillar +:+ folder; ""] in
              let lines :=
                lines ++ map (fun item =>
                                "- `" +:+ item_name item +:+ "` ("
                                  +:+ Py.str (age_days item) +:+ " days)")
                             items in
              lines ++ [""])
           init items).
Proof.
  intros Hc Hfolder. revert init.
  induction items as [|[pillar its] items IH]; intros init Hinit Hall; [done|].
  apply Forall_cons in Hall as [(Hp & Hi) Hall]. cbn [fst snd] in Hp, Hi.
  cbn [foldl]. apply IH; [|done]. cbv zeta.
  repeat apply Forall_app_2; [done| | |by constructor].
  - constructor; [|by constructor]. rewrite !char_in_append, Hp, Hfolder.
    destruct Hc as [-> | ->]; reflexivity.
  - apply Forall_map_free. eapply Forall_impl; [exact Hi|].
    intros item Hn. cbn beta. rewrite !char_in_append, Hn, (str_no_break c _ Hc).
    destruct Hc as [-> | ->]; reflexivity.
Qed.

Lemma single_line_findings_free c (manifest_issues : dict ManifestIssue)
    (inbox_items stale_projects : dict (list FileItem)) :
  c = Py.LF \/ c = Py.CR ->
  single_line_findings manifest_issues inbox_items stale_projects ->
  Forall (fun entry =>
            char_in c (fst entry) = false
            /\ Forall (fun s => char_in c s = false) (add (snd entry))
            /\ Forall (fun s => char_in c s = false) (remove (snd entry)))
         manifest_issues
  /\ Forall (fun entry =>
               char_in c (fst entry) = false
               /\ Forall (fun item => char_in c (item_name item) = false) (snd entry))
            inbox_items
  /\ Forall (fun entry =>
               char_in c (fst entry) = false
               /\ Forall (fun item => char_in c (item_name item) = false) (snd entry))
            stale_projects.
Proof.
  intros Hc [Hm His]. apply Forall_app in His as [Hi Hs].
  assert (forall s, single_line s -> char_in c s = false) as Hline.
  { intros s [H1 H2]. by destruct Hc as [-> | ->]. }
  split; [|split].
  - eapply Forall_impl; [exact Hm|]. intros entry (H1 & H2 & H3).
    split; [by apply Hline|].
    split; (eapply Forall_impl; [eassumption|exact Hline]).
  - eapply Forall_impl; [exact Hi|]. intros entry (H1 & H2).
    split; [by apply Hline|].
    eapply Forall_impl; [exact H2|]. intros item. apply Hline.
  - eapply Forall_impl; [exact Hs|]. intros entry (H1 & H2).
    split; [by apply Hline|].
    eapply Forall_impl; [exact H2|]. intros item. apply Hline.
Qed.

Lemma issue_lines_free c (manifest_issues : dict ManifestIssue)
    (inbox_items stale_projects : dict (list FileItem)) :
  c = Py.LF \/ c = Py.CR ->
  single_line_findings manifest_issues inbox_items stale_projects ->
  Forall (fun s => char_in c s = false)
    (generate_issue_lines manifest_issues inbox_items stale_projects).
Proof.
  intros Hc Hfind.
  destruct (single_line_findings_free c _ _ _ Hc Hfind) as (Hm & Hi & Hs).
  unfold generate_issue_lines.
  destruct (truthy manifest_issues), (truthy inbox_items), (truthy stale_projects);
    cbv zeta;
    repeat first
      [ apply Forall_app_2
      | apply (manifest_blocks_free c _ _ Hc); [|exact Hm]
      | apply (item_blocks_free c "/Inbox/" _ _ Hc); [| |exact Hi]
      | apply (item_blocks_free c "/Projects/" _ _ Hc); [| |exact Hs] ];
    try (destruct Hc as [-> | ->]; repeat constructor).
Qed.

Lemma issue_lines_footer (manifest_issues : dict ManifestIssue)
    (inbox_items stale_projects : dict (list FileItem)) :
  exists lines,
    generate_issue_lines manifest_issues inbox_items stale_projects = lines ++ [""].
Proof.
  unfold generate_issue_lines.
  destruct (truthy manifest_issues), (truthy inbox_items), (truthy stale_projects);
    cbv zeta;
    match goal with
    | |- exists lines, ?init ++ [?a; ?b; ?d; ""] = _ =>
        exists (init ++ [a; b; d]); exact (app_assoc init [a; b; d] [""])
    end.
Qed.

Lemma heading_line l :
  is_section_heading (l +:+ String Py.LF "") <-> is_section_heading l.
Proof.
  unfold is_section_heading, Py.startswith.
  destruct l as [|a [|b [|d l]]]; cbn [String.append];
    rewrite ?prefix_cons, ?prefix_cons_nil, ?prefix_nil; cbn [Ascii.eqb Bool.eqb];
    done.
Qed.

Lemma filter_heading_lines (ls : list string) :
  filter is_section_heading ((fun l => l +:+ String Py.LF "") <$> ls)
  = (fun l => l +:+ String Py.LF "") <$> filter is_section_heading ls.
Proof.
  induction ls as [|l ls IH]; [done|]. cbn [fmap list_fmap].
  rewrite !filter_cons.
  destruct (decide (is_section_heading (l +:+ String Py.LF ""))) as [H|H],
    (decide (is_section_heading l)) as [H'|H'].
  - cbn [fmap list_fmap]. by rewrite <- IH.
  - destruct (H' (proj1 (heading_line l) H)).
  - destruct (H (proj2 (heading_line l) H')).
  - exact IH.
Qed.

Lemma join_free c sep ls :
  char_in c sep = false ->
  Forall (fun s => char_in c s = false) ls ->
  char_in c (Py.join sep ls) = false.
Proof.
  intros Hsep. induction 1 as [|l ls Hl Hls IH]; [done|].
  destruct ls as [|l' ls]; [done|].
  rewrite join_cons by done. by rewrite !char_in_append, Hl, Hsep, IH.
Qed.

End IssueSections.

(** X20: the numbered sections of the issue body. When the names that the
    three reports hold (pillars, notes to add and to remove, aged files)
    are without a line feed and without a carriage return, the issue body
    holds no carriage return, and those of its lines that open a section
    are, in this order, the headings of the manifest, inbox and project
    findings that are not empty, numbered 1, 2, ... without a gap
    whichever of the three are present. *)
Theorem issue_body_sections (manifest_issues : dict VaultCleaner.ManifestIssue)
    (inbox_items stale_projects : dict (list VaultCleaner.FileItem)) :
  single_line_findings manifest_issues inbox_items stale_projects ->
  char_in Py.CR
    (VaultCleaner.generate_issue_body manifest_issues inbox_items stale_projects) = false
  /\ filter is_section_heading
       (Py.readlines
          (VaultCleaner.generate_issue_body manifest_issues inbox_items stale_projects))
     = (fun l => l +:+ String Py.LF "")
         <$> numbered_headings 1
               (section_titles manifest_issues inbox_items stale_projects).
Proof.
  intros Hfind. split.
  - apply join_free; [reflexivity|]. apply issue_lines_free; [by right|done].
  - pose proof (issue_lines_free Py.LF _ _ _ (or_introl eq_refl) Hfind) as Hfree.
    pose proof (issue_sections_numbered manifest_issues inbox_items stale_projects) as Hnum.
    destruct (issue_lines_footer manifest_issues inbox_items stale_projects) as [ls Hls].
    unfold VaultCleaner.generate_issue_body. rewrite LF_literal.
    rewrite Hls in Hfree, Hnum |- *. apply Forall_app in Hfree as [Hfree _].
    rewrite readlines_join by done. rewrite filter_heading_lines. f_equal.
    rewrite <- Hnum, filter_app. cbn. by rewrite app_nil_r.
Qed.

Lemma issue_body_sections_witness :
  single_line_findings []
    [("P", [{| VaultCleaner.item_name := "a.md"; VaultCleaner.age_days := 3 |}])]
    [("Q", [{| VaultCleaner.item_name := "c.md"; VaultCleaner.age_days := 30 |}])]
  /\ char_in Py.CR
       (VaultCleaner.generate_issue_body []
          [("P", [{| VaultCleaner.item_name := "a.md"; VaultCleaner.age_days := 3 |}])]
          [("Q", [{| VaultCleaner.item_name := "c.md"; VaultCleaner.age_days := 30 |}])])
     = false
  /\ filter is_section_heading
       (Py.readlines
          (VaultCleaner.generate_issue_body []
             [("P", [{| VaultCleaner.item_name := "a.md"; VaultCleaner.age_days := 3 |}])]
             [("Q", [{| VaultCleaner.item_name := "c.md"; VaultCleaner.age_days := 30 |}])]))
     = ["## 1. Process Inbox Items" +:+ String Py.LF "";
        "## 2. Archive Stale Projects" +:+ String Py.LF ""].
Proof.
  assert (single_line_findings []
            [("P", [{| VaultCleaner.item_name := "a.md"; VaultCleaner.age_days := 3 |}])]
            [("Q", [{| VaultCleaner.item_name := "c.md"; VaultCleaner.age_days := 30 |}])])
    as Hfind by (split; repeat constructor).
  split; [exact Hfind|].
  exact (issue_body_sections _ _ _ Hfind).
Defined.

(** Without that condition a name can open a section of its own: a pillar
    whose name holds a line feed followed by a heading adds a line that
    reads as a numbered section. *)
Example issue_body_forged_section :
  In ("## 9. Forged/Inbox/" +:+ String Py.LF "")
     (Py.readlines
        (VaultCleaner.generate_issue_body []
           [("P" +:+ String Py.LF "## 9. Forged",
             [{| VaultCleaner.item_name := "a.md"; VaultCleaner.age_days := 3 |}])]
           []))
  /\ is_section_heading ("## 9. Forged/Inbox/" +:+ String Py.LF "").
Proof. split; [vm_compute; tauto|exact I]. Qed.
